(** * AuditSync-Pro: document-processing and comparison pipeline

    A shallow embedding of the service layer of the repository
    ([src/services/*.py]) together with the properties of its natural-language
    specification.

    Conventions of the embedding:
    - Python [str] is [string] (ASCII text); [bytes] is [list byte].
    - Python [float] and [numpy.float64] are IEEE 754 doubles: a finite
      double is given by its exact rational value and every operation rounds
      its exact result to the nearest double ([Binary64.round]).
    - A SQLAlchemy session is an explicit store that every operation takes
      and returns; a raised exception is the [Raise] outcome.
    - The language-model collaborator is an oracle indexed by the number of
      calls made so far, so that two calls with the same prompt may differ. *)

From Equations Require Import Equations.
From Stdlib Require Import List String Ascii Bool Arith ZArith Permutation.
From Stdlib Require Import QArith Qround Qminmax Qabs Qpower.
From Stdlib Require Strings.Byte DecimalString Floats.
From Stdlib Require Import Lia Lqa Psatz.
Import ListNotations.

Set Implicit Arguments.
Set Warnings "-register-all".
Set Warnings "-abstract-large-number".
Set Warnings "-inexact-float".

(* Numerals are natural numbers unless a scope is opened locally. *)
Close Scope Q_scope.
Close Scope Z_scope.
Open Scope nat_scope.

(* ===================================================================== *)
(** * Python string operations used by the services *)
(* ===================================================================== *)

Module PyStr.

(** [c.lower()] on one ASCII character. *)
Definition lower_ascii (c : ascii) : ascii :=
  let n := nat_of_ascii c in
  if (65 <=? n) && (n <=? 90) then ascii_of_nat (n + 32) else c.

(** [s.lower()]. *)
Fixpoint lower (s : string) : string :=
  match s with
  | EmptyString => EmptyString
  | String c r => String (lower_ascii c) (lower r)
  end.

(** [s.startswith(p)]. *)
Fixpoint startswith (s p : string) : bool :=
  match p, s with
  | EmptyString, _ => true
  | String _ _, EmptyString => false
  | String a p', String b s' => Ascii.eqb a b && startswith s' p'
  end.

(** [needle in hay]. *)
Fixpoint contains (needle hay : string) : bool :=
  startswith hay needle ||
  match hay with
  | EmptyString => false
  | String _ r => contains needle r
  end.

(** [hay.count(needle)] for a non-empty [needle]: occurrences are counted
    from the left and do not overlap; [skip] is the number of characters
    still covered by the occurrence found last. *)
Fixpoint count_from (needle hay : string) (skip : nat) : nat :=
  match hay with
  | EmptyString => 0
  | String _ r =>
      match skip with
      | S k => count_from needle r k
      | O => if startswith hay needle
             then S (count_from needle r (String.length needle - 1))
             else count_from needle r 0
      end
  end.

Definition count (hay needle : string) : nat := count_from needle hay 0.

(** The characters [str.split()] and [str.strip()] treat as white space,
    within ASCII: TAB, LF, VT, FF, CR, FS, GS, RS, US and the space. *)
Definition isspace (c : ascii) : bool :=
  let n := nat_of_ascii c in
  ((9 <=? n) && (n <=? 13)) || ((28 <=? n) && (n <=? 32)).

(** [len(s.split())]: the number of maximal runs of non-space characters.
    [inword] tells whether the previous character was part of a word. *)
Fixpoint count_words_from (s : string) (inword : bool) : nat :=
  match s with
  | EmptyString => 0
  | String c r =>
      if isspace c then count_words_from r false
      else if inword then count_words_from r true
      else S (count_words_from r true)
  end.

Definition word_count (s : string) : nat := count_words_from s false.

(** [s.lstrip()]. *)
Fixpoint lstrip (s : string) : string :=
  match s with
  | EmptyString => EmptyString
  | String c r => if isspace c then lstrip r else s
  end.

(** [s.rstrip()]: a suffix made of white space only is dropped. *)
Fixpoint rstrip (s : string) : string :=
  match s with
  | EmptyString => EmptyString
  | String c r =>
      match rstrip r with
      | EmptyString => if isspace c then EmptyString else String c EmptyString
      | r' => String c r'
      end
  end.

(** [s.strip()]. *)
Definition strip (s : string) : string := rstrip (lstrip s).

(** [s.split(sep)] for a one-character separator; the accumulator [cur]
    holds the current piece in reverse. The result is never empty. *)
Fixpoint split_from (sep : ascii) (s : string) (cur : list ascii) : list string :=
  match s with
  | EmptyString => [string_of_list_ascii (rev cur)]
  | String c r =>
      if Ascii.eqb c sep
      then string_of_list_ascii (rev cur) :: split_from sep r []
      else split_from sep r (c :: cur)
  end.

Definition split (sep : ascii) (s : string) : list string := split_from sep s [].

(** [sep.join(parts)]. *)
Fixpoint join (sep : string) (parts : list string) : string :=
  match parts with
  | [] => EmptyString
  | [p] => p
  | p :: rest => String.append p (String.append sep (join sep rest))
  end.

(** The slice [s[:n]]. *)
Fixpoint take (n : nat) (s : string) : string :=
  match n, s with
  | O, _ => EmptyString
  | _, EmptyString => EmptyString
  | S k, String c r => String c (take k r)
  end.

(** Python truthiness of a string: [bool(s)]. *)
Definition truthy (s : string) : bool :=
  match s with EmptyString => false | _ => true end.

Definition LF : ascii := ascii_of_nat 10.
Definition newline : string := String LF EmptyString.

(** Number of lines of a text, as [len(s.split('\n'))]. *)
Definition line_count (s : string) : nat := List.length (split LF s).

End PyStr.


(* ===================================================================== *)
(** * JSON values and their Python rendering *)
(* ===================================================================== *)

(** What [json.loads] returns, and what the JSON columns of the models
    hold. A [dict] keeps its insertion order, which [str] shows, so it is an
    association list. Numbers are integers here: none of the modelled code
    reads a number out of a language-model reply. *)
Inductive json : Type :=
| JNull
| JBool (b : bool)
| JInt (z : Z)
| JStr (s : string)
| JList (l : list json)
| JDict (d : list (string * json)).

Module PyDict.

(** [d.get(key, default)] on the entries of a dict. *)
Fixpoint get {V : Type} (d : list (string * V)) (key : string) (default : V) : V :=
  match d with
  | [] => default
  | (k, v) :: r => if String.eqb k key then v else get r key default
  end.

(** [key in d]. *)
Definition mem {V : Type} (d : list (string * V)) (key : string) : bool :=
  existsb (fun kv => String.eqb (fst kv) key) d.

(** [d[key] = v]: an existing key keeps its position, a new key goes last. *)
Fixpoint set {V : Type} (d : list (string * V)) (key : string) (v : V)
  : list (string * V) :=
  match d with
  | [] => [(key, v)]
  | (k, w) :: r => if String.eqb k key then (k, v) :: r else (k, w) :: set r key v
  end.

Definition keys {V : Type} (d : list (string * V)) : list string := map fst d.

End PyDict.

Module PyRepr.

Definition quote1 : ascii := ascii_of_nat 39.   (* ' *)
Definition quote2 : ascii := ascii_of_nat 34.   (* double quote *)
Definition backslash : ascii := ascii_of_nat 92.

Definition str1 (c : ascii) : string := String c EmptyString.

Definition hex_digit (n : nat) : ascii :=
  if n <? 10 then ascii_of_nat (48 + n) else ascii_of_nat (87 + n).

Fixpoint has_char (c : ascii) (s : string) : bool :=
  match s with
  | EmptyString => false
  | String a r => Ascii.eqb a c || has_char c r
  end.

(** One character inside [repr(s)], [q] being the quote that was chosen. *)
Definition escape_char (q c : ascii) : string :=
  let n := nat_of_ascii c in
  if Ascii.eqb c backslash then String backslash (str1 backslash)
  else if Ascii.eqb c q then String backslash (str1 q)
  else if n =? 10 then String backslash (str1 (ascii_of_nat 110))
  else if n =? 13 then String backslash (str1 (ascii_of_nat 114))
  else if n =? 9 then String backslash (str1 (ascii_of_nat 116))
  else if (n <? 32) || (n =? 127)
  then String backslash (String (ascii_of_nat 120)
         (String (hex_digit (n / 16)) (str1 (hex_digit (n mod 16)))))
  else str1 c.

Fixpoint escape (q : ascii) (s : string) : string :=
  match s with
  | EmptyString => EmptyString
  | String c r => String.append (escape_char q c) (escape q r)
  end.

(** [repr(s)] of a string: single quotes, unless the text has a single quote
    and no double quote. *)
Definition repr_str (s : string) : string :=
  let q := if has_char quote1 s && negb (has_char quote2 s) then quote2 else quote1 in
  String q (String.append (escape q s) (str1 q)).

Definition repr_int (z : Z) : string :=
  DecimalString.NilZero.string_of_int (Z.to_int z).

Definition comma_space : string := String (ascii_of_nat 44) (str1 (ascii_of_nat 32)).
Definition colon_space : string := String (ascii_of_nat 58) (str1 (ascii_of_nat 32)).

(** [repr(j)], which is also [str(j)] for every value but a string. *)
Fixpoint repr (j : json) : string :=
  match j with
  | JNull => "None"%string
  | JBool true => "True"%string
  | JBool false => "False"%string
  | JInt z => repr_int z
  | JStr s => repr_str s
  | JList l =>
      String.append "[" (String.append (PyStr.join comma_space (map repr l)) "]")
  | JDict d =>
      let items :=
        (fix items (d : list (string * json)) : list string :=
           match d with
           | [] => []
           | (k, v) :: r =>
               String.append (repr_str k) (String.append colon_space (repr v))
               :: items r
           end) d in
      String.append "{" (String.append (PyStr.join comma_space items) "}")
  end.

(** [str(j)]. *)
Definition str (j : json) : string :=
  match j with
  | JStr s => s
  | _ => repr j
  end.

End PyRepr.

(* ===================================================================== *)
(** * Outcomes of a call *)
(* ===================================================================== *)

(** The exceptions the modelled code raises, with their [str(e)]. *)
Inductive exn : Type :=
| ValueError (msg : string)
| AttributeError (msg : string)
| TypeError (msg : string)
| MultipleResultsFound
| DataIngestionException (msg : string)
| Exception (msg : string).   (* any other exception, of a collaborator *)

Definition exn_str (e : exn) : string :=
  match e with
  | ValueError m | AttributeError m | TypeError m | DataIngestionException m
  | Exception m => m
  | MultipleResultsFound =>
      "Multiple rows were found when one or none was required"%string
  end.

Inductive result (A : Type) : Type :=
| Return (a : A)
| Raise (e : exn).

Arguments Return {A} a.
Arguments Raise {A} e.

(* ===================================================================== *)
(** * Binary64 arithmetic *)
(* ===================================================================== *)

(** A finite [float] is given by its exact value, a rational number; every
    operation computes the exact result and rounds it to the nearest
    double, ties going to the even mantissa (IEEE 754 round-to-nearest-even,
    53 bits of precision, least exponent -1074). The sign of zero is not
    kept: the code modelled here divides by a product of norms and by a
    count, neither of which is the negative zero. *)
Module Binary64.

Local Open Scope Q_scope.

(** [2 ** e] for an integer [e]. *)
Definition pow2 (e : Z) : Q := Qpower 2 e.

(** The integer nearest to [x], exact ties going to the even neighbour. *)
Definition round_half_even (x : Q) : Z :=
  let f := Qfloor x in
  match Qcompare (x - inject_Z f) (1 # 2) with
  | Lt => f
  | Gt => (f + 1)%Z
  | Eq => if Z.even f then f else (f + 1)%Z
  end.

(** The integer [l] with [2 ** l <= x < 2 ** (l + 1)], for a positive [x]. *)
Definition floor_log2 (x : Q) : Z :=
  let a := (Z.log2 (Qnum x) - Z.log2 (Zpos (Qden x)))%Z in
  if Qle_bool (pow2 a) x then a else (a - 1)%Z.

(** The exponent of the last bit of the doubles around [x]: 52 below the
    exponent of [x], and -1074 for the subnormal numbers. *)
Definition exponent (x : Q) : Z := Z.max (floor_log2 (Qabs x) - 52) (-1074).

(** The double nearest to [x], ties to even; the value [2 ** 1024] stands
    for a result that is too large for a double. *)
Definition round (x : Q) : Q :=
  let x := Qred x in
  if Qeq_bool x 0 then 0
  else
    let e := exponent x in
    Qred (inject_Z (round_half_even (x / pow2 e)) * pow2 e).

(** Whether a rounded value is beyond the largest double. *)
Definition overflows (rounded : Q) : bool := Qle_bool (pow2 1024) (Qabs rounded).

(** The double nearest to the square root of a positive [x]. *)
Definition sqrt (x : Q) : Q :=
  let x := Qred x in
  let e := (floor_log2 x / 2 - 52)%Z in
  let y := x / pow2 (2 * e) in
  let f := Z.sqrt (Qfloor y) in
  let half := inject_Z f + (1 # 2) in
  let m :=
    match Qcompare y (half * half) with
    | Lt => f
    | Gt => (f + 1)%Z
    | Eq => if Z.even f then f else (f + 1)%Z
    end in
  Qred (inject_Z m * pow2 e).

(** [round(x, ndigits)] of Python on a finite double: the decimal number
    with [ndigits] digits after the point that is nearest to the exact
    value, ties to even, and then the double nearest to that decimal. *)
Definition py_round (x : Q) (ndigits : nat) : Q :=
  let scale := inject_Z (10 ^ Z.of_nat ndigits) in
  round (inject_Z (round_half_even (x * scale)) / scale).

End Binary64.

(* ===================================================================== *)
(** * numpy scalars *)
(* ===================================================================== *)

(** numpy and Python scalars of type [float]: a finite double, given by its
    value, or one of the three special values. *)
Module Np.

Local Open Scope Q_scope.

Inductive float64 : Type :=
| Fin (q : Q)
| NaN
| PosInf
| NegInf.

(** The double for an exact result. *)
Definition of_Q (x : Q) : float64 :=
  let r := Binary64.round x in
  if Binary64.overflows r
  then if Qle_bool 0 x then PosInf else NegInf
  else Fin r.

(** [a + b]. *)
Definition add (a b : float64) : float64 :=
  match a, b with
  | Fin x, Fin y => of_Q (x + y)
  | NaN, _ | _, NaN => NaN
  | PosInf, NegInf | NegInf, PosInf => NaN
  | PosInf, _ | _, PosInf => PosInf
  | NegInf, _ | _, NegInf => NegInf
  end.

(** The sign of a number that is not zero. *)
Definition signed (positive : bool) : float64 :=
  if positive then PosInf else NegInf.

(** [a * b]. *)
Definition mul (a b : float64) : float64 :=
  match a, b with
  | Fin x, Fin y => of_Q (x * y)
  | NaN, _ | _, NaN => NaN
  | Fin x, PosInf | PosInf, Fin x =>
      if Qeq_bool x 0 then NaN else signed (Qle_bool 0 x)
  | Fin x, NegInf | NegInf, Fin x =>
      if Qeq_bool x 0 then NaN else signed (negb (Qle_bool 0 x))
  | PosInf, PosInf | NegInf, NegInf => PosInf
  | PosInf, NegInf | NegInf, PosInf => NegInf
  end.

(** [a / b]; a division by zero gives a special value and a warning, not
    an exception. *)
Definition divide (a b : float64) : float64 :=
  match a, b with
  | Fin x, Fin y =>
      if Qeq_bool y 0
      then if Qeq_bool x 0 then NaN else signed (Qle_bool 0 x)
      else of_Q (x / y)
  | NaN, _ | _, NaN => NaN
  | Fin _, _ => Fin 0
  | PosInf, Fin y => signed (Qle_bool 0 y)
  | NegInf, Fin y => signed (negb (Qle_bool 0 y))
  | _, _ => NaN
  end.

(** [np.sqrt(a)]. *)
Definition sqrt (a : float64) : float64 :=
  match a with
  | Fin x =>
      if Qeq_bool x 0 then Fin 0
      else if Qle_bool 0 x then Fin (Binary64.sqrt x) else NaN
  | PosInf => PosInf
  | _ => NaN
  end.

(** [np.dot(a, b)] on two one-dimensional arrays: the products are added
    one after the other, each operation rounding (a BLAS kernel may add
    them in another order, which changes a sum only where it is inexact);
    [None] is the [ValueError] raised when the shapes are not aligned. *)
Fixpoint dot_from (acc : float64) (a b : list float64) : option float64 :=
  match a, b with
  | [], [] => Some acc
  | x :: a', y :: b' => dot_from (add acc (mul x y)) a' b'
  | _, _ => None
  end.

Definition dot (a b : list float64) : option float64 := dot_from (Fin 0) a b.

(** [np.linalg.norm(a)] of a one-dimensional array: [sqrt(a.dot(a))]. *)
Definition norm (a : list float64) : float64 :=
  sqrt (fold_left (fun acc x => add acc (mul x x)) a (Fin 0)).

End Np.

(* ===================================================================== *)
(** * [src/models/__init__.py] *)
(* ===================================================================== *)

Definition UUID : Type := nat.
Definition datetime : Type := Z.

(** [AuditReport.status]: uploaded, processing, processed, error. *)
Inductive report_status : Type :=
| ReportUploaded
| ReportProcessing
| ReportProcessed
| ReportError.

(** [Comparison.status]: pending, processing, completed, error. *)
Inductive comparison_status : Type :=
| CmpPending
| CmpProcessing
| CmpCompleted
| CmpError.

Record AuditReport : Type := mkAuditReport {
  report_id : UUID;
  report_company_id : UUID;
  report_type : string;
  source : string;
  file_path : string;
  file_name : string;
  file_size : option Z;
  file_hash : option string;
  status : report_status;
  raw_text : option string;
  embeddings : option (list Np.float64)
}.

Inductive materiality_level : Type := Low | Medium | High.

(** The dict [_assess_materiality] returns. *)
Record MaterialityAssessment : Type := mkMateriality {
  materiality_level_of : materiality_level;
  materiality_score : Z;
  assessment_date : datetime;
  factors_considered : list string
}.

Record Comparison : Type := mkComparison {
  comparison_id : UUID;
  comparison_company_id : UUID;
  source_report_id : UUID;
  target_report_id : UUID;
  comparison_type : string;
  comparison_status_of : comparison_status;
  similarity_score : option Np.float64;
  key_differences : option json;
  risk_alignment : option json;
  compliance_gaps : option json;
  recommendations : option json;
  section_comparisons : option (list (string * json));
  materiality_assessment : option MaterialityAssessment;
  completed_at : option datetime
}.

(** The rows a session sees. An attribute set on a loaded object is written
    by the next [commit]; no modelled path rolls back after setting one, so
    the store is updated where the attribute is set. *)
Record Session : Type := mkSession {
  audit_reports : list AuditReport;
  comparisons : list Comparison
}.

Definition with_status (st : comparison_status) (c : Comparison) : Comparison :=
  mkComparison (comparison_id c) (comparison_company_id c) (source_report_id c)
    (target_report_id c) (comparison_type c) st (similarity_score c)
    (key_differences c) (risk_alignment c) (compliance_gaps c)
    (recommendations c) (section_comparisons c) (materiality_assessment c)
    (completed_at c).

Definition with_similarity (f : Np.float64) (c : Comparison) : Comparison :=
  mkComparison (comparison_id c) (comparison_company_id c) (source_report_id c)
    (target_report_id c) (comparison_type c) (comparison_status_of c) (Some f)
    (key_differences c) (risk_alignment c) (compliance_gaps c)
    (recommendations c) (section_comparisons c) (materiality_assessment c)
    (completed_at c).

Definition with_results (kd ra cg rec : json) (now : datetime) (c : Comparison)
  : Comparison :=
  mkComparison (comparison_id c) (comparison_company_id c) (source_report_id c)
    (target_report_id c) (comparison_type c) CmpCompleted (similarity_score c)
    (Some kd) (Some ra) (Some cg) (Some rec)
    (section_comparisons c) (materiality_assessment c) (Some now).

Definition with_sections (s : list (string * json)) (c : Comparison) : Comparison :=
  mkComparison (comparison_id c) (comparison_company_id c) (source_report_id c)
    (target_report_id c) (comparison_type c) (comparison_status_of c)
    (similarity_score c) (key_differences c) (risk_alignment c)
    (compliance_gaps c) (recommendations c) (Some s) (materiality_assessment c)
    (completed_at c).

Definition with_materiality (m : MaterialityAssessment) (c : Comparison) : Comparison :=
  mkComparison (comparison_id c) (comparison_company_id c) (source_report_id c)
    (target_report_id c) (comparison_type c) (comparison_status_of c)
    (similarity_score c) (key_differences c) (risk_alignment c)
    (compliance_gaps c) (recommendations c) (section_comparisons c) (Some m)
    (completed_at c).

(** [db.query(AuditReport).filter(AuditReport.id == i).first()]. *)
Definition query_report (db : Session) (i : UUID) : option AuditReport :=
  find (fun r => report_id r =? i) (audit_reports db).

(** [db.query(Comparison).filter(Comparison.id == i).first()]. *)
Definition query_comparison (db : Session) (i : UUID) : option Comparison :=
  find (fun c => comparison_id c =? i) (comparisons db).

(** Setting attributes on the object the query above returned. *)
Fixpoint update_first (i : UUID) (f : Comparison -> Comparison) (l : list Comparison)
  : list Comparison :=
  match l with
  | [] => []
  | c :: r => if comparison_id c =? i then f c :: r else c :: update_first i f r
  end.

Definition update_comparison (i : UUID) (f : Comparison -> Comparison) (db : Session)
  : Session :=
  mkSession (audit_reports db) (update_first i f (comparisons db)).

(** [db.add(c); db.commit()]. *)
Definition add_comparison (c : Comparison) (db : Session) : Session :=
  mkSession (audit_reports db) (comparisons db ++ [c]).

(* ===================================================================== *)
(** * [src/services/ai_service.py] and [src/services/comparison_service.py] *)
(* ===================================================================== *)

(** What the body of [AIService.compare_reports] gets from the chat
    completion followed by [json.loads]: the parsed reply, or an exception
    (the collaborator failed, or the text was not JSON) with its [str(e)]. *)
Inductive llm_reply : Type :=
| LLMJson (j : json)
| LLMError (msg : string).

(** Python truthiness of an optional text and of an optional list. *)
Definition truthy_text (o : option string) : bool :=
  match o with
  | Some s => PyStr.truthy s
  | None => false
  end.

Definition truthy_list {A : Type} (o : option (list A)) : bool :=
  match o with
  | Some (_ :: _) => true
  | _ => false
  end.

Definition text_of (o : option string) : string :=
  match o with
  | Some s => s
  | None => EmptyString
  end.

Definition list_of {A : Type} (o : option (list A)) : list A :=
  match o with
  | Some l => l
  | None => []
  end.

(** [AIService.calculate_similarity]: a shape mismatch raises inside the
    [try] and the handler returns [0.0]. *)
Definition calculate_similarity (embeddings_a embeddings_b : list Np.float64)
  : Np.float64 :=
  match Np.dot embeddings_a embeddings_b with
  | Some dot_product =>
      let norm_a := Np.norm embeddings_a in
      let norm_b := Np.norm embeddings_b in
      let similarity := Np.divide dot_product (Np.mul norm_a norm_b) in
      Np.divide (Np.add similarity (Np.Fin 1)) (Np.Fin 2)
  | None => Np.Fin 0
  end.

(** The section names of [_analyze_sections], in order. *)
Definition sections : list string :=
  [ "Executive Summary"; "Scope and Methodology"; "Key Findings";
    "Material Weaknesses"; "Significant Deficiencies"; "Risk Assessment";
    "Recommendations"; "Management Response" ]%string.

(** The words that end a section in [_extract_section]. *)
Definition headers : list string :=
  [ "summary"; "scope"; "findings"; "recommendations" ]%string.

(** The size limit written in [_extract_section]. *)
Definition section_limit : nat := 50.

(** The loop of [_extract_section] over the remaining lines. *)
Fixpoint extract_loop (section_name : string) (lines : list string)
  (in_section : bool) (section_content : list string) : list string :=
  match lines with
  | [] => section_content
  | line :: rest =>
      if PyStr.contains (PyStr.lower section_name) (PyStr.lower line)
      then extract_loop section_name rest true section_content
      else if in_section
      then
        if existsb (fun header => PyStr.contains header (PyStr.lower line)) headers
           && (PyStr.truthy (PyStr.strip line)
               && negb (PyStr.startswith line " "))
        then section_content
        else
          let section_content := section_content ++ [line] in
          if section_limit <? List.length section_content
          then section_content
          else extract_loop section_name rest true section_content
      else extract_loop section_name rest false section_content
  end.

(** [ComparisonService._extract_section]. *)
Definition _extract_section (text section_name : string) : option string :=
  let lines := PyStr.split PyStr.LF text in
  match extract_loop section_name lines false [] with
  | [] => None
  | section_content => Some (PyStr.strip (PyStr.join PyStr.newline section_content))
  end.

(** The three tests of [_assess_materiality] on
    [str(comparison_result).lower()]. *)
Definition mentions_material_weaknesses (comparison_result : json) : bool :=
  PyStr.contains "material_weaknesses" (PyStr.lower (PyRepr.str comparison_result)).

Definition mentions_significant_deficiencies (comparison_result : json) : bool :=
  PyStr.contains "significant_deficiencies" (PyStr.lower (PyRepr.str comparison_result)).

Definition mentions_compliance (comparison_result : json) : bool :=
  PyStr.contains "compliance" (PyStr.lower (PyRepr.str comparison_result)).

Definition level_of_score (materiality_score : Z) : materiality_level :=
  if (5 <=? materiality_score)%Z then High
  else if (3 <=? materiality_score)%Z then Medium
  else Low.

(** [ComparisonService._assess_materiality]; nothing in its [try] block can
    raise, so its handler is left out. *)
Definition _assess_materiality (comparison_result : json) (now : datetime)
  : MaterialityAssessment :=
  let materiality_score := 0%Z in
  let materiality_score :=
    if mentions_material_weaknesses comparison_result
    then (materiality_score + 3)%Z else materiality_score in
  let materiality_score :=
    if mentions_significant_deficiencies comparison_result
    then (materiality_score + 2)%Z else materiality_score in
  let materiality_score :=
    if mentions_compliance comparison_result
    then (materiality_score + 2)%Z else materiality_score in
  mkMateriality (level_of_score materiality_score) materiality_score now
    [ "Material weaknesses"; "Significant deficiencies"; "Compliance issues" ]%string.

(** The name Python prints for the type of a parsed JSON value. *)
Definition type_name (j : json) : string :=
  match j with
  | JNull => "NoneType"
  | JBool _ => "bool"
  | JInt _ => "int"
  | JStr _ => "str"
  | JList _ => "list"
  | JDict _ => "dict"
  end%string.

(** [j.get(key, default)]: only a dict has the method. *)
Definition py_get (j : json) (key : string) (default : json) : result json :=
  match j with
  | JDict d => Return (PyDict.get d key default)
  | _ => Raise (AttributeError
           (String.append "'" (String.append (type_name j)
              "' object has no attribute 'get'")))
  end.

(** What [process_comparison] returns. *)
Record ProcessResult : Type := mkProcessResult {
  result_comparison_id : UUID;
  result_status : comparison_status;
  result_similarity_score : Np.float64;
  results : json
}.

Section Services.

(** The language model: its reply to the [n]-th call, given the two
    truncated texts that fill the prompt. *)
Variable llm : nat -> string -> string -> llm_reply.

(** The clock: the value of the [n]-th [datetime.utcnow()]. *)
Variable utcnow : nat -> datetime.

(** [AIService.compare_reports], as the call number [n]. It never raises:
    every exception becomes a dict with the single key ['error']. *)
Definition compare_reports (n : nat) (report_a report_b : string) : json :=
  let report_a_truncated := PyStr.take 2000 report_a in
  let report_b_truncated := PyStr.take 2000 report_b in
  match llm n report_a_truncated report_b_truncated with
  | LLMJson comparison => comparison
  | LLMError e =>
      JDict [ ("error"%string,
               JStr (String.append "Failed to compare reports: " e)) ]
  end.

(** The loop of [_analyze_sections]; [n] counts the calls made to the
    language model so far. *)
Fixpoint analyze_loop (source_text target_text : string) (todo : list string)
  (n : nat) (section_analysis : list (string * json))
  : list (string * json) * nat :=
  match todo with
  | [] => (section_analysis, n)
  | section :: rest =>
      let source_section := _extract_section source_text section in
      let target_section := _extract_section target_text section in
      if truthy_text source_section && truthy_text target_section
      then
        let comparison :=
          compare_reports n (text_of source_section) (text_of target_section) in
        analyze_loop source_text target_text rest (S n)
          (PyDict.set section_analysis section comparison)
      else analyze_loop source_text target_text rest n section_analysis
  end.

(** [ComparisonService._analyze_sections]; nothing it calls raises. *)
Definition _analyze_sections (source_text target_text : string) (n : nat)
  : list (string * json) * nat :=
  analyze_loop source_text target_text sections n [].

(** [ComparisonService.create_comparison]; [new_id] is the key the database
    gives the new row. *)
Definition create_comparison (db : Session) (new_id company_id : UUID)
  (source_report_id target_report_id : UUID) (comparison_type : string)
  : result Comparison * Session :=
  match query_report db source_report_id, query_report db target_report_id with
  | Some _, Some _ =>
      let comparison :=
        mkComparison new_id company_id source_report_id target_report_id
          comparison_type CmpPending None None None None None None None None in
      (Return comparison, add_comparison comparison db)
  | _, _ =>
      (Raise (ValueError
         "Failed to create comparison: One or both reports not found"), db)
  end.

(** The handler of [process_comparison], entered with the exception [e]. *)
Definition process_comparison_failed (db : Session) (comparison_id : UUID)
  (e : exn) : result ProcessResult * Session :=
  let db :=
    match query_comparison db comparison_id with
    | Some _ => update_comparison comparison_id (with_status CmpError) db
    | None => db
    end in
  (Raise (ValueError (String.append "Failed to process comparison: " (exn_str e))),
   db).

(** [ComparisonService.process_comparison]. *)
Definition process_comparison (db : Session) (comparison_id : UUID)
  : result ProcessResult * Session :=
  match query_comparison db comparison_id with
  | None =>
      process_comparison_failed db comparison_id (ValueError "Comparison not found")
  | Some comparison =>
      let db := update_comparison comparison_id (with_status CmpProcessing) db in
      match query_report db (source_report_id comparison),
            query_report db (target_report_id comparison) with
      | Some source_report, Some target_report =>
          if negb (truthy_text (raw_text source_report))
             || negb (truthy_text (raw_text target_report))
          then process_comparison_failed db comparison_id
                 (ValueError "Reports must be processed before comparison")
          else
            let comparison_result :=
              compare_reports 0 (text_of (raw_text source_report))
                (text_of (raw_text target_report)) in
            let similarity_score :=
              if truthy_list (embeddings source_report)
                 && truthy_list (embeddings target_report)
              then calculate_similarity (list_of (embeddings source_report))
                     (list_of (embeddings target_report))
              else Np.Fin 0 in
            let db :=
              update_comparison comparison_id (with_similarity similarity_score) db in
            match py_get comparison_result "key_differences" (JDict []) with
            | Raise e => process_comparison_failed db comparison_id e
            | Return kd =>
            match py_get comparison_result "risk_alignment" (JDict []) with
            | Raise e => process_comparison_failed db comparison_id e
            | Return ra =>
            match py_get comparison_result "compliance_gaps" (JDict []) with
            | Raise e => process_comparison_failed db comparison_id e
            | Return cg =>
            match py_get comparison_result "recommendations" (JDict []) with
            | Raise e => process_comparison_failed db comparison_id e
            | Return rec =>
                let db :=
                  update_comparison comparison_id
                    (with_results kd ra cg rec (utcnow 0)) db in
                let (section_analysis, _) :=
                  _analyze_sections (text_of (raw_text source_report))
                    (text_of (raw_text target_report)) 1 in
                let db :=
                  update_comparison comparison_id (with_sections section_analysis) db in
                let materiality := _assess_materiality comparison_result (utcnow 1) in
                let db :=
                  update_comparison comparison_id (with_materiality materiality) db in
                (Return (mkProcessResult comparison_id CmpCompleted
                           similarity_score comparison_result), db)
            end end end end
      | None, _ =>
          process_comparison_failed db comparison_id
            (AttributeError "'NoneType' object has no attribute 'raw_text'")
      | Some source_report, None =>
          if negb (truthy_text (raw_text source_report))
          then process_comparison_failed db comparison_id
                 (ValueError "Reports must be processed before comparison")
          else process_comparison_failed db comparison_id
                 (AttributeError "'NoneType' object has no attribute 'raw_text'")
      end
  end.

End Services.

(* ===================================================================== *)
(** * [src/services/report_processing_service.py] *)
(* ===================================================================== *)

Module ReportProcessing.

Local Open Scope Q_scope.

(** [a / b] on two [int]s, [b] not zero: the double nearest to the exact
    quotient; [None] is the [OverflowError] raised when that is beyond the
    largest double. *)
Definition true_divide (a b : Z) : option Q :=
  let quotient := Binary64.round (inject_Z a / inject_Z b) in
  if Binary64.overflows quotient then None else Some quotient.

(** [round(x, 2)]. *)
Definition round2 (x : Q) : Q := Binary64.py_round x 2.

(** The dict [frameworks] of [_assess_compliance_scores], in order. *)
Definition frameworks : list (string * string) :=
  [ ("SOX", "Sarbanes-Oxley compliance");
    ("COSO", "COSO framework adherence");
    ("PCAOB", "PCAOB standards compliance");
    ("SEC", "SEC reporting requirements") ]%string.

(** The dict [framework_keywords] of [_calculate_framework_score]. *)
Definition framework_keywords : list (string * list string) :=
  [ ("SOX", ["internal control"; "material weakness";
             "significant deficiency"; "financial reporting"]);
    ("COSO", ["control environment"; "risk assessment";
              "control activities"; "monitoring"]);
    ("PCAOB", ["audit standard"; "audit opinion"; "audit evidence"; "audit risk"]);
    ("SEC", ["disclosure"; "financial statement"; "filing"; "regulation"]) ]%string.

(** [sum(text_lower.count(keyword) for keyword in keywords)]. *)
Definition keyword_occurrences (text_lower : string) (keywords : list string) : nat :=
  list_sum (map (PyStr.count text_lower) keywords).

(** [ReportProcessingService._calculate_framework_score]. The score is
    given by its value: the [int] 100 that [min] returns for a larger
    product and the [float] 100.0 are the same number. A product beyond the
    largest double is [inf], which [min] replaces by 100. The division of
    the two [int]s is the one step of the [try] block that can raise, and
    the handler returns [0.0]. *)
Definition _calculate_framework_score (text framework : string) : Q :=
  let text_lower := PyStr.lower text in
  let keywords := PyDict.get framework_keywords framework [] in
  let keyword_count := keyword_occurrences text_lower keywords in
  let word_count := PyStr.word_count text in
  let frequency :=
    if (0 <? word_count)%nat
    then true_divide (Z.of_nat keyword_count) (Z.of_nat word_count)
    else Some 0 in
  match frequency with
  | Some frequency =>
      let score := Qmin (Binary64.round (frequency * 1000)) 100 in
      round2 score
  | None => 0
  end.

(** One value of the dict [_assess_compliance_scores] returns. *)
Record ComplianceScore : Type := mkComplianceScore {
  score : Q;
  description : string;
  assessment_date : datetime
}.

(** The loop of [_assess_compliance_scores]; [n] counts the readings of the
    clock made so far. *)
Fixpoint assess_loop (utcnow : nat -> datetime) (text : string)
  (todo : list (string * string)) (n : nat)
  (compliance_scores : list (string * ComplianceScore))
  : list (string * ComplianceScore) :=
  match todo with
  | [] => compliance_scores
  | (framework, description) :: rest =>
      let score := _calculate_framework_score text framework in
      assess_loop utcnow text rest (S n)
        (PyDict.set compliance_scores framework
           (mkComplianceScore score description (utcnow n)))
  end.

(** [ReportProcessingService._assess_compliance_scores]. *)
Definition _assess_compliance_scores (utcnow : nat -> datetime) (text : string)
  : list (string * ComplianceScore) :=
  assess_loop utcnow text frameworks 0 [].

(** The score as the specification words it: occurrences over words, times
    the factor, capped, and 0 for a text without words. *)
Definition spec_framework_score (text framework : string) : Q :=
  let keyword_count :=
    keyword_occurrences (PyStr.lower text)
      (PyDict.get framework_keywords framework []) in
  let word_count := PyStr.word_count text in
  if (word_count =? 0)%nat then 0
  else Qmin ((Z.of_nat keyword_count # Pos.of_nat word_count) * 1000) 100.

End ReportProcessing.

(* ===================================================================== *)
(** * [src/services/document_processor.py]: the content hash *)
(* ===================================================================== *)

Module DocumentProcessor.

Import Strings.Byte.

(** The block size of [calculate_hash]. *)
Definition chunk_size : nat := 4096.

(** The loop [for chunk in iter(lambda: f.read(4096), b'')]: [rest] is what
    the file still holds after the position, [fed] is everything given to
    [sha256_hash.update] so far. A read returns [b''] only at the end. *)
Equations? feed_chunks (rest fed : list byte) : list byte by wf (List.length rest) lt :=
  feed_chunks [] fed := fed;
  feed_chunks (b :: r) fed :=
    feed_chunks (skipn chunk_size (b :: r)) (fed ++ firstn chunk_size (b :: r)).
Proof.
  pose proof (length_skipn chunk_size (b :: r)) as H.
  unfold chunk_size in *. simpl List.length in H. lia.
Qed.

Section Hash.

(** [hashlib.sha256(data).hexdigest()]. An object fed by successive
    [update] calls gives the digest of the concatenation of what it was
    fed. *)
Variable sha256_hexdigest : list byte -> string.

(** [DocumentProcessor.calculate_hash], on the bytes of the file. *)
Definition calculate_hash (file_content : list byte) : string :=
  sha256_hexdigest (feed_chunks file_content []).

End Hash.

End DocumentProcessor.

(* ===================================================================== *)
(** * [src/services/audit_service.py]: uploads *)
(* ===================================================================== *)

Module AuditService.

Import Strings.Byte.

(** The columns of [src.models.database_models.AuditReport] that
    [AuditService] reads and writes, as its constructor call and its
    assignments name them. *)
Record AuditReport : Type := mkAuditReport {
  id : UUID;
  company_id : option string;
  title : string;
  report_type : string;
  file_path : string;
  file_name : string;
  file_size : nat;
  content_hash : string;
  extraction_status : string
}.

(** A FastAPI [UploadFile]: what the client declared and the bytes that
    [file.read()] returns. *)
Record UploadFile : Type := mkUploadFile {
  filename : string;
  content_type : string;
  size : option Z;
  body : list byte
}.

(** What [process_upload] can change: the rows of the session, the files of
    the upload directory, and the background tasks it has started. *)
Record World : Type := mkWorld {
  db : list AuditReport;
  upload_dir : list (string * list byte);
  tasks : list UUID
}.

Definition allowed_types : list string :=
  [ "application/pdf";
    "application/vnd.openxmlformats-officedocument.wordprocessingml.document";
    "text/plain" ]%string.

Definition max_size : Z := (50 * 1024 * 1024)%Z.

(** [AuditService._validate_file]. The upload carries a [size] attribute; a
    size of [None] makes the comparison raise. *)
Definition _validate_file (file : UploadFile) : result bool :=
  if existsb (String.eqb (content_type file)) allowed_types
  then match size file with
       | Some n => Return (n <=? max_size)%Z
       | None =>
           Raise (TypeError
             "'<=' not supported between instances of 'NoneType' and 'int'")
       end
  else Return false.

(** [AuditService._check_duplicate]: [scalar_one_or_none] of the rows with
    this hash. *)
Definition _check_duplicate (w : World) (hash : string) : result (option AuditReport) :=
  match filter (fun r => String.eqb (content_hash r) hash) (db w) with
  | [] => Return None
  | [existing] => Return (Some existing)
  | _ => Raise MultipleResultsFound
  end.

(** The steps of [process_upload] that follow [_save_file], each of which
    can raise: the constructor [AuditReport(...)], [db.add] with
    [db.commit], [db.refresh], [asyncio.create_task] and
    [AuditReportResponse.from_orm]. *)
Inductive upload_step : Type :=
| Construct
| Commit
| Refresh
| CreateTask
| Respond.

Section Upload.

(** [hashlib.sha256(content).hexdigest()]. *)
Variable sha256_hexdigest : list byte -> string.

(** [settings.UPLOAD_PATH / name]. *)
Variable upload_path : string -> string.

(** [AuditService._extract_title]. *)
Variable _extract_title : string -> string.

(** [AuditService._save_file]: the file of that name is created or
    overwritten. *)
Definition _save_file (w : World) (file : UploadFile) (content : list byte)
  : string * World :=
  let file_path := upload_path (filename file) in
  (file_path, mkWorld (db w) (PyDict.set (upload_dir w) file_path content) (tasks w)).

(** The handler of [process_upload]: [rollback] drops what the session has
    not committed; it restores neither a committed row nor a written file,
    so the handler leaves the world as the failing step found it. *)
Definition process_upload_failed (w : World) (e : exn) : result AuditReport * World :=
  (Raise (DataIngestionException
            (String.append "Failed to process upload: " (exn_str e))), w).

(** [AuditService.process_upload]; [new_id] is the key the database gives a
    new row and [company_id] is [None] when the route was called without
    one. [fault] is what the collaborators do in this call once the file is
    written: the step that raises, if any, and its exception. The response
    is built from the row that is returned; a response built from a row that
    is already stored is taken to succeed. *)
Definition process_upload (w : World) (new_id : UUID) (file : UploadFile)
  (report_type : string) (company_id : option string)
  (fault : option (upload_step * exn)) : result AuditReport * World :=
  match _validate_file file with
  | Raise e => process_upload_failed w e
  | Return false =>
      process_upload_failed w (DataIngestionException "Invalid file format or size")
  | Return true =>
      let content := body file in
      let hash := sha256_hexdigest content in
      match _check_duplicate w hash with
      | Raise e => process_upload_failed w e
      | Return (Some existing) => (Return existing, w)
      | Return None =>
          let (file_path, w) := _save_file w file content in
          let audit_report :=
            mkAuditReport new_id company_id (_extract_title (filename file))
              report_type file_path (filename file) (List.length content)
              hash "pending" in
          let committed := mkWorld (db w ++ [audit_report]) (upload_dir w) (tasks w) in
          let started :=
            mkWorld (db committed) (upload_dir committed) (tasks w ++ [new_id]) in
          match fault with
          | Some (Construct, e) | Some (Commit, e) => process_upload_failed w e
          | Some (Refresh, e) | Some (CreateTask, e) =>
              process_upload_failed committed e
          | Some (Respond, e) => process_upload_failed started e
          | None => (Return audit_report, started)
          end
      end
  end.

End Upload.

(** The rows whose content hash is [hash]. *)
Definition with_hash (w : World) (hash : string) : list AuditReport :=
  filter (fun r => String.eqb (content_hash r) hash) (db w).

(** At most one stored row per content hash. *)
Definition fingerprints_unique (w : World) : Prop :=
  NoDup (map content_hash (db w)).

End AuditService.

(* ===================================================================== *)
(** * Properties of the comparison heuristics *)
(* ===================================================================== *)

(** ** Materiality *)

Definition weight (b : bool) (w : Z) : Z := if b then w else 0%Z.

Lemma level_of_score_High (s : Z) : level_of_score s = High <-> (5 <= s)%Z.
Proof.
  unfold level_of_score.
  destruct (5 <=? s)%Z eqn:E5; [ | destruct (3 <=? s)%Z eqn:E3 ];
    split; intro H; try discriminate; try reflexivity; lia.
Qed.

Lemma level_of_score_Medium (s : Z) :
  level_of_score s = Medium <-> (3 <= s < 5)%Z.
Proof.
  unfold level_of_score.
  destruct (5 <=? s)%Z eqn:E5; [ | destruct (3 <=? s)%Z eqn:E3 ];
    split; intro H; try discriminate; try reflexivity; lia.
Qed.

Lemma level_of_score_Low (s : Z) : level_of_score s = Low <-> (s < 3)%Z.
Proof.
  unfold level_of_score.
  destruct (5 <=? s)%Z eqn:E5; [ | destruct (3 <=? s)%Z eqn:E3 ];
    split; intro H; try discriminate; try reflexivity; lia.
Qed.

Lemma assess_materiality_score (r : json) (now : datetime) :
  materiality_score (_assess_materiality r now)
  = (weight (mentions_material_weaknesses r) 3
     + weight (mentions_significant_deficiencies r) 2
     + weight (mentions_compliance r) 2)%Z.
Proof.
  unfold _assess_materiality, weight; simpl.
  destruct (mentions_material_weaknesses r),
           (mentions_significant_deficiencies r),
           (mentions_compliance r); reflexivity.
Qed.

Lemma assess_materiality_level (r : json) (now : datetime) :
  materiality_level_of (_assess_materiality r now)
  = level_of_score (materiality_score (_assess_materiality r now)).
Proof. reflexivity. Qed.

(** A comparison result that speaks of a material weakness and of compliance
    in plain words. *)
Definition plain_words_result : json :=
  JDict [ ("key_differences"%string,
           JStr "Report A discloses a material weakness; Report B has a compliance issue") ].

(** C5, as stated, fails: with the phrases read as the words quoted in the
    claim, a text with "material weakness" and "compliance" and without
    "significant deficiency" gets score 2 and level Low, not 5 and High. *)
Lemma C5_plain_words_score_low :
  let text := PyStr.lower (PyRepr.str plain_words_result) in
  PyStr.contains "material weakness" text = true
  /\ PyStr.contains "compliance" text = true
  /\ PyStr.contains "significant deficiency" text = false
  /\ materiality_score (_assess_materiality plain_words_result 0%Z) = 2%Z
  /\ materiality_level_of (_assess_materiality plain_words_result 0%Z) = Low.
Proof. vm_compute. repeat split. Qed.

(** C5, amended: the score is the sum of 3, 2 and 2 for the three tests the
    code makes (the substrings material_weaknesses, significant_deficiencies
    and compliance of the lower-cased rendering of the result), the level
    follows from the score by the thresholds 5 and 3, and neither depends on
    the clock. *)
Theorem C5_materiality_deterministic (r : json) (now now' : datetime) :
  let m := _assess_materiality r now in
  materiality_score m
  = (weight (mentions_material_weaknesses r) 3
     + weight (mentions_significant_deficiencies r) 2
     + weight (mentions_compliance r) 2)%Z
  /\ (materiality_level_of m = High <-> (5 <= materiality_score m)%Z)
  /\ (materiality_level_of m = Medium <-> (3 <= materiality_score m < 5)%Z)
  /\ (materiality_level_of m = Low <-> (materiality_score m < 3)%Z)
  /\ (mentions_material_weaknesses r
      && mentions_compliance r
      && negb (mentions_significant_deficiencies r) = true
      -> materiality_score m = 5%Z /\ materiality_level_of m = High)
  /\ (mentions_material_weaknesses r
      || mentions_compliance r
      || mentions_significant_deficiencies r = false
      -> materiality_score m = 0%Z /\ materiality_level_of m = Low)
  /\ materiality_score (_assess_materiality r now') = materiality_score m
  /\ materiality_level_of (_assess_materiality r now') = materiality_level_of m.
Proof.
  cbv zeta.
  rewrite !assess_materiality_level, !assess_materiality_score.
  split; [ reflexivity | ].
  split; [ apply level_of_score_High | ].
  split; [ apply level_of_score_Medium | ].
  split; [ apply level_of_score_Low | ].
  destruct (mentions_material_weaknesses r),
           (mentions_significant_deficiencies r),
           (mentions_compliance r); simpl;
    repeat split; intros; try discriminate; reflexivity.
Qed.

(** ** The store *)

(** Functions that set attributes of a comparison but not its key. *)
Definition keeps_id (f : Comparison -> Comparison) : Prop :=
  forall c, comparison_id (f c) = comparison_id c.

Lemma with_status_keeps_id st : keeps_id (with_status st).
Proof. intro c; reflexivity. Qed.

Lemma with_similarity_keeps_id s : keeps_id (with_similarity s).
Proof. intro c; reflexivity. Qed.

Lemma with_results_keeps_id kd ra cg rec now : keeps_id (with_results kd ra cg rec now).
Proof. intro c; reflexivity. Qed.

Lemma with_sections_keeps_id s : keeps_id (with_sections s).
Proof. intro c; reflexivity. Qed.

Lemma with_materiality_keeps_id m : keeps_id (with_materiality m).
Proof. intro c; reflexivity. Qed.

Create HintDb store.

#[export] Hint Resolve with_status_keeps_id with_similarity_keeps_id
  with_results_keeps_id with_sections_keeps_id with_materiality_keeps_id : store.

Lemma update_first_ids i f l :
  keeps_id f -> map comparison_id (update_first i f l) = map comparison_id l.
Proof.
  intro Hf. induction l as [ | c l IH ]; simpl; [ reflexivity | ].
  destruct (comparison_id c =? i); simpl; [ rewrite Hf | rewrite IH ]; reflexivity.
Qed.

Lemma update_first_find_same i f l c :
  keeps_id f ->
  find (fun c => comparison_id c =? i) l = Some c ->
  find (fun c => comparison_id c =? i) (update_first i f l) = Some (f c).
Proof.
  intros Hf. induction l as [ | d l IH ]; simpl; [ discriminate | ].
  destruct (comparison_id d =? i) eqn:E; simpl.
  - intros [= ->]. rewrite Hf, E. reflexivity.
  - rewrite E. exact IH.
Qed.

Lemma update_first_find_none i f l :
  find (fun c => comparison_id c =? i) l = None -> update_first i f l = l.
Proof.
  induction l as [ | d l IH ]; simpl; [ reflexivity | ].
  destruct (comparison_id d =? i) eqn:E; [ discriminate | ].
  intro H. rewrite IH by exact H. reflexivity.
Qed.

Lemma update_first_find_other i j f l :
  keeps_id f -> j <> i ->
  find (fun c => comparison_id c =? j) (update_first i f l)
  = find (fun c => comparison_id c =? j) l.
Proof.
  intros Hf Hji. induction l as [ | d l IH ]; simpl; [ reflexivity | ].
  destruct (comparison_id d =? i) eqn:E; simpl.
  - rewrite Hf. apply Nat.eqb_eq in E.
    destruct (comparison_id d =? j) eqn:E'; [ | reflexivity ].
    apply Nat.eqb_eq in E'. congruence.
  - rewrite IH. reflexivity.
Qed.

Lemma query_comparison_update i f db c :
  keeps_id f ->
  query_comparison db i = Some c ->
  query_comparison (update_comparison i f db) i = Some (f c).
Proof. intros; apply update_first_find_same; assumption. Qed.

Lemma query_comparison_update_other i j f db :
  keeps_id f -> j <> i ->
  query_comparison (update_comparison i f db) j = query_comparison db j.
Proof. intros; apply update_first_find_other; assumption. Qed.

Lemma query_report_update i f db j :
  query_report (update_comparison i f db) j = query_report db j.
Proof. reflexivity. Qed.

Lemma comparison_ids_update i f db :
  keeps_id f ->
  map comparison_id (comparisons (update_comparison i f db))
  = map comparison_id (comparisons db).
Proof. intros; apply update_first_ids; assumption. Qed.

Lemma audit_reports_update i f db :
  audit_reports (update_comparison i f db) = audit_reports db.
Proof. reflexivity. Qed.

(** ** The handler of [process_comparison] *)

Section Handler.

Variable llm : nat -> string -> string -> llm_reply.
Variable utcnow : nat -> datetime.

Lemma failed_outcome db i e :
  fst (process_comparison_failed db i e)
  = Raise (ValueError (String.append "Failed to process comparison: " (exn_str e))).
Proof. reflexivity. Qed.

Lemma failed_status db i e c :
  query_comparison db i = Some c ->
  query_comparison (snd (process_comparison_failed db i e)) i
  = Some (with_status CmpError c).
Proof.
  intro H. unfold process_comparison_failed; simpl. rewrite H.
  apply query_comparison_update; auto with store.
Qed.

Lemma failed_other db i e j :
  j <> i ->
  query_comparison (snd (process_comparison_failed db i e)) j = query_comparison db j.
Proof.
  intro H. unfold process_comparison_failed; simpl.
  destruct (query_comparison db i); [ | reflexivity ].
  apply query_comparison_update_other; auto with store.
Qed.

Lemma failed_ids db i e :
  map comparison_id (comparisons (snd (process_comparison_failed db i e)))
  = map comparison_id (comparisons db).
Proof.
  unfold process_comparison_failed; simpl.
  destruct (query_comparison db i); [ | reflexivity ].
  apply comparison_ids_update; auto with store.
Qed.

Lemma failed_reports db i e :
  audit_reports (snd (process_comparison_failed db i e)) = audit_reports db.
Proof.
  unfold process_comparison_failed; simpl.
  destruct (query_comparison db i); reflexivity.
Qed.

(** The store a successful run leaves, given the holistic result [d]. *)
Definition completed_store (db : Session) (i : UUID) (src tgt : AuditReport)
  (d : list (string * json)) : Session :=
  let a := text_of (raw_text src) in
  let b := text_of (raw_text tgt) in
  let s :=
    if truthy_list (embeddings src) && truthy_list (embeddings tgt)
    then calculate_similarity (list_of (embeddings src)) (list_of (embeddings tgt))
    else Np.Fin 0 in
  update_comparison i (with_materiality (_assess_materiality (JDict d) (utcnow 1)))
    (update_comparison i (with_sections (fst (_analyze_sections llm a b 1)))
       (update_comparison i
          (with_results (PyDict.get d "key_differences" (JDict []))
             (PyDict.get d "risk_alignment" (JDict []))
             (PyDict.get d "compliance_gaps" (JDict []))
             (PyDict.get d "recommendations" (JDict [])) (utcnow 0))
          (update_comparison i (with_similarity s)
             (update_comparison i (with_status CmpProcessing) db)))).

Lemma process_comparison_rejects db i c src tgt :
  query_comparison db i = Some c ->
  query_report db (source_report_id c) = Some src ->
  query_report db (target_report_id c) = Some tgt ->
  truthy_text (raw_text src) && truthy_text (raw_text tgt) = false ->
  process_comparison llm utcnow db i
  = process_comparison_failed (update_comparison i (with_status CmpProcessing) db) i
      (ValueError "Reports must be processed before comparison").
Proof.
  intros Hc Hs Ht Hraw. unfold process_comparison. rewrite Hc.
  rewrite !query_report_update, Hs, Ht.
  destruct (truthy_text (raw_text src)), (truthy_text (raw_text tgt));
    try discriminate; reflexivity.
Qed.

Lemma process_comparison_completes db i c src tgt d :
  query_comparison db i = Some c ->
  query_report db (source_report_id c) = Some src ->
  query_report db (target_report_id c) = Some tgt ->
  truthy_text (raw_text src) && truthy_text (raw_text tgt) = true ->
  compare_reports llm 0 (text_of (raw_text src)) (text_of (raw_text tgt)) = JDict d ->
  process_comparison llm utcnow db i
  = (Return (mkProcessResult i CmpCompleted
               (if truthy_list (embeddings src) && truthy_list (embeddings tgt)
                then calculate_similarity (list_of (embeddings src))
                       (list_of (embeddings tgt))
                else Np.Fin 0) (JDict d)),
     completed_store db i src tgt d).
Proof.
  intros Hc Hs Ht Hraw Hd. unfold process_comparison. rewrite Hc.
  rewrite !query_report_update, Hs, Ht.
  apply andb_true_iff in Hraw as [-> ->]. simpl negb. simpl orb. cbv iota.
  rewrite Hd. unfold py_get. unfold completed_store.
  destruct (_analyze_sections llm (text_of (raw_text src)) (text_of (raw_text tgt)) 1)
    as [sa n']. reflexivity.
Qed.

Lemma process_comparison_not_a_dict db i c src tgt :
  query_comparison db i = Some c ->
  query_report db (source_report_id c) = Some src ->
  query_report db (target_report_id c) = Some tgt ->
  truthy_text (raw_text src) && truthy_text (raw_text tgt) = true ->
  (forall d, compare_reports llm 0 (text_of (raw_text src)) (text_of (raw_text tgt))
             <> JDict d) ->
  exists e db1,
    process_comparison llm utcnow db i = process_comparison_failed db1 i e
    /\ query_comparison db1 i
       = Some (with_similarity
                 (if truthy_list (embeddings src) && truthy_list (embeddings tgt)
                  then calculate_similarity (list_of (embeddings src))
                         (list_of (embeddings tgt))
                  else Np.Fin 0) (with_status CmpProcessing c))
    /\ map comparison_id (comparisons db1) = map comparison_id (comparisons db)
    /\ audit_reports db1 = audit_reports db
    /\ (forall j, j <> i -> query_comparison db1 j = query_comparison db j).
Proof.
  intros Hc Hs Ht Hraw Hd. unfold process_comparison. rewrite Hc.
  rewrite !query_report_update, Hs, Ht.
  apply andb_true_iff in Hraw as [-> ->]. simpl negb. simpl orb. cbv iota.
  destruct (compare_reports llm 0 (text_of (raw_text src)) (text_of (raw_text tgt)))
    as [ | b | z | s | l | d ] eqn:E;
    try (eexists; eexists; split; [ reflexivity | ];
         repeat split;
         [ do 2 (apply query_comparison_update; auto with store)
         | rewrite !comparison_ids_update; auto with store
         | intros j Hj; rewrite !query_comparison_update_other; auto with store ]).
  exfalso. exact (Hd d eq_refl).
Qed.

End Handler.

(* ===================================================================== *)
(** * Similarity of two embedding vectors *)
(* ===================================================================== *)

Module Similarity.

Lemma dot_from_aligned (a b : list Np.float64) (acc : Np.float64) :
  List.length a = List.length b -> exists d, Np.dot_from acc a b = Some d.
Proof.
  revert b acc. induction a as [ | x a IH ]; intros [ | y b ] acc H;
    simpl in *; try discriminate.
  - exists acc. reflexivity.
  - apply IH. lia.
Qed.

Lemma dot_from_not_aligned (a b : list Np.float64) (acc : Np.float64) :
  List.length a <> List.length b -> Np.dot_from acc a b = None.
Proof.
  revert b acc. induction a as [ | x a IH ]; intros [ | y b ] acc H;
    simpl in *; try reflexivity; try contradiction.
  apply IH. lia.
Qed.

(** Two vectors of different lengths make [np.dot] raise, and the handler
    answers [0.0]. *)
Lemma calculate_similarity_not_aligned (a b : list Np.float64) :
  List.length a <> List.length b -> calculate_similarity a b = Np.Fin 0.
Proof.
  intro H. unfold calculate_similarity, Np.dot.
  rewrite (@dot_from_not_aligned a b (Np.Fin 0) H). reflexivity.
Qed.

Lemma Qmult_swap (x y : Q) : (x * y)%Q = (y * x)%Q.
Proof. unfold Qmult. f_equal; [ apply Z.mul_comm | apply Pos.mul_comm ]. Qed.

Lemma mul_comm (a b : Np.float64) : Np.mul a b = Np.mul b a.
Proof.
  destruct a as [ x | | | ], b as [ y | | | ]; try reflexivity.
  cbn [Np.mul]. rewrite (Qmult_swap x y). reflexivity.
Qed.

Lemma dot_from_comm (a b : list Np.float64) (acc : Np.float64) :
  Np.dot_from acc a b = Np.dot_from acc b a.
Proof.
  revert b acc. induction a as [ | x a IH ]; intros [ | y b ] acc; try reflexivity.
  cbn [Np.dot_from]. rewrite (mul_comm x y). apply IH.
Qed.

(** The vectors of the examples. *)
Definition vector (l : list Z) : list Np.float64 := map (fun z => Np.Fin (inject_Z z)) l.

End Similarity.

(** The similarity does not depend on the order of the two embeddings, to
    the last bit: every double operation of calculate_similarity gives the
    same result when its operands are exchanged. *)
Theorem similarity_is_symmetric (a b : list Np.float64) :
  calculate_similarity a b = calculate_similarity b a.
Proof.
  unfold calculate_similarity, Np.dot.
  rewrite (Similarity.dot_from_comm a b).
  destruct (Np.dot_from (Np.Fin 0) b a); [ | reflexivity ].
  rewrite (Similarity.mul_comm (Np.norm a) (Np.norm b)). reflexivity.
Qed.

(** Two embeddings of different lengths are scored 0.0: np.dot raises and
    the handler of calculate_similarity answers. *)
Theorem similarity_of_unequal_lengths_is_zero (a b : list Np.float64) :
  List.length a <> List.length b -> calculate_similarity a b = Np.Fin 0.
Proof. apply Similarity.calculate_similarity_not_aligned. Qed.

Lemma similarity_of_unequal_lengths_is_zero_witness :
  calculate_similarity [Np.Fin 1; Np.Fin 0; Np.Fin 0] [Np.Fin 1; Np.Fin 0] = Np.Fin 0.
Proof.
  apply (@similarity_of_unequal_lengths_is_zero
           [Np.Fin 1; Np.Fin 0; Np.Fin 0] [Np.Fin 1; Np.Fin 0]).
  discriminate.
Defined.

(** C8: in double precision the similarity of [1.0, 1.0, 1.0] and
    [-1.0, -1.0, -1.0] is -2**-53, a negative number, where (cos + 1) / 2
    is 0; the similarity of [1.0, 1.0] with itself is 1 - 2**-53, where
    (cos + 1) / 2 is 1. The two pairs the specification names do give
    exactly 1.0 and 0.0. *)
Lemma C8_similarity_leaves_the_unit_interval :
  calculate_similarity (Similarity.vector [1; 1; 1]%Z) (Similarity.vector [-1; -1; -1]%Z)
  = Np.Fin (- Binary64.pow2 (-53))
  /\ (- Binary64.pow2 (-53) < 0)%Q
  /\ calculate_similarity (Similarity.vector [1; 1]%Z) (Similarity.vector [1; 1]%Z)
     = Np.Fin (1 - Binary64.pow2 (-53))
  /\ calculate_similarity (Similarity.vector [1; 0]%Z) (Similarity.vector [1; 0]%Z)
     = Np.Fin 1
  /\ calculate_similarity (Similarity.vector [1; 0]%Z) (Similarity.vector [-1; 0]%Z)
     = Np.Fin 0.
Proof. vm_compute. repeat split. Qed.

(* ===================================================================== *)
(** * The life of a comparison *)
(* ===================================================================== *)

Section Lifecycle.

Variable llm : nat -> string -> string -> llm_reply.
Variable utcnow : nat -> datetime.

(** The similarity [process_comparison] stores for two reports. *)
Definition stored_similarity (src tgt : AuditReport) : Np.float64 :=
  if truthy_list (embeddings src) && truthy_list (embeddings tgt)
  then calculate_similarity (list_of (embeddings src)) (list_of (embeddings tgt))
  else Np.Fin 0.

(** The row a successful run leaves for the comparison [c]. *)
Definition completed_row (c : Comparison) (src tgt : AuditReport)
  (d : list (string * json)) : Comparison :=
  with_materiality (_assess_materiality (JDict d) (utcnow 1))
    (with_sections
       (fst (_analyze_sections llm (text_of (raw_text src)) (text_of (raw_text tgt)) 1))
       (with_results (PyDict.get d "key_differences" (JDict []))
          (PyDict.get d "risk_alignment" (JDict []))
          (PyDict.get d "compliance_gaps" (JDict []))
          (PyDict.get d "recommendations" (JDict [])) (utcnow 0)
          (with_similarity (stored_similarity src tgt)
             (with_status CmpProcessing c)))).

Lemma completed_store_query db i c src tgt d :
  query_comparison db i = Some c ->
  query_comparison (completed_store llm utcnow db i src tgt d) i
  = Some (completed_row c src tgt d).
Proof.
  intro H. unfold completed_store, completed_row, stored_similarity.
  do 5 (apply query_comparison_update; auto with store).
Qed.

Lemma completed_store_other db i j src tgt d :
  j <> i ->
  query_comparison (completed_store llm utcnow db i src tgt d) j
  = query_comparison db j.
Proof.
  intro H. unfold completed_store.
  rewrite !query_comparison_update_other; auto with store.
Qed.

Lemma completed_store_ids db i src tgt d :
  map comparison_id (comparisons (completed_store llm utcnow db i src tgt d))
  = map comparison_id (comparisons db).
Proof.
  unfold completed_store. rewrite !comparison_ids_update; auto with store.
Qed.

(** Every way a run of [process_comparison] on an existing comparison with
    both reports present can go. *)
Inductive run_outcome (db : Session) (i : UUID) (c : Comparison)
  (src tgt : AuditReport) : result ProcessResult * Session -> Prop :=
| RunRejected :
    truthy_text (raw_text src) && truthy_text (raw_text tgt) = false ->
    run_outcome db i c src tgt
      (process_comparison_failed
         (update_comparison i (with_status CmpProcessing) db) i
         (ValueError "Reports must be processed before comparison"))
| RunCompleted d :
    truthy_text (raw_text src) && truthy_text (raw_text tgt) = true ->
    compare_reports llm 0 (text_of (raw_text src)) (text_of (raw_text tgt)) = JDict d ->
    run_outcome db i c src tgt
      (Return (mkProcessResult i CmpCompleted (stored_similarity src tgt) (JDict d)),
       completed_store llm utcnow db i src tgt d)
| RunNotADict e db1 :
    truthy_text (raw_text src) && truthy_text (raw_text tgt) = true ->
    (forall d, compare_reports llm 0 (text_of (raw_text src)) (text_of (raw_text tgt))
               <> JDict d) ->
    query_comparison db1 i
    = Some (with_similarity (stored_similarity src tgt) (with_status CmpProcessing c)) ->
    map comparison_id (comparisons db1) = map comparison_id (comparisons db) ->
    audit_reports db1 = audit_reports db ->
    (forall j, j <> i -> query_comparison db1 j = query_comparison db j) ->
    run_outcome db i c src tgt (process_comparison_failed db1 i e).

Lemma process_comparison_outcome db i c src tgt :
  query_comparison db i = Some c ->
  query_report db (source_report_id c) = Some src ->
  query_report db (target_report_id c) = Some tgt ->
  run_outcome db i c src tgt (process_comparison llm utcnow db i).
Proof.
  intros Hc Hs Ht.
  destruct (truthy_text (raw_text src) && truthy_text (raw_text tgt)) eqn:Hraw.
  - destruct (compare_reports llm 0 (text_of (raw_text src)) (text_of (raw_text tgt)))
      as [ | b | z | s | l | d ] eqn:E.
    6: { rewrite process_comparison_completes with (c := c) (src := src) (tgt := tgt) (d := d)
           by assumption.
         apply RunCompleted; assumption. }
    all: destruct process_comparison_not_a_dict
           with (llm := llm) (utcnow := utcnow) (db := db) (i := i) (c := c)
                (src := src) (tgt := tgt)
           as (e & db1 & -> & Hq & Hids & Hrep & Hoth);
         try assumption;
         try (intros d Hd; rewrite E in Hd; discriminate);
         apply RunNotADict; try assumption;
         intros d Hd; rewrite E in Hd; discriminate.
  - rewrite process_comparison_rejects with (c := c) (src := src) (tgt := tgt)
      by assumption.
    apply RunRejected; assumption.
Qed.

(** After a run the comparison is completed or in error, never left in
    processing, and no comparison is added, removed or renumbered. *)
Lemma process_comparison_terminal db i c src tgt :
  query_comparison db i = Some c ->
  query_report db (source_report_id c) = Some src ->
  query_report db (target_report_id c) = Some tgt ->
  let run := process_comparison llm utcnow db i in
  map comparison_id (comparisons (snd run)) = map comparison_id (comparisons db)
  /\ (forall j, j <> i -> query_comparison (snd run) j = query_comparison db j)
  /\ exists c',
       query_comparison (snd run) i = Some c'
       /\ match fst run with
          | Return _ => comparison_status_of c' = CmpCompleted
          | Raise _ => comparison_status_of c' = CmpError
          end.
Proof.
  intros Hc Hs Ht run. subst run.
  destruct (@process_comparison_outcome db i c src tgt Hc Hs Ht)
    as [ Hraw | d Hraw Hd | e db1 Hraw Hd Hq Hids Hrep Hoth ].
  - assert (Hq : query_comparison (update_comparison i (with_status CmpProcessing) db) i
                 = Some (with_status CmpProcessing c))
      by (apply query_comparison_update; auto with store).
    split; [ rewrite failed_ids, comparison_ids_update; auto with store | ].
    split; [ intros j Hj; rewrite failed_other, query_comparison_update_other;
             auto with store | ].
    eexists; split; [ apply failed_status; exact Hq | reflexivity ].
  - simpl fst; simpl snd.
    split; [ apply completed_store_ids | ].
    split; [ intros j Hj; apply completed_store_other; exact Hj | ].
    eexists; split; [ apply completed_store_query; exact Hc | reflexivity ].
  - split; [ rewrite failed_ids; exact Hids | ].
    split; [ intros j Hj; rewrite failed_other by exact Hj; apply Hoth; exact Hj | ].
    eexists; split; [ apply failed_status; exact Hq | reflexivity ].
Qed.

End Lifecycle.

(* ===================================================================== *)
(** * A small store to run the services on *)
(* ===================================================================== *)

Module Example.

Definition text_a : string :=
  PyStr.join PyStr.newline
    [ "Internal audit report"; "Key Findings"; "Access reviews were not performed." ]%string.

Definition text_b : string :=
  PyStr.join PyStr.newline
    [ "Annual filing"; "Key Findings"; "Access reviews are performed quarterly." ]%string.

(** A report that was uploaded and not processed: no text, no embedding. *)
Definition uploaded_report : AuditReport :=
  mkAuditReport 1 7 "internal" "internal_audit" "uploads/a.pdf" "a.pdf"
    (Some 2048%Z) (Some "aa11"%string) ReportUploaded None None.

(** A processed report with its text and its embedding. *)
Definition processed_report : AuditReport :=
  mkAuditReport 2 7 "sec" "sec_10k" "uploads/b.pdf" "b.pdf"
    (Some 4096%Z) (Some "bb22"%string) ReportProcessed (Some text_b)
    (Some [Np.Fin 1; Np.Fin 0]).

(** A processed report whose embedding is missing. *)
Definition unembedded_report : AuditReport :=
  mkAuditReport 3 7 "internal" "internal_audit" "uploads/c.pdf" "c.pdf"
    (Some 1024%Z) (Some "cc33"%string) ReportProcessed (Some text_a) None.

(** Two processed reports whose embeddings point in opposite directions. *)
Definition report_up : AuditReport :=
  mkAuditReport 4 7 "internal" "internal_audit" "uploads/d.pdf" "d.pdf"
    (Some 1024%Z) (Some "dd44"%string) ReportProcessed (Some text_a)
    (Some [Np.Fin 1; Np.Fin 1; Np.Fin 1]).

Definition report_down : AuditReport :=
  mkAuditReport 5 7 "sec" "sec_10k" "uploads/e.pdf" "e.pdf"
    (Some 1024%Z) (Some "ee55"%string) ReportProcessed (Some text_b)
    (Some [Np.Fin (-1); Np.Fin (-1); Np.Fin (-1)]).

Definition store : Session :=
  mkSession
    [uploaded_report; processed_report; unembedded_report; report_up; report_down] [].

(** A language model that is unreachable. *)
Definition llm_down : nat -> string -> string -> llm_reply :=
  fun _ _ _ => LLMError "Connection error.".

(** A language model that answers the holistic call and fails afterwards. *)
Definition llm_holistic_only : nat -> string -> string -> llm_reply :=
  fun n _ _ =>
    match n with
    | O => LLMJson (JDict [ ("key_differences"%string, JList [JStr "review cadence"]) ])
    | S _ => LLMError "Rate limit reached."
    end.

Definition clock : nat -> datetime := fun n => (1700000000 + Z.of_nat n)%Z.

(** The store after [create_comparison] of the reports [a] and [b]. *)
Definition after_create (a b : UUID) : Session :=
  snd (create_comparison store 100 7 a b "internal_vs_sec").

End Example.

(* ===================================================================== *)
(** * The precondition of a comparison *)
(* ===================================================================== *)

Lemma find_append {A : Type} (f : A -> bool) (l l' : list A) :
  find f (l ++ l') = match find f l with Some x => Some x | None => find f l' end.
Proof.
  induction l as [ | x l IH ]; simpl; [ reflexivity | ].
  destruct (f x); [ reflexivity | exact IH ].
Qed.

(** C2, as stated, fails: for a source that is only uploaded and a processed
    target, the request does not fail and a new Comparison is stored. *)
Lemma C2_comparison_created_for_unprocessed_source :
  status Example.uploaded_report = ReportUploaded
  /\ status Example.processed_report = ReportProcessed
  /\ exists c,
       create_comparison Example.store 100 7 1 2 "internal_vs_sec"
       = (Return c, mkSession (audit_reports Example.store) [c])
       /\ comparison_status_of c = CmpPending.
Proof.
  split; [ reflexivity | ]. split; [ reflexivity | ].
  eexists. split; reflexivity.
Qed.

(** The check of [process_comparison] reads the text, not the status: a
    report that is still in processing, or in error, is compared when it has
    its raw text. *)
Lemma comparison_of_report_in_processing_completes :
  let in_processing :=
    mkAuditReport 1 7 "internal" "internal_audit" "uploads/a.pdf" "a.pdf"
      (Some 2048%Z) (Some "aa11"%string) ReportProcessing (Some Example.text_a) None in
  let db :=
    snd (create_comparison (mkSession [in_processing; Example.processed_report] [])
           100 7 1 2 "internal_vs_sec") in
  let run := process_comparison Example.llm_down Example.clock db 100 in
  (exists r, fst run = Return r)
  /\ option_map comparison_status_of (query_comparison (snd run) 100) = Some CmpCompleted.
Proof.
  cbv zeta. split; [ eexists | ]; reflexivity.
Qed.

(** C2, amended: whatever the status of the two reports, create_comparison
    stores a pending Comparison as soon as both exist; when one of them has
    no raw text, process_comparison raises ValueError, adds no Comparison,
    touches no other Comparison and leaves this one in status error, not in
    processing. *)
Theorem C2_missing_text_fails_without_dangling_record
  (llm : nat -> string -> string -> llm_reply) (utcnow : nat -> datetime)
  (db : Session) (new_id company_id a b : UUID) (comparison_type : string)
  (src tgt : AuditReport) :
  query_report db a = Some src ->
  query_report db b = Some tgt ->
  exists c,
    create_comparison db new_id company_id a b comparison_type
    = (Return c, add_comparison c db)
    /\ comparison_status_of c = CmpPending
    /\ comparisons (add_comparison c db) = comparisons db ++ [c]
    /\ audit_reports (add_comparison c db) = audit_reports db
    /\ (query_comparison db new_id = None ->
        truthy_text (raw_text src) && truthy_text (raw_text tgt) = false ->
        let run := process_comparison llm utcnow (add_comparison c db) new_id in
        fst run
        = Raise (ValueError
            "Failed to process comparison: Reports must be processed before comparison")
        /\ map comparison_id (comparisons (snd run))
           = map comparison_id (comparisons db) ++ [new_id]
        /\ option_map comparison_status_of (query_comparison (snd run) new_id)
           = Some CmpError
        /\ (forall j, j <> new_id ->
              query_comparison (snd run) j = query_comparison db j)
        /\ audit_reports (snd run) = audit_reports db).
Proof.
  intros Hs Ht.
  eexists. split; [ unfold create_comparison; rewrite Hs, Ht; reflexivity | ].
  split; [ reflexivity | ].
  split; [ reflexivity | ].
  split; [ reflexivity | ].
  intros Hfresh Hraw.
  set (c := mkComparison new_id company_id a b comparison_type CmpPending
              None None None None None None None None).
  assert (Hc : query_comparison (add_comparison c db) new_id = Some c).
  { unfold query_comparison, add_comparison; simpl.
    unfold query_comparison in Hfresh.
    rewrite find_append, Hfresh. simpl. rewrite Nat.eqb_refl. reflexivity. }
  assert (Hother : forall j, j <> new_id ->
            query_comparison (add_comparison c db) j = query_comparison db j).
  { intros j Hj. unfold query_comparison, add_comparison; simpl.
    rewrite find_append. destruct (find _ (comparisons db)); [ reflexivity | ].
    simpl. destruct (new_id =? j) eqn:E; [ | reflexivity ].
    apply Nat.eqb_eq in E. congruence. }
  cbv zeta.
  rewrite process_comparison_rejects with (c := c) (src := src) (tgt := tgt);
    try assumption.
  assert (Hq : query_comparison
                 (update_comparison new_id (with_status CmpProcessing)
                    (add_comparison c db)) new_id
               = Some (with_status CmpProcessing c))
    by (apply query_comparison_update; auto with store).
  split; [ reflexivity | ].
  split.
  { rewrite failed_ids, comparison_ids_update by auto with store.
    unfold add_comparison; simpl. rewrite map_app. reflexivity. }
  split.
  { rewrite failed_status with (c := with_status CmpProcessing c) by exact Hq.
    reflexivity. }
  split.
  { intros j Hj. rewrite failed_other by exact Hj.
    rewrite query_comparison_update_other by auto with store.
    apply Hother; exact Hj. }
  rewrite failed_reports. reflexivity.
Qed.

(** In the example store, for the uploaded report against the processed
    one: the comparison is created, and its run fails and leaves it in
    error. *)
Lemma C2_missing_text_witness :
  exists c,
    create_comparison Example.store 100 7 1 2 "internal_vs_sec"
    = (Return c, add_comparison c Example.store)
    /\ comparison_status_of c = CmpPending
    /\ let run :=
         process_comparison Example.llm_down Example.clock
           (add_comparison c Example.store) 100 in
       fst run
       = Raise (ValueError
           "Failed to process comparison: Reports must be processed before comparison")
       /\ map comparison_id (comparisons (snd run))
          = map comparison_id (comparisons Example.store) ++ [100]
       /\ option_map comparison_status_of (query_comparison (snd run) 100)
          = Some CmpError
       /\ (forall j, j <> 100 ->
             query_comparison (snd run) j = query_comparison Example.store j)
       /\ audit_reports (snd run) = audit_reports Example.store.
Proof.
  destruct (@C2_missing_text_fails_without_dangling_record
              Example.llm_down Example.clock Example.store 100 7 1 2
              "internal_vs_sec" Example.uploaded_report Example.processed_report
              eq_refl eq_refl)
    as (c & Hcreate & Hpending & _ & _ & Hrun).
  exists c. split; [ exact Hcreate | ]. split; [ exact Hpending | ].
  exact (Hrun eq_refl eq_refl).
Defined.

(* ===================================================================== *)
(** * The similarity score of a comparison *)
(* ===================================================================== *)


(** The score that is stored need not lie in [0,1]: for embeddings that
    point in opposite directions it is -2**-53, and for a zero vector it is
    NaN. *)
Lemma stored_similarity_outside_unit_interval :
  let run :=
    process_comparison Example.llm_holistic_only Example.clock
      (Example.after_create 4 5) 100 in
  option_map similarity_score (query_comparison (snd run) 100)
  = Some (Some (Np.Fin (- Binary64.pow2 (-53))))
  /\ (- Binary64.pow2 (-53) < 0)%Q
  /\ calculate_similarity [Np.Fin 0; Np.Fin 0] [Np.Fin 1; Np.Fin 0] = Np.NaN.
Proof. vm_compute. repeat split. Qed.



(* ===================================================================== *)
(** * A holistic comparison that fails *)
(* ===================================================================== *)

(** C4, as stated, fails: with the language model unreachable, the
    Comparison is completed and its four fields are stored as empty dicts. *)
Lemma C4_unreachable_model_completes :
  let db := Example.after_create 3 2 in
  let run := process_comparison Example.llm_down Example.clock db 100 in
  (exists r, fst run = Return r /\ result_status r = CmpCompleted)
  /\ option_map comparison_status_of (query_comparison (snd run) 100)
     = Some CmpCompleted
  /\ option_map key_differences (query_comparison (snd run) 100)
     = Some (Some (JDict []))
  /\ option_map recommendations (query_comparison (snd run) 100)
     = Some (Some (JDict [])).
Proof.
  cbv zeta. split; [ eexists; split; reflexivity | ].
  split; [ reflexivity | ]. split; reflexivity.
Qed.

(** The message of the failure is part of what is assessed: a message that
    names compliance raises the materiality score that is stored. *)
Lemma error_message_feeds_materiality (now : datetime) :
  materiality_score
    (_assess_materiality
       (JDict [ ("error"%string,
                 JStr "Failed to compare reports: Connection error.") ]) now) = 0%Z
  /\ materiality_score
       (_assess_materiality
          (JDict [ ("error"%string,
                    JStr "Failed to compare reports: compliance model offline") ]) now)
     = 2%Z.
Proof. split; reflexivity. Qed.

(** C4, amended: when the holistic call fails, compare_reports returns a
    dict with the single key error; the run still returns it, the
    Comparison is completed at the time of the clock, and key differences,
    risk alignment, compliance gaps and recommendations are stored as empty
    dicts. The error dict is what the stored materiality is assessed from,
    and the section comparisons are stored as _analyze_sections gives
    them. *)
Theorem C4_failed_holistic_call_completes_empty
  (llm : nat -> string -> string -> llm_reply) (utcnow : nat -> datetime)
  (db : Session) (i : UUID) (c : Comparison) (src tgt : AuditReport)
  (msg : string) :
  query_comparison db i = Some c ->
  query_report db (source_report_id c) = Some src ->
  query_report db (target_report_id c) = Some tgt ->
  truthy_text (raw_text src) && truthy_text (raw_text tgt) = true ->
  llm 0 (PyStr.take 2000 (text_of (raw_text src)))
        (PyStr.take 2000 (text_of (raw_text tgt))) = LLMError msg ->
  let failure :=
    JDict [ ("error"%string, JStr (String.append "Failed to compare reports: " msg)) ] in
  let run := process_comparison llm utcnow db i in
  compare_reports llm 0 (text_of (raw_text src)) (text_of (raw_text tgt)) = failure
  /\ (exists r,
        fst run = Return r /\ results r = failure /\ result_status r = CmpCompleted)
  /\ exists c',
       query_comparison (snd run) i = Some c'
       /\ comparison_status_of c' = CmpCompleted
       /\ key_differences c' = Some (JDict [])
       /\ risk_alignment c' = Some (JDict [])
       /\ compliance_gaps c' = Some (JDict [])
       /\ recommendations c' = Some (JDict [])
       /\ completed_at c' = Some (utcnow 0)
       /\ materiality_assessment c' = Some (_assess_materiality failure (utcnow 1))
       /\ section_comparisons c'
          = Some (fst (_analyze_sections llm (text_of (raw_text src))
                         (text_of (raw_text tgt)) 1)).
Proof.
  intros Hc Hs Ht Hraw Hllm. cbv zeta.
  assert (Hfail : compare_reports llm 0 (text_of (raw_text src)) (text_of (raw_text tgt))
                  = JDict [ ("error"%string,
                             JStr (String.append "Failed to compare reports: " msg)) ])
    by (unfold compare_reports; rewrite Hllm; reflexivity).
  split; [ exact Hfail | ].
  rewrite process_comparison_completes
    with (c := c) (src := src) (tgt := tgt)
         (d := [ ("error"%string,
                  JStr (String.append "Failed to compare reports: " msg)) ]);
    try assumption.
  split; [ eexists; repeat split | ].
  simpl snd. eexists. split; [ apply completed_store_query; exact Hc | ].
  repeat split.
Qed.

(** In the example store with the language model unreachable: the run
    completes, the four fields are empty dicts, and the message is stored
    in the section comparisons. *)
Lemma C4_failed_holistic_call_witness :
  let failure :=
    JDict [ ("error"%string, JStr "Failed to compare reports: Connection error.") ] in
  let run :=
    process_comparison Example.llm_down Example.clock (Example.after_create 3 2) 100 in
  compare_reports Example.llm_down 0 Example.text_a Example.text_b = failure
  /\ (exists r,
        fst run = Return r /\ results r = failure /\ result_status r = CmpCompleted)
  /\ exists c',
       query_comparison (snd run) 100 = Some c'
       /\ comparison_status_of c' = CmpCompleted
       /\ key_differences c' = Some (JDict [])
       /\ risk_alignment c' = Some (JDict [])
       /\ compliance_gaps c' = Some (JDict [])
       /\ recommendations c' = Some (JDict [])
       /\ completed_at c' = Some (Example.clock 0)
       /\ materiality_assessment c'
          = Some (_assess_materiality failure (Example.clock 1))
       /\ section_comparisons c' = Some [ ("Key Findings"%string, failure) ].
Proof.
  apply (@C4_failed_holistic_call_completes_empty
           Example.llm_down Example.clock (Example.after_create 3 2) 100
           (mkComparison 100 7 3 2 "internal_vs_sec" CmpPending
              None None None None None None None None)
           Example.unembedded_report Example.processed_report
           "Connection error.");
    reflexivity.
Defined.

(** A reply that parses to something else than a dict does put the
    Comparison in error: the first [get] raises. *)
Lemma reply_not_a_dict_fails
  (llm : nat -> string -> string -> llm_reply) (utcnow : nat -> datetime)
  (db : Session) (i : UUID) (c : Comparison) (src tgt : AuditReport) :
  query_comparison db i = Some c ->
  query_report db (source_report_id c) = Some src ->
  query_report db (target_report_id c) = Some tgt ->
  truthy_text (raw_text src) && truthy_text (raw_text tgt) = true ->
  (forall d, compare_reports llm 0 (text_of (raw_text src)) (text_of (raw_text tgt))
             <> JDict d) ->
  let run := process_comparison llm utcnow db i in
  (exists e, fst run = Raise e)
  /\ option_map comparison_status_of (query_comparison (snd run) i) = Some CmpError.
Proof.
  intros Hc Hs Ht Hraw Hd. cbv zeta.
  destruct (@process_comparison_outcome llm utcnow db i c src tgt Hc Hs Ht)
    as [ Hraw' | d Hraw' Hd' | e db1 Hraw' Hd' Hq Hids Hrep Hoth ].
  - congruence.
  - exfalso. exact (Hd d Hd').
  - split; [ eexists; reflexivity | ].
    rewrite failed_status with (c := with_similarity (stored_similarity src tgt)
                                       (with_status CmpProcessing c))
      by exact Hq.
    reflexivity.
Qed.

(* ===================================================================== *)
(** * Section extraction *)
(* ===================================================================== *)

(** The loop never collects more than one line beyond the limit. *)
Lemma extract_loop_length (name : string) (lines : list string) (in_section : bool)
  (acc : list string) :
  List.length acc <= section_limit ->
  List.length (extract_loop name lines in_section acc) <= S section_limit.
Proof.
  revert in_section acc.
  induction lines as [ | line rest IH ]; intros in_section acc Hacc;
    cbn [extract_loop].
  - lia.
  - destruct (PyStr.contains (PyStr.lower name) (PyStr.lower line));
      [ apply IH; exact Hacc | ].
    destruct in_section; [ | apply IH; exact Hacc ].
    match goal with |- context [ if ?b then acc else _ ] => destruct b end;
      [ lia | ].
    destruct (section_limit <? List.length (acc ++ [line])) eqn:E.
    + rewrite length_app in *. simpl in *. lia.
    + apply IH. apply Nat.ltb_ge in E. exact E.
Qed.

(** A report whose Key Findings section runs over [n] lines, with no other
    header after it. *)
Definition key_findings_report (n : nat) : string :=
  PyStr.join PyStr.newline
    ("Key Findings"%string :: repeat "Control gap noted in the access review."%string n).

(** C6 on the code: of a Key Findings section of 200 lines, 51 lines are
    kept, one more than the limit of 50 that the code names. *)
Lemma C6_section_of_200_lines_keeps_51 :
  section_limit = 50
  /\ option_map PyStr.line_count
       (_extract_section (key_findings_report 200) "Key Findings")
     = Some 51
  /\ _extract_section (key_findings_report 200) "Key Findings"
     = Some (PyStr.join PyStr.newline
               (repeat "Control gap noted in the access review."%string 51)).
Proof. vm_compute. repeat split. Qed.

(* ===================================================================== *)
(** * Section-level analysis *)
(* ===================================================================== *)

Lemma dict_keys_set {V : Type} (d : list (string * V)) (k : string) (v : V) :
  PyDict.keys (PyDict.set d k v)
  = if PyDict.mem d k then PyDict.keys d else PyDict.keys d ++ [k].
Proof.
  unfold PyDict.keys, PyDict.mem.
  induction d as [ | [k' w] d IH ]; simpl; [ reflexivity | ].
  destruct (String.eqb k' k) eqn:E; simpl; [ reflexivity | ].
  rewrite IH. destruct (existsb _ d); reflexivity.
Qed.

Lemma dict_mem_keys {V : Type} (d : list (string * V)) (k : string) :
  PyDict.mem d k = true <-> In k (PyDict.keys d).
Proof.
  unfold PyDict.mem, PyDict.keys. rewrite existsb_exists, in_map_iff. split.
  - intros ([k' v] & Hin & E). simpl in E. apply String.eqb_eq in E. subst.
    exists (k, v). split; [ reflexivity | exact Hin ].
  - intros ([k' v] & E & Hin). simpl in E. subst.
    exists (k, v). split; [ exact Hin | apply String.eqb_refl ].
Qed.

Lemma dict_get_set_same {V : Type} (d : list (string * V)) (k : string) (v dflt : V) :
  PyDict.get (PyDict.set d k v) k dflt = v.
Proof.
  induction d as [ | [k' w] d IH ]; simpl.
  - rewrite String.eqb_refl. reflexivity.
  - destruct (String.eqb k' k) eqn:E; simpl; rewrite E; [ reflexivity | exact IH ].
Qed.

Lemma dict_get_set_other {V : Type} (d : list (string * V)) (k k' : string)
  (v dflt : V) :
  k <> k' -> PyDict.get (PyDict.set d k v) k' dflt = PyDict.get d k' dflt.
Proof.
  intro Hk. induction d as [ | [k0 w] d IH ]; simpl.
  - destruct (String.eqb k k') eqn:E; [ apply String.eqb_eq in E; congruence | reflexivity ].
  - destruct (String.eqb k0 k) eqn:E; simpl.
    + apply String.eqb_eq in E. subst k0.
      destruct (String.eqb k k') eqn:E'; [ apply String.eqb_eq in E'; congruence | reflexivity ].
    + destruct (String.eqb k0 k'); [ reflexivity | exact IH ].
Qed.

Section Sections.

Variable llm : nat -> string -> string -> llm_reply.
Variables source_text target_text : string.

(** The test of [_analyze_sections]: both excerpts are non-empty. *)
Definition both_extracted (section : string) : bool :=
  truthy_text (_extract_section source_text section)
  && truthy_text (_extract_section target_text section).

(** The number of sub-comparisons made before the loop reaches [section]. *)
Fixpoint calls_before (todo : list string) (section : string) : nat :=
  match todo with
  | [] => 0
  | s :: rest =>
      if String.eqb s section then 0
      else (if both_extracted s then 1 else 0) + calls_before rest section
  end.

(** The sub-comparison of one section, made as the call number [k]. *)
Definition section_comparison (k : nat) (section : string) : json :=
  compare_reports llm k
    (text_of (_extract_section source_text section))
    (text_of (_extract_section target_text section)).

Lemma analyze_loop_keys (todo : list string) (n : nat) (acc : list (string * json)) :
  NoDup todo ->
  (forall s, In s todo -> ~ In s (PyDict.keys acc)) ->
  PyDict.keys (fst (analyze_loop llm source_text target_text todo n acc))
  = PyDict.keys acc ++ filter both_extracted todo.
Proof.
  revert n acc. induction todo as [ | s rest IH ]; intros n acc Hnd Hfresh; simpl.
  - rewrite app_nil_r. reflexivity.
  - inversion Hnd as [ | ? ? Hs Hrest ]; subst.
    fold (both_extracted s). destruct (both_extracted s) eqn:E.
    + rewrite IH; [ | exact Hrest | ].
      * rewrite dict_keys_set.
        destruct (PyDict.mem acc s) eqn:M.
        -- apply dict_mem_keys in M. exfalso. apply (Hfresh s); [ left; reflexivity | exact M ].
        -- rewrite <- app_assoc. reflexivity.
      * intros s' Hin. rewrite dict_keys_set.
        destruct (PyDict.mem acc s); [ apply Hfresh; right; exact Hin | ].
        rewrite in_app_iff. intros [ H | [ H | [] ] ].
        -- apply (Hfresh s'); [ right; exact Hin | exact H ].
        -- subst. contradiction.
    + apply IH; [ exact Hrest | ].
      intros s' Hin. apply Hfresh. right. exact Hin.
Qed.

Lemma analyze_loop_get_other (todo : list string) (n : nat)
  (acc : list (string * json)) (section : string) (dflt : json) :
  ~ In section todo ->
  PyDict.get (fst (analyze_loop llm source_text target_text todo n acc)) section dflt
  = PyDict.get acc section dflt.
Proof.
  revert n acc. induction todo as [ | s rest IH ]; intros n acc Hnot; simpl;
    [ reflexivity | ].
  assert (Hs : s <> section) by (intro; apply Hnot; left; assumption).
  assert (Hr : ~ In section rest) by (intro; apply Hnot; right; assumption).
  fold (both_extracted s). destruct (both_extracted s).
  - rewrite IH by exact Hr. apply dict_get_set_other. exact Hs.
  - apply IH. exact Hr.
Qed.

Lemma analyze_loop_get (todo : list string) (n : nat) (acc : list (string * json))
  (section : string) (dflt : json) :
  NoDup todo ->
  In section todo ->
  both_extracted section = true ->
  PyDict.get (fst (analyze_loop llm source_text target_text todo n acc)) section dflt
  = section_comparison (n + calls_before todo section) section.
Proof.
  revert n acc. induction todo as [ | s rest IH ]; intros n acc Hnd Hin Hboth;
    [ contradiction | ].
  inversion Hnd as [ | ? ? Hs Hrest ]; subst. simpl.
  fold (both_extracted s).
  destruct (String.eqb s section) eqn:E.
  - apply String.eqb_eq in E. subst s. rewrite Hboth.
    rewrite analyze_loop_get_other by exact Hs.
    rewrite dict_get_set_same. rewrite Nat.add_0_r. reflexivity.
  - assert (Hin' : In section rest).
    { destruct Hin as [ -> | H ]; [ rewrite String.eqb_refl in E; discriminate | exact H ]. }
    destruct (both_extracted s).
    + rewrite IH by assumption. f_equal. lia.
    + rewrite IH by assumption. reflexivity.
Qed.

End Sections.

Lemma sections_distinct : NoDup sections.
Proof.
  unfold sections.
  repeat (constructor; [ simpl; intuition discriminate | ]). constructor.
Qed.

(** Whether a run returns depends on the holistic call only. *)
Definition returns {A : Type} (o : result A) : bool :=
  match o with
  | Return _ => true
  | Raise _ => false
  end.

Lemma process_comparison_returns_by_first_call
  (llm llm' : nat -> string -> string -> llm_reply) (utcnow : nat -> datetime)
  (db : Session) (i : UUID) :
  (forall a b, llm' 0 a b = llm 0 a b) ->
  returns (fst (process_comparison llm' utcnow db i))
  = returns (fst (process_comparison llm utcnow db i)).
Proof.
  intro Hfirst. unfold process_comparison.
  destruct (query_comparison db i) as [ c | ]; [ | reflexivity ].
  rewrite !query_report_update.
  destruct (query_report db (source_report_id c)) as [ src | ];
    [ | reflexivity ].
  destruct (query_report db (target_report_id c)) as [ tgt | ].
  2: { destruct (negb (truthy_text (raw_text src))); reflexivity. }
  destruct (negb (truthy_text (raw_text src)) || negb (truthy_text (raw_text tgt)));
    [ reflexivity | ].
  assert (E : compare_reports llm' 0 (text_of (raw_text src)) (text_of (raw_text tgt))
              = compare_reports llm 0 (text_of (raw_text src)) (text_of (raw_text tgt)))
    by (unfold compare_reports; rewrite Hfirst; reflexivity).
  rewrite E.
  destruct (compare_reports llm 0 (text_of (raw_text src)) (text_of (raw_text tgt)));
    try reflexivity.
  simpl py_get. cbv iota.
  destruct (_analyze_sections llm' _ _ 1), (_analyze_sections llm _ _ 1).
  reflexivity.
Qed.

(** C7, as stated, fails: when the sub-comparison of a section fails, the
    entry of the section is not absent, it holds the error. *)
Lemma C7_failed_section_comparison_is_stored :
  Example.llm_holistic_only 1
    (PyStr.take 2000 "Access reviews were not performed.")
    (PyStr.take 2000 "Access reviews are performed quarterly.")
  = LLMError "Rate limit reached."
  /\ fst (_analyze_sections Example.llm_holistic_only Example.text_a Example.text_b 1)
     = [ ("Key Findings"%string,
          JDict [ ("error"%string,
                   JStr "Failed to compare reports: Rate limit reached.") ]) ].
Proof. split; reflexivity. Qed.

(** C7, amended: the map has an entry for a section exactly when the section
    was extracted, non-empty, from both texts, and absent sections get no
    entry at all; the entry is what the sub-comparison returned, which for a
    failed one is the dict holding its error, so a failure neither removes
    its own entry nor touches another; and whether the run of the whole
    comparison returns depends on the holistic call only. *)
Theorem C7_section_entries
  (llm : nat -> string -> string -> llm_reply) (source_text target_text : string)
  (n : nat) :
  let m := fst (_analyze_sections llm source_text target_text n) in
  let call s := n + calls_before source_text target_text sections s in
  PyDict.keys m = filter (both_extracted source_text target_text) sections
  /\ (forall s, In s (PyDict.keys m)
                <-> In s sections /\ both_extracted source_text target_text s = true)
  /\ (forall s, In s (PyDict.keys m) ->
        PyDict.get m s JNull
        = section_comparison llm source_text target_text (call s) s)
  /\ (forall s msg,
        In s (PyDict.keys m) ->
        llm (call s)
          (PyStr.take 2000 (text_of (_extract_section source_text s)))
          (PyStr.take 2000 (text_of (_extract_section target_text s)))
        = LLMError msg ->
        PyDict.get m s JNull
        = JDict [ ("error"%string,
                   JStr (String.append "Failed to compare reports: " msg)) ])
  /\ (forall llm' utcnow db i,
        (forall a b, llm' 0 a b = llm 0 a b) ->
        returns (fst (process_comparison llm' utcnow db i))
        = returns (fst (process_comparison llm utcnow db i))).
Proof.
  cbv zeta. unfold _analyze_sections.
  assert (Hkeys :
    PyDict.keys (fst (analyze_loop llm source_text target_text sections n []))
    = filter (both_extracted source_text target_text) sections).
  { rewrite analyze_loop_keys; [ reflexivity | apply sections_distinct | ].
    intros s _ []. }
  assert (Hin : forall s,
    In s (PyDict.keys (fst (analyze_loop llm source_text target_text sections n [])))
    <-> In s sections /\ both_extracted source_text target_text s = true).
  { intro s. rewrite Hkeys. apply filter_In. }
  assert (Hget : forall s,
    In s (PyDict.keys (fst (analyze_loop llm source_text target_text sections n []))) ->
    PyDict.get (fst (analyze_loop llm source_text target_text sections n [])) s JNull
    = section_comparison llm source_text target_text
        (n + calls_before source_text target_text sections s) s).
  { intros s Hs. apply Hin in Hs as [Hs Hb].
    apply analyze_loop_get; [ apply sections_distinct | exact Hs | exact Hb ]. }
  split; [ exact Hkeys | ]. split; [ exact Hin | ]. split; [ exact Hget | ].
  split.
  - intros s msg Hs Hllm. rewrite Hget by exact Hs.
    unfold section_comparison, compare_reports. rewrite Hllm. reflexivity.
  - intros llm' utcnow db i Hfirst.
    apply process_comparison_returns_by_first_call. exact Hfirst.
Qed.

(* ===================================================================== *)
(** * Properties of the binary64 arithmetic *)
(* ===================================================================== *)

Module Rounding.

Import Binary64.

Local Open Scope Q_scope.

(** ** Rounding to an integer *)

Lemma round_half_even_near (x : Q) :
  inject_Z (round_half_even x) - (1 # 2) <= x
  /\ x <= inject_Z (round_half_even x) + (1 # 2).
Proof.
  unfold round_half_even.
  pose proof (Qfloor_le x) as Hlo. pose proof (Qlt_floor x) as Hhi.
  rewrite inject_Z_plus in Hhi. change (inject_Z 1) with 1 in Hhi.
  destruct (Qcompare (x - inject_Z (Qfloor x)) (1 # 2)) eqn:C.
  - apply Qeq_alt in C.
    destruct (Z.even (Qfloor x)); [ | rewrite inject_Z_plus; change (inject_Z 1) with 1 ];
      split; lra.
  - apply Qlt_alt in C. split; lra.
  - apply Qgt_alt in C. rewrite inject_Z_plus. change (inject_Z 1) with 1. split; lra.
Qed.

Lemma round_half_even_int (n : Z) : round_half_even (inject_Z n) = n.
Proof.
  unfold round_half_even. rewrite Qfloor_Z.
  assert (E : inject_Z n - inject_Z n == 0) by ring.
  rewrite E. reflexivity.
Qed.

Lemma round_half_even_comp (x y : Q) :
  x == y -> round_half_even x = round_half_even y.
Proof.
  intro E. unfold round_half_even.
  rewrite (Qfloor_comp _ _ E).
  assert (E' : x - inject_Z (Qfloor y) == y - inject_Z (Qfloor y)) by (rewrite E; reflexivity).
  rewrite E'. reflexivity.
Qed.

(** Rounding does not cross an integer. *)
Lemma round_half_even_le (x : Q) (n : Z) :
  x <= inject_Z n -> (round_half_even x <= n)%Z.
Proof.
  intro H. unfold round_half_even.
  assert (Hf : (Qfloor x <= n)%Z).
  { rewrite <- (Qfloor_Z n). apply Qfloor_resp_le. exact H. }
  pose proof (Qfloor_le x) as Hlo.
  destruct (Z.eq_dec (Qfloor x) n) as [ E | N ].
  - assert (Hx : x == inject_Z n) by (rewrite E in Hlo; lra).
    rewrite E.
    assert (E0 : x - inject_Z n == 0) by lra.
    rewrite E0. cbn. lia.
  - destruct (Qcompare (x - inject_Z (Qfloor x)) (1 # 2)); [ destruct (Z.even _) | | ]; lia.
Qed.

Lemma round_half_even_ge (x : Q) (n : Z) :
  inject_Z n <= x -> (n <= round_half_even x)%Z.
Proof.
  intro H. unfold round_half_even.
  assert (Hf : (n <= Qfloor x)%Z).
  { rewrite <- (Qfloor_Z n). apply Qfloor_resp_le. exact H. }
  destruct (Qcompare (x - inject_Z (Qfloor x)) (1 # 2)); [ destruct (Z.even _) | | ]; lia.
Qed.

(** ** Powers of two *)

Lemma pow2_pos (e : Z) : 0 < pow2 e.
Proof. apply Qpower_0_lt. reflexivity. Qed.

Lemma pow2_add (a b : Z) : pow2 (a + b) == pow2 a * pow2 b.
Proof. apply Qpower_plus. discriminate. Qed.

Lemma pow2_sub (a b : Z) : pow2 (a - b) == pow2 a / pow2 b.
Proof. apply Qpower_minus. discriminate. Qed.

Lemma pow2_opp (a : Z) : pow2 (- a) == / pow2 a.
Proof. apply Qpower_opp. Qed.

Lemma pow2_Z (e : Z) : (0 <= e)%Z -> pow2 e == inject_Z (2 ^ e).
Proof. intro H. unfold pow2. rewrite Zpower_Qpower by exact H. reflexivity. Qed.

Lemma pow2_lt_inv (a b : Z) : pow2 a < pow2 b -> (a < b)%Z.
Proof. intro H. apply (Qpower_lt_compat_l_inv 2 a b H). reflexivity. Qed.

Lemma pow2_le (a b : Z) : (a <= b)%Z -> pow2 a <= pow2 b.
Proof. intro H. apply Qpower_le_compat_l; [ exact H | discriminate ]. Qed.

(** ** The exponent of a number *)

Lemma floor_log2_below (x : Q) : 0 < x -> pow2 (floor_log2 x) <= x.
Proof.
  intro Hx. unfold floor_log2.
  set (a := (Z.log2 (Qnum x) - Z.log2 (Z.pos (Qden x)))%Z).
  destruct (Qle_bool (pow2 a) x) eqn:E; [ apply Qle_bool_iff; exact E | ].
  destruct x as [ n d ]. cbn [Qnum Qden] in *.
  assert (Hn : (0 < n)%Z) by (unfold Qlt in Hx; cbn in Hx; lia).
  replace (a - 1)%Z with (Z.log2 n - (Z.log2 (Z.pos d) + 1))%Z by (subst a; lia).
  rewrite pow2_sub, !pow2_Z by (pose proof (Z.log2_nonneg n);
                                 pose proof (Z.log2_nonneg (Z.pos d)); lia).
  pose proof (Z.log2_spec n Hn) as [ Hn1 _ ].
  pose proof (Z.log2_spec (Z.pos d) (Pos2Z.is_pos d)) as [ _ Hd2 ].
  rewrite <- Z.add_1_r in Hd2.
  assert (Hp : (0 < 2 ^ (Z.log2 (Z.pos d) + 1))%Z) by lia.
  rewrite (Qmake_Qdiv n d).
  apply Qle_shift_div_l; [ change 0 with (inject_Z 0); rewrite <- Zlt_Qlt; lia | ].
  unfold Qdiv. rewrite <- Qmult_assoc, (Qmult_comm (/ _)), Qmult_assoc.
  apply Qle_shift_div_r; [ change 0 with (inject_Z 0); rewrite <- Zlt_Qlt; exact Hp | ].
  rewrite <- !inject_Z_mult, <- Zle_Qle. nia.
Qed.

Lemma floor_log2_lt (x : Q) (k : Z) : 0 < x -> x < pow2 k -> (floor_log2 x < k)%Z.
Proof.
  intros Hx Hk. apply pow2_lt_inv.
  apply Qle_lt_trans with (y := x); [ apply floor_log2_below; exact Hx | exact Hk ].
Qed.

(** ** Rounding to a double *)

Lemma round_comp (x y : Q) : x == y -> round x = round y.
Proof. intro E. unfold round. rewrite (Qred_complete _ _ E). reflexivity. Qed.

Lemma round_zero (x : Q) : x == 0 -> round x = 0.
Proof. intro E. rewrite (@round_comp x 0 E). reflexivity. Qed.

(** The value of [round] away from zero. *)
Lemma round_value (x : Q) :
  ~ x == 0 ->
  round x == inject_Z (round_half_even (x / pow2 (exponent (Qred x)))) * pow2 (exponent (Qred x)).
Proof.
  intro N. unfold round.
  destruct (Qeq_bool (Qred x) 0) eqn:E.
  - apply Qeq_bool_eq in E. rewrite Qred_correct in E. contradiction.
  - etransitivity; [ apply Qred_correct | ].
    rewrite (@round_half_even_comp (Qred x / pow2 (exponent (Qred x)))
                                  (x / pow2 (exponent (Qred x)))).
    + reflexivity.
    + apply Qmult_comp; [ apply Qred_correct | reflexivity ].
Qed.

Lemma round_nonneg (x : Q) : 0 <= x -> 0 <= round x.
Proof.
  intro H. destruct (Qeq_dec x 0) as [ E | N ].
  - rewrite (@round_zero x E). apply Qle_refl.
  - rewrite (@round_value x N).
    apply Qmult_le_0_compat; [ | apply Qlt_le_weak, pow2_pos ].
    change 0 with (inject_Z 0). rewrite <- Zle_Qle.
    apply round_half_even_ge. change (inject_Z 0) with 0.
    apply Qle_shift_div_l; [ apply pow2_pos | ]. lra.
Qed.

Lemma exponent_small (x : Q) : 0 < x -> x < pow2 53 -> (exponent x <= 0)%Z.
Proof.
  intros H0 H1. unfold exponent.
  assert (E : Qabs x = x).
  { destruct x as [ n d ]. unfold Qlt in H0. cbn in H0. cbn.
    rewrite Z.abs_eq by lia. reflexivity. }
  rewrite E. pose proof (@floor_log2_lt x 53 H0 H1). lia.
Qed.

(** Rounding does not cross an integer below 2^53: such an integer is a
    double. *)
Lemma round_le_int (x : Q) (b : Z) :
  0 <= x -> x <= inject_Z b -> (b < 2 ^ 53)%Z -> round x <= inject_Z b.
Proof.
  intros H0 Hb H53.
  destruct (Qeq_dec x 0) as [ E | N ].
  - rewrite (@round_zero x E). lra.
  - rewrite (@round_value x N).
    set (e := exponent (Qred x)).
    assert (Hx : 0 < x) by (destruct (Qlt_le_dec 0 x); [ assumption | exfalso; apply N; lra ]).
    assert (He : (e <= 0)%Z).
    { apply exponent_small; rewrite Qred_correct; [ exact Hx | ].
      apply Qle_lt_trans with (y := inject_Z b); [ exact Hb | ].
      rewrite (@pow2_Z 53) by lia. rewrite <- Zlt_Qlt. exact H53. }
    assert (Hinv : / pow2 e == inject_Z (2 ^ (- e))).
    { rewrite <- pow2_opp. apply pow2_Z. lia. }
    assert (Hr : (round_half_even (x / pow2 e) <= b * 2 ^ (- e))%Z).
    { apply round_half_even_le. unfold Qdiv. rewrite Hinv, inject_Z_mult.
      apply Qmult_le_compat_r; [ exact Hb | ].
      change 0 with (inject_Z 0). rewrite <- Zle_Qle. lia. }
    apply Qle_trans with (y := inject_Z (b * 2 ^ (- e)) * pow2 e).
    + apply Qmult_le_compat_r; [ | apply Qlt_le_weak, pow2_pos ].
      rewrite <- Zle_Qle. exact Hr.
    + rewrite inject_Z_mult, <- Hinv.
      pose proof (pow2_pos e) as Hp.
      assert (E : inject_Z b * / pow2 e * pow2 e == inject_Z b) by (field; lra).
      rewrite E. apply Qle_refl.
Qed.

(** ** Python's round(x, ndigits) *)

Lemma py_round_comp (x y : Q) (n : nat) : x == y -> py_round x n = py_round y n.
Proof.
  intro E. unfold py_round. apply round_comp.
  rewrite (@round_half_even_comp (x * inject_Z (10 ^ Z.of_nat n))
                                (y * inject_Z (10 ^ Z.of_nat n))).
  - reflexivity.
  - rewrite E. reflexivity.
Qed.

Lemma py_round_range (x : Q) (n : nat) (b : Z) :
  0 <= x -> x <= inject_Z b -> (b < 2 ^ 53)%Z ->
  0 <= py_round x n /\ py_round x n <= inject_Z b.
Proof.
  intros H0 Hb H53. unfold py_round.
  set (s := (10 ^ Z.of_nat n)%Z).
  assert (Hs : (0 < s)%Z) by (subst s; apply Z.pow_pos_nonneg; lia).
  assert (Hsq : 0 < inject_Z s) by (change 0 with (inject_Z 0); rewrite <- Zlt_Qlt; exact Hs).
  assert (Hlo : (0 <= round_half_even (x * inject_Z s))%Z).
  { apply round_half_even_ge. change (inject_Z 0) with 0.
    apply Qmult_le_0_compat; lra. }
  assert (Hhi : (round_half_even (x * inject_Z s) <= b * s)%Z).
  { apply round_half_even_le. rewrite inject_Z_mult.
    apply Qmult_le_compat_r; lra. }
  split.
  - apply round_nonneg. apply Qle_shift_div_l; [ exact Hsq | ].
    rewrite Qmult_0_l. change 0 with (inject_Z 0). rewrite <- Zle_Qle. exact Hlo.
  - apply round_le_int; [ | | exact H53 ].
    + apply Qle_shift_div_l; [ exact Hsq | ].
      rewrite Qmult_0_l. change 0 with (inject_Z 0). rewrite <- Zle_Qle. exact Hlo.
    + apply Qle_shift_div_r; [ exact Hsq | ].
      rewrite <- inject_Z_mult, <- Zle_Qle. exact Hhi.
Qed.

(** Rounding does not cross an integer below 2^53 from above either. *)
Lemma round_ge_int (x : Q) (b : Z) :
  (0 < b)%Z -> inject_Z b <= x -> x < pow2 53 -> inject_Z b <= round x.
Proof.
  intros H0 Hb H53.
  assert (Hx : 0 < x).
  { apply Qlt_le_trans with (y := inject_Z b); [ | exact Hb ].
    change 0 with (inject_Z 0). rewrite <- Zlt_Qlt. exact H0. }
  assert (N : ~ x == 0) by lra.
  rewrite (@round_value x N).
  set (e := exponent (Qred x)).
  assert (He : (e <= 0)%Z).
  { apply exponent_small; rewrite Qred_correct; assumption. }
  assert (Hinv : / pow2 e == inject_Z (2 ^ (- e))).
  { rewrite <- pow2_opp. apply pow2_Z. lia. }
  assert (Hr : (b * 2 ^ (- e) <= round_half_even (x / pow2 e))%Z).
  { apply round_half_even_ge. unfold Qdiv. rewrite Hinv, inject_Z_mult.
    apply Qmult_le_compat_r; [ exact Hb | ].
    change 0 with (inject_Z 0). rewrite <- Zle_Qle. lia. }
  apply Qle_trans with (y := inject_Z (b * 2 ^ (- e)) * pow2 e).
  - rewrite inject_Z_mult, <- Hinv.
    pose proof (pow2_pos e) as Hp.
    assert (E : inject_Z b * / pow2 e * pow2 e == inject_Z b) by (field; lra).
    rewrite E. apply Qle_refl.
  - apply Qmult_le_compat_r; [ | apply Qlt_le_weak, pow2_pos ].
    rewrite <- Zle_Qle. exact Hr.
Qed.

(** A number between 0 and an integer below 2^53 rounds to a finite
    double. *)
Lemma of_Q_small (x : Q) (b : Z) :
  0 <= x -> x <= inject_Z b -> (b < 2 ^ 53)%Z ->
  Np.of_Q x = Np.Fin (round x) /\ 0 <= round x <= inject_Z b.
Proof.
  intros H0 Hb H53.
  pose proof (round_nonneg H0) as Hr0.
  pose proof (round_le_int H0 Hb H53) as Hrb.
  split; [ | split; assumption ].
  unfold Np.of_Q.
  destruct (overflows (round x)) eqn:E; [ exfalso | reflexivity ].
  unfold overflows in E. apply Qle_bool_iff in E.
  rewrite (Qabs_pos _ Hr0) in E.
  assert (Hbig : inject_Z (2 ^ 53) <= pow2 1024)
    by (apply Qle_bool_iff; vm_compute; reflexivity).
  assert (Hlt : inject_Z b < inject_Z (2 ^ 53)) by (rewrite <- Zlt_Qlt; exact H53).
  lra.
Qed.

(** ** The error of a rounding *)

Lemma Qabs_Qred (x : Q) : Qabs (Qred x) == Qabs x.
Proof. apply Qabs_wd. apply Qred_correct. Qed.

(** The last bit of the doubles around [x] is worth at most [2 ** -52]
    times [x], or is the last bit of the subnormal numbers. *)
Lemma exponent_bound (x : Q) :
  ~ x == 0 -> pow2 (exponent x) <= Qabs x * pow2 (-52) + pow2 (-1074).
Proof.
  intro N. unfold exponent.
  assert (Hpos : 0 < Qabs x).
  { destruct (Qlt_le_dec 0 (Qabs x)) as [ H | H ]; [ exact H | ].
    exfalso. apply N. apply Qabs_Qle_condition in H. lra. }
  pose proof (floor_log2_below Hpos) as Hfl.
  pose proof (pow2_pos (-1074)) as H1. pose proof (pow2_pos (-52)) as H2.
  destruct (Z.max_spec (floor_log2 (Qabs x) - 52) (-1074)) as [ [ _ -> ] | [ _ -> ] ].
  - assert (0 <= Qabs x * pow2 (-52)) by (apply Qmult_le_0_compat; lra). lra.
  - replace (floor_log2 (Qabs x) - 52)%Z with (floor_log2 (Qabs x) + (-52))%Z by lia.
    rewrite pow2_add.
    assert (pow2 (floor_log2 (Qabs x)) * pow2 (-52) <= Qabs x * pow2 (-52))
      by (apply Qmult_le_compat_r; lra).
    lra.
Qed.

(** Rounding to a double moves a number by at most [2 ** -53] times its
    size, or by half the last bit of the subnormal numbers. *)
Lemma round_error (x : Q) :
  Qabs (round x - x) <= Qabs x * pow2 (-53) + pow2 (-1075).
Proof.
  pose proof (pow2_pos (-1075)) as H1. pose proof (pow2_pos (-53)) as H2.
  pose proof (Qabs_nonneg x) as Hx.
  assert (Hrhs : 0 <= Qabs x * pow2 (-53)) by (apply Qmult_le_0_compat; lra).
  destruct (Qeq_dec x 0) as [ E | N ].
  - rewrite (@round_zero x E).
    assert (E' : 0 - x == 0) by lra. rewrite E'. change (Qabs 0) with 0. lra.
  - assert (Hr : ~ Qred x == 0) by (rewrite Qred_correct; exact N).
    pose proof (exponent_bound Hr) as He. rewrite Qabs_Qred in He.
    rewrite (@round_value x N).
    set (e := exponent (Qred x)) in *.
    pose proof (pow2_pos e) as Hp.
    destruct (round_half_even_near (x / pow2 e)) as [ Hlo Hhi ].
    set (n := inject_Z (round_half_even (x / pow2 e))) in *.
    assert (Hy : x / pow2 e * pow2 e == x) by (field; lra).
    assert (Hlo' : (n - (1 # 2)) * pow2 e <= x).
    { rewrite <- Hy. apply Qmult_le_compat_r; lra. }
    assert (Hhi' : x <= (n + (1 # 2)) * pow2 e).
    { rewrite <- Hy at 1. apply Qmult_le_compat_r; lra. }
    assert (E53 : pow2 (-53) == (1 # 2) * pow2 (-52)) by reflexivity.
    assert (E1075 : pow2 (-1075) == (1 # 2) * pow2 (-1074)) by reflexivity.
    assert (Hhalf : (1 # 2) * pow2 e <= Qabs x * pow2 (-53) + pow2 (-1075)).
    { rewrite E53, E1075. lra. }
    apply Qabs_Qle_condition. split; lra.
Qed.

(** [2 ** -53], half the distance from 1 to the next double. *)
Definition ulp : Q := 1 # 9007199254740992.

Lemma tiny_bound : pow2 (-1075) <= 1 # 1000000000000000000000.
Proof. apply Qle_bool_iff. vm_compute. reflexivity. Qed.

(** The error of one rounding, for a number that is not negative. *)
Lemma round_error_nonneg (x : Q) :
  0 <= x ->
  x - x * ulp - pow2 (-1075) <= round x /\ round x <= x + x * ulp + pow2 (-1075).
Proof.
  intro H. pose proof (round_error x) as E.
  rewrite (Qabs_pos x H) in E. apply Qabs_Qle_condition in E.
  change (pow2 (-53)) with ulp in E. lra.
Qed.

End Rounding.

(* ===================================================================== *)
(** * The binary64 arithmetic against the primitive floats *)
(* ===================================================================== *)

(** The operations of [Np] are compared with the hardware operations on
    doubles that Rocq's primitive floats give, on every pair of a list of
    sample values: small integers, decimal fractions, the numbers of the
    examples of this file, the largest and the smallest doubles, subnormal
    numbers, the infinities and NaN. *)
Module Binary64Check.

Import Floats.

(** The value of a primitive float. *)
Definition to_np (f : float) : Np.float64 :=
  match Prim2SF f with
  | S754_zero _ => Np.Fin 0
  | S754_infinity false => Np.PosInf
  | S754_infinity true => Np.NegInf
  | S754_nan => Np.NaN
  | S754_finite s m e =>
      Np.Fin (Qred ((if s then -1 else 1) * inject_Z (Zpos m) * Binary64.pow2 e))
  end.

Definition same (a b : Np.float64) : bool :=
  match a, b with
  | Np.Fin x, Np.Fin y => Qeq_bool x y
  | Np.NaN, Np.NaN | Np.PosInf, Np.PosInf | Np.NegInf, Np.NegInf => true
  | _, _ => false
  end.

Definition samples : list float :=
  [ 0; 1; -1; 3; -3; 0.1; 0.3; 1e300; -1e300; 5e-324; 1e-320; 2.5e-05; 40000; 1000;
    3.4482758620689653; 1.7976931348623157e308; 9007199254740993; 1.4142135623730951;
    2.9999999999999996; 7e-310; 0.14375; 2.2250738585072014e-308;
    infinity; neg_infinity; nan ]%float.

Definition pairs : list (float * float) :=
  flat_map (fun a => map (fun b => (a, b)) samples) samples.

(** The pairs on which a primitive operation and its model differ. *)
Definition differences (prim : float -> float -> float)
  (model : Np.float64 -> Np.float64 -> Np.float64) : list (float * float) :=
  filter (fun p => negb (same (to_np (prim (fst p) (snd p)))
                           (model (to_np (fst p)) (to_np (snd p))))) pairs.

Lemma operations_agree :
  differences PrimFloat.add Np.add = []
  /\ differences PrimFloat.mul Np.mul = []
  /\ differences PrimFloat.div Np.divide = []
  /\ filter (fun a => negb (same (to_np (PrimFloat.sqrt a)) (Np.sqrt (to_np a)))) samples
     = [].
Proof. vm_compute. repeat split. Qed.

(** The double nearest to a decimal fraction is the one the float literal
    denotes. *)
Lemma literals_agree :
  to_np 34.48%float = Np.Fin (Binary64.round (3448 # 100))
  /\ to_np 0.03%float = Np.Fin (Binary64.round (3 # 100))
  /\ to_np 0.07%float = Np.Fin (Binary64.round (7 # 100))
  /\ to_np (-1.1102230246251565e-16)%float = Np.Fin (- Binary64.pow2 (-53))
  /\ to_np 0.9999999999999999%float = Np.Fin (1 - Binary64.pow2 (-53)).
Proof. vm_compute. repeat split. Qed.

(** The similarity of [1.0, 1.0, 1.0] and [-1.0, -1.0, -1.0], and the
    product that [round] gets for one keyword in 40000 words, computed with
    the primitive operations. *)
Lemma examples_agree :
  to_np ((-3 / (PrimFloat.sqrt 3 * PrimFloat.sqrt 3) + 1) / 2)%float
  = calculate_similarity [Np.Fin 1; Np.Fin 1; Np.Fin 1]
      [Np.Fin (-1); Np.Fin (-1); Np.Fin (-1)]
  /\ to_np (PrimFloat.sqrt 3 * PrimFloat.sqrt 3)%float
     = to_np 2.9999999999999996%float
  /\ match ReportProcessing.true_divide 1 40000 with
     | Some frequency =>
         Np.Fin (Binary64.round (frequency * 1000)) = to_np (1 / 40000 * 1000)%float
         /\ to_np (1 / 40000 * 1000)%float = to_np 0.025000000000000001%float
     | None => False
     end.
Proof. vm_compute. repeat split. Qed.

End Binary64Check.

(* ===================================================================== *)
(** * Compliance scores *)
(* ===================================================================== *)

Module Compliance.

Import ReportProcessing.

Local Open Scope Q_scope.

Lemma fraction_nonneg (k : nat) (p : positive) : 0 <= Z.of_nat k # p.
Proof. unfold Qle; simpl. lia. Qed.

(** The score as a function of the two counts. *)
Definition score_of_counts (keyword_count word_count : nat) : Q :=
  let frequency :=
    if (0 <? word_count)%nat
    then true_divide (Z.of_nat keyword_count) (Z.of_nat word_count)
    else Some 0 in
  match frequency with
  | Some frequency => round2 (Qmin (Binary64.round (frequency * 1000)) 100)
  | None => 0
  end.

Lemma calculate_framework_score_counts (text framework : string) :
  _calculate_framework_score text framework
  = score_of_counts
      (keyword_occurrences (PyStr.lower text) (PyDict.get framework_keywords framework []))
      (PyStr.word_count text).
Proof. reflexivity. Qed.

Lemma quotient_nonneg (k w : nat) : 0 <= inject_Z (Z.of_nat k) / inject_Z (Z.of_nat w).
Proof.
  destruct w as [ | w ].
  - unfold Qdiv. change (/ inject_Z (Z.of_nat 0)) with 0. rewrite Qmult_0_r. apply Qle_refl.
  - apply Qle_shift_div_l.
    + change 0 with (inject_Z 0). rewrite <- Zlt_Qlt. lia.
    + rewrite Qmult_0_l. change 0 with (inject_Z 0). rewrite <- Zle_Qle. lia.
Qed.

Lemma true_divide_nonneg (k w : nat) (frequency : Q) :
  true_divide (Z.of_nat k) (Z.of_nat w) = Some frequency -> 0 <= frequency.
Proof.
  unfold true_divide.
  destruct (Binary64.overflows _); [ discriminate | ].
  intros [= <-]. apply Rounding.round_nonneg, quotient_nonneg.
Qed.

(** [round(x, 2)] of a score between 0 and 100 is between 0 and 100. *)
Lemma round2_range (x : Q) : 0 <= x -> x <= 100 -> 0 <= round2 x <= 100.
Proof.
  intros H0 H100. unfold round2.
  apply (@Rounding.py_round_range x 2 100%Z); [ exact H0 | exact H100 | reflexivity ].
Qed.

Lemma capped_range (x : Q) : 0 <= x -> 0 <= Qmin x 100 <= 100.
Proof.
  intro H. split; [ apply Q.min_glb; [ exact H | discriminate ] | apply Q.le_min_r ].
Qed.

Lemma score_of_counts_range (k w : nat) : 0 <= score_of_counts k w <= 100.
Proof.
  unfold score_of_counts.
  destruct (0 <? w)%nat.
  - destruct (true_divide (Z.of_nat k) (Z.of_nat w)) as [ frequency | ] eqn:E.
    + pose proof (@true_divide_nonneg k w frequency E) as Hf.
      assert (Hp : 0 <= Binary64.round (frequency * 1000)).
      { apply Rounding.round_nonneg. apply Qmult_le_0_compat; [ exact Hf | discriminate ]. }
      destruct (@capped_range _ Hp) as [ Hlo Hhi ].
      apply round2_range; assumption.
    + split; discriminate.
  - vm_compute. split; discriminate.
Qed.

Lemma score_of_counts_no_words (k : nat) : score_of_counts k 0 = 0.
Proof. reflexivity. Qed.

Lemma spec_framework_score_range (text framework : string) :
  0 <= spec_framework_score text framework <= 100.
Proof.
  unfold spec_framework_score.
  destruct (PyStr.word_count text =? 0)%nat; [ split; discriminate | ].
  split.
  - apply Q.min_glb; [ | discriminate ].
    apply Qmult_le_0_compat; [ apply fraction_nonneg | discriminate ].
  - apply Q.le_min_r.
Qed.

Lemma spec_framework_score_no_words (text framework : string) :
  PyStr.word_count text = 0%nat -> spec_framework_score text framework == 0.
Proof. intro H. unfold spec_framework_score. rewrite H. reflexivity. Qed.

Local Close Scope Q_scope.

(** ** The number of keywords found *)

Lemma count_from_le (needle hay : string) (skip : nat) :
  PyStr.count_from needle hay skip <= String.length hay.
Proof.
  revert skip. induction hay as [ | c hay IH ]; intro skip; [ apply Nat.le_refl | ].
  cbn [PyStr.count_from String.length].
  destruct skip as [ | skip ].
  - destruct (PyStr.startswith (String c hay) needle).
    + specialize (IH (String.length needle - 1)). lia.
    + specialize (IH 0). lia.
  - specialize (IH skip). lia.
Qed.

Lemma length_lower (s : string) : String.length (PyStr.lower s) = String.length s.
Proof. induction s as [ | c s IH ]; simpl; [ reflexivity | rewrite IH; reflexivity ]. Qed.

Lemma keyword_occurrences_le (text_lower : string) (keywords : list string) :
  keyword_occurrences text_lower keywords
  <= List.length keywords * String.length text_lower.
Proof.
  unfold keyword_occurrences.
  induction keywords as [ | k keywords IH ]; [ apply Nat.le_refl | ].
  pose proof (count_from_le k text_lower 0) as H.
  unfold PyStr.count in *. simpl. lia.
Qed.

Lemma framework_keywords_length (framework : string) :
  List.length (PyDict.get framework_keywords framework []) <= 4.
Proof.
  unfold framework_keywords. cbn [PyDict.get].
  repeat match goal with
         | |- context [ String.eqb ?a framework ] => destruct (String.eqb a framework)
         end; simpl; lia.
Qed.

Lemma keyword_count_bound (text framework : string) :
  keyword_occurrences (PyStr.lower text) (PyDict.get framework_keywords framework [])
  <= 4 * String.length text.
Proof.
  pose proof (keyword_occurrences_le (PyStr.lower text)
                (PyDict.get framework_keywords framework [])) as H.
  pose proof (framework_keywords_length framework) as H4.
  rewrite length_lower in H. nia.
Qed.

Local Open Scope Q_scope.

(** ** The distance to the exact value *)

Lemma min_cap_close (a b eps : Q) :
  a - eps <= b -> b <= a + eps -> 0 <= eps ->
  Qmin a 100 - eps <= Qmin b 100 /\ Qmin b 100 <= Qmin a 100 + eps.
Proof.
  intros H1 H2 H0.
  destruct (Q.min_spec a 100) as [ [ Ha -> ] | [ Ha -> ] ];
    destruct (Q.min_spec b 100) as [ [ Hb -> ] | [ Hb -> ] ]; lra.
Qed.

Lemma score_of_counts_close (k w : nat) :
  (0 < w)%nat -> (Z.of_nat k < 2 ^ 65)%Z ->
  Qabs (score_of_counts k w - Qmin ((Z.of_nat k # Pos.of_nat w) * 1000) 100)
  <= (1 # 200) + (1 # 1000000000000).
Proof.
  intros Hw Hk.
  pose proof Rounding.tiny_bound as Ht. pose proof (Rounding.pow2_pos (-1075)) as Ht0.
  set (t := Binary64.pow2 (-1075)) in *.
  assert (Ex : Z.of_nat k # Pos.of_nat w
               == inject_Z (Z.of_nat k) / inject_Z (Z.of_nat w)).
  { rewrite (Qmake_Qdiv (Z.of_nat k) (Pos.of_nat w)).
    replace (Zpos (Pos.of_nat w)) with (Z.of_nat w); [ reflexivity | ].
    destruct w as [ | w' ]; [ lia | ].
    rewrite <- Pos.of_nat_succ. rewrite Zpos_P_of_succ_nat. lia. }
  rewrite Ex. clear Ex.
  pose proof (quotient_nonneg k w) as Hx0.
  assert (Hxk : inject_Z (Z.of_nat k) / inject_Z (Z.of_nat w) <= inject_Z (2 ^ 65)).
  { apply Qle_shift_div_r.
    - change 0 with (inject_Z 0). rewrite <- Zlt_Qlt. lia.
    - rewrite <- inject_Z_mult, <- Zle_Qle. nia. }
  change (inject_Z (2 ^ 65)) with 36893488147419103232 in Hxk.
  set (x := inject_Z (Z.of_nat k) / inject_Z (Z.of_nat w)) in *.
  destruct (Rounding.round_error_nonneg Hx0) as [ Hf1 Hf2 ]. fold t in Hf1, Hf2.
  pose proof (Rounding.round_nonneg Hx0) as Hf0.
  unfold score_of_counts.
  replace (0 <? w)%nat with true by (symmetry; apply Nat.ltb_lt; exact Hw).
  unfold true_divide. fold x.
  set (f := Binary64.round x) in *.
  unfold Rounding.ulp in *.
  assert (Hover : Binary64.overflows f = false).
  { unfold Binary64.overflows. destruct (Qle_bool (Binary64.pow2 1024) (Qabs f)) eqn:E; [ | reflexivity ].
    apply Qle_bool_iff in E. rewrite (Qabs_pos f Hf0) in E.
    assert (H : 36893488147419103232 * 4 <= Binary64.pow2 1024)
      by (apply Qle_bool_iff; vm_compute; reflexivity).
    exfalso. lra. }
  rewrite Hover.
  assert (Hp0 : 0 <= f * 1000) by lra.
  destruct (Rounding.round_error_nonneg Hp0) as [ Hg1 Hg2 ]. fold t in Hg1, Hg2.
  pose proof (Rounding.round_nonneg Hp0) as Hg0.
  set (g := Binary64.round (f * 1000)) in *.
  unfold Rounding.ulp in *.
  destruct (Qlt_le_dec (x * 1000) 200) as [ Hsmall | Hlarge ].
  - (* the score is below the cap, or near it *)
    destruct (@min_cap_close (x * 1000) g ((1 # 2000000000000)))
      as [ Hm1 Hm2 ]; [ lra | lra | lra | ].
    destruct (@capped_range g Hg0) as [ Hm0 Hm100 ].
    set (m := Qmin g 100) in *. set (s := Qmin (x * 1000) 100) in *.
    unfold round2, Binary64.py_round.
    change (inject_Z (10 ^ Z.of_nat 2)) with 100.
    destruct (Rounding.round_half_even_near (m * 100)) as [ Hn1 Hn2 ].
    assert (Hn0 : (0 <= Binary64.round_half_even (m * 100))%Z).
    { apply Rounding.round_half_even_ge. change (inject_Z 0) with 0. lra. }
    assert (Hn100 : (Binary64.round_half_even (m * 100) <= 10000)%Z).
    { apply Rounding.round_half_even_le. change (inject_Z 10000) with 10000. lra. }
    rewrite Zle_Qle in Hn0, Hn100.
    change (inject_Z 0) with 0 in Hn0. change (inject_Z 10000) with 10000 in Hn100.
    set (n := inject_Z (Binary64.round_half_even (m * 100))) in *.
    assert (Hd : n / 100 * 100 == n) by (field; discriminate).
    set (d := n / 100) in *.
    assert (Hd0 : 0 <= d) by lra.
    destruct (Rounding.round_error_nonneg Hd0) as [ Hr1 Hr2 ]. fold t in Hr1, Hr2.
    unfold Rounding.ulp in *.
    apply Qabs_Qle_condition. split; lra.
  - (* the score is capped *)
    assert (Hg100 : 100 <= g) by lra.
    assert (Em : Qmin g 100 == 100) by (apply Q.min_r; exact Hg100).
    assert (Es : Qmin (x * 1000) 100 == 100) by (apply Q.min_r; lra).
    unfold round2. rewrite (@Rounding.py_round_comp (Qmin g 100) 100 2 Em).
    rewrite Es.
    replace (Binary64.py_round 100 2) with 100 by (vm_compute; reflexivity).
    apply Qabs_Qle_condition. split; lra.
Qed.

(** For a text of fewer than 2**63 characters, the longest a Python [str]
    can be, the score is within half a hundredth, and the rounding errors of
    the three double operations, of the exact value the specification
    names. *)
Lemma calculate_framework_score_close (text framework : string) :
  (Z.of_nat (String.length text) < 2 ^ 63)%Z ->
  Qabs (_calculate_framework_score text framework
        - spec_framework_score text framework)
  <= (1 # 200) + (1 # 1000000000000).
Proof.
  intro Hlen. rewrite calculate_framework_score_counts. unfold spec_framework_score.
  pose proof (keyword_count_bound text framework) as Hk.
  set (k := keyword_occurrences _ _) in *.
  destruct (PyStr.word_count text) as [ | w ] eqn:Ew.
  - rewrite score_of_counts_no_words. vm_compute. discriminate.
  - replace (S w =? 0)%nat with false by reflexivity.
    apply score_of_counts_close; lia.
Qed.

End Compliance.

(** A text of 29 words that names one keyword of the SEC framework once. *)
Definition disclosure_text : string :=
  "Management reviewed each disclosure before the annual report was issued and the audit committee met twice with the external auditor to discuss the results of the review in detail".

(** C9, as stated, fails: the score is not min(count / words * 1000, 100)
    itself; for one keyword in 29 words that is 1000/29, and the code
    returns the double 34.48. *)
Lemma C9_score_is_rounded :
  PyStr.word_count disclosure_text = 29
  /\ ReportProcessing.keyword_occurrences (PyStr.lower disclosure_text)
       (PyDict.get ReportProcessing.framework_keywords "SEC" []) = 1
  /\ (ReportProcessing.spec_framework_score disclosure_text "SEC" == 1000 # 29)%Q
  /\ ReportProcessing._calculate_framework_score disclosure_text "SEC"
     = Binary64.round (3448 # 100)
  /\ ~ (ReportProcessing._calculate_framework_score disclosure_text "SEC"
        == ReportProcessing.spec_framework_score disclosure_text "SEC")%Q.
Proof.
  split; [ vm_compute; reflexivity | ].
  split; [ vm_compute; reflexivity | ].
  split; [ vm_compute; reflexivity | ].
  split; [ vm_compute; reflexivity | ].
  vm_compute. discriminate.
Qed.

(** The rounding is the one of doubles: one keyword in 40000 words gives
    the frequency 2.5e-05 and the product 0.025000000000000001, which
    rounds to 0.03 and not to the even neighbour 0.02 of the decimal 0.025;
    three keywords give 0.07, not 0.08. *)
Lemma score_of_sparse_keywords :
  Compliance.score_of_counts 1 40000 = Binary64.round (3 # 100)
  /\ Compliance.score_of_counts 3 40000 = Binary64.round (7 # 100).
Proof. split; vm_compute; reflexivity. Qed.

(** C9, amended: without any call to a collaborator, the assessment returns
    one entry for each of SOX, COSO, PCAOB and SEC, whose score is what
    _calculate_framework_score gives for the text in double precision: a
    number in [0,100], 0 for a text without words, and, for a text of fewer
    than 2**63 characters, within 0.005 + 1e-12 of
    min(count / words * 1000, 100). *)
Theorem C9_compliance_scores_rounded (utcnow : nat -> datetime) (text : string) :
  let r := ReportProcessing._assess_compliance_scores utcnow text in
  PyDict.keys r = [ "SOX"; "COSO"; "PCAOB"; "SEC" ]%string
  /\ forall framework entry,
       In (framework, entry) r ->
       ReportProcessing.score entry
       = ReportProcessing._calculate_framework_score text framework
       /\ (0 <= ReportProcessing.score entry <= 100)%Q
       /\ (PyStr.word_count text = 0 -> ReportProcessing.score entry = 0%Q)
       /\ ((Z.of_nat (String.length text) < 2 ^ 63)%Z ->
           (Qabs (ReportProcessing.score entry
                  - ReportProcessing.spec_framework_score text framework)
            <= (1 # 200) + (1 # 1000000000000))%Q).
Proof.
  cbv zeta. split; [ reflexivity | ].
  intros framework entry Hin.
  assert (Hscore : ReportProcessing.score entry
                   = ReportProcessing._calculate_framework_score text framework).
  { unfold ReportProcessing._assess_compliance_scores, ReportProcessing.frameworks in Hin.
    simpl in Hin.
    destruct Hin as [ H | [ H | [ H | [ H | [] ] ] ] ];
      injection H as <- <-; reflexivity. }
  rewrite Hscore.
  split; [ reflexivity | ].
  split; [ rewrite Compliance.calculate_framework_score_counts;
           apply Compliance.score_of_counts_range | ].
  split.
  - intro Hw. rewrite Compliance.calculate_framework_score_counts, Hw.
    apply Compliance.score_of_counts_no_words.
  - apply Compliance.calculate_framework_score_close.
Qed.

(** The scores of the text of 29 words: the SEC score is the double 34.48,
    within the bound of 1000/29, and the three other scores are 0. *)
Lemma C9_compliance_scores_witness :
  map (fun kv => (fst kv, ReportProcessing.score (snd kv)))
    (ReportProcessing._assess_compliance_scores Example.clock disclosure_text)
  = [ ("SOX"%string, 0%Q); ("COSO"%string, 0%Q); ("PCAOB"%string, 0%Q);
      ("SEC"%string, Binary64.round (3448 # 100)) ]
  /\ (Qabs (Binary64.round (3448 # 100) - (1000 # 29))
      <= (1 # 200) + (1 # 1000000000000))%Q.
Proof.
  split; [ vm_compute; reflexivity | ].
  destruct (@C9_compliance_scores_rounded Example.clock disclosure_text)
    as [ _ Hall ].
  destruct (Hall "SEC"%string
              (ReportProcessing.mkComplianceScore (Binary64.round (3448 # 100))
                 "SEC reporting requirements" (Example.clock 3)))
    as (_ & _ & _ & Hclose).
  - vm_compute. right. right. right. left. reflexivity.
  - assert (Hlen : (Z.of_nat (String.length disclosure_text) < 2 ^ 63)%Z)
      by (vm_compute; reflexivity).
    specialize (Hclose Hlen).
    assert (E : (ReportProcessing.spec_framework_score disclosure_text "SEC"
                 == 1000 # 29)%Q) by (vm_compute; reflexivity).
    rewrite E in Hclose. exact Hclose.
Defined.

(* ===================================================================== *)
(** * Content hashes and duplicate uploads *)
(* ===================================================================== *)

Module Uploads.

Import Strings.Byte.
Import AuditService.

(** Reading a file block by block feeds the hash the whole file. *)
Lemma feed_chunks_all (rest fed : list byte) :
  DocumentProcessor.feed_chunks rest fed = fed ++ rest.
Proof.
  funelim (DocumentProcessor.feed_chunks rest fed).
  - rewrite app_nil_r. reflexivity.
  - match goal with IH : _ = (_ ++ _) ++ _ |- _ => rewrite IH end.
    rewrite <- app_assoc, firstn_skipn. reflexivity.
Qed.

Lemma calculate_hash_whole (sha256_hexdigest : list byte -> string)
  (file_content : list byte) :
  DocumentProcessor.calculate_hash sha256_hexdigest file_content
  = sha256_hexdigest file_content.
Proof.
  unfold DocumentProcessor.calculate_hash. rewrite feed_chunks_all. reflexivity.
Qed.

(** With one row per hash, the rows of a stored hash are that one row. *)
Lemma filter_unique_hash (l : list AuditReport) (r : AuditReport) :
  NoDup (map content_hash l) -> In r l ->
  filter (fun x => String.eqb (content_hash x) (content_hash r)) l = [r].
Proof.
  induction l as [ | x l IH ]; intros Hnd Hin; [ contradiction | ].
  simpl in Hnd. inversion Hnd as [ | ? ? Hx Hl ]; subst. simpl.
  destruct Hin as [ -> | Hin ].
  - rewrite String.eqb_refl. f_equal.
    clear IH Hnd.
    induction l as [ | y l IHl ]; simpl; [ reflexivity | ].
    destruct (String.eqb (content_hash y) (content_hash r)) eqn:E.
    + apply String.eqb_eq in E. exfalso. apply Hx. left. exact E.
    + apply IHl.
      * intro H. apply Hx. right. exact H.
      * inversion Hl; assumption.
  - destruct (String.eqb (content_hash x) (content_hash r)) eqn:E.
    + apply String.eqb_eq in E. exfalso. apply Hx. rewrite E.
      apply in_map. exact Hin.
    + apply IH; assumption.
Qed.

Lemma filter_no_hash (l : list AuditReport) (h : string) :
  filter (fun x => String.eqb (content_hash x) h) l = [] ->
  ~ In h (map content_hash l).
Proof.
  induction l as [ | x l IH ]; simpl; [ tauto | ].
  destruct (String.eqb (content_hash x) h) eqn:E; [ discriminate | ].
  intros Hf [ Hx | Hin ].
  - rewrite Hx, String.eqb_refl in E. discriminate.
  - exact (IH Hf Hin).
Qed.

Lemma NoDup_snoc {A : Type} (l : list A) (a : A) :
  NoDup l -> ~ In a l -> NoDup (l ++ [a]).
Proof.
  induction l as [ | x l IH ]; intros Hnd Hin; simpl.
  - constructor; [ tauto | constructor ].
  - inversion Hnd; subst. constructor.
    + rewrite in_app_iff. intros [ H | [ H | [] ] ]; [ tauto | ].
      apply Hin. left. symmetry. exact H.
    + apply IH; [ assumption | ]. intro H. apply Hin. right. exact H.
Qed.

Section Upload.

Variable sha256_hexdigest : list byte -> string.
Variable upload_path : string -> string.
Variable _extract_title : string -> string.

(** The row [process_upload] builds for a new file. *)
Definition new_row (new_id : UUID) (file : UploadFile) (report_type : string)
  (company_id : option string) : AuditReport :=
  mkAuditReport new_id company_id (_extract_title (filename file)) report_type
    (upload_path (filename file)) (filename file) (List.length (body file))
    (sha256_hexdigest (body file)) "pending".

(** Whether the row was committed, and whether the task was started, when
    the step raises. *)
Definition committed_before (step : upload_step) : bool :=
  match step with
  | Construct | Commit => false
  | Refresh | CreateTask | Respond => true
  end.

Definition started_before (step : upload_step) : bool :=
  match step with
  | Respond => true
  | _ => false
  end.

(** Every way [process_upload] can go. *)
Inductive upload_outcome (w : World) (new_id : UUID) (file : UploadFile)
  (report_type : string) (company_id : option string)
  (fault : option (upload_step * exn)) : result AuditReport * World -> Prop :=
| UploadRefused e :
    _validate_file file <> Return true ->
    upload_outcome w new_id file report_type company_id fault
      (Raise (DataIngestionException e), w)
| UploadAmbiguous e :
    _validate_file file = Return true ->
    (2 <= List.length (with_hash w (sha256_hexdigest (body file)))) ->
    upload_outcome w new_id file report_type company_id fault
      (Raise (DataIngestionException e), w)
| UploadDuplicate existing :
    _validate_file file = Return true ->
    with_hash w (sha256_hexdigest (body file)) = [existing] ->
    upload_outcome w new_id file report_type company_id fault (Return existing, w)
| UploadStored :
    _validate_file file = Return true ->
    with_hash w (sha256_hexdigest (body file)) = [] ->
    fault = None ->
    let audit_report := new_row new_id file report_type company_id in
    upload_outcome w new_id file report_type company_id fault
      (Return audit_report,
       mkWorld (db w ++ [audit_report])
         (PyDict.set (upload_dir w) (upload_path (filename file)) (body file))
         (tasks w ++ [new_id]))
| UploadFaulty step e :
    _validate_file file = Return true ->
    with_hash w (sha256_hexdigest (body file)) = [] ->
    fault = Some (step, e) ->
    let audit_report := new_row new_id file report_type company_id in
    upload_outcome w new_id file report_type company_id fault
      (Raise (DataIngestionException
                (String.append "Failed to process upload: " (exn_str e))),
       mkWorld
         (if committed_before step then db w ++ [audit_report] else db w)
         (PyDict.set (upload_dir w) (upload_path (filename file)) (body file))
         (if started_before step then tasks w ++ [new_id] else tasks w)).

Lemma process_upload_outcome (w : World) (new_id : UUID) (file : UploadFile)
  (report_type : string) (company_id : option string)
  (fault : option (upload_step * exn)) :
  upload_outcome w new_id file report_type company_id fault
    (process_upload sha256_hexdigest upload_path _extract_title
       w new_id file report_type company_id fault).
Proof.
  unfold process_upload, _check_duplicate.
  destruct (_validate_file file) as [ [ | ] | e ] eqn:V.
  - fold (with_hash w (sha256_hexdigest (body file))).
    destruct (with_hash w (sha256_hexdigest (body file))) as [ | r [ | r' l ] ] eqn:F.
    + unfold _save_file.
      destruct fault as [ [ step e ] | ].
      * destruct step;
          exact (@UploadFaulty w new_id file report_type company_id _ _ e V F eq_refl).
      * exact (@UploadStored w new_id file report_type company_id None V F eq_refl).
    + apply UploadDuplicate; assumption.
    + apply UploadAmbiguous; [ assumption | rewrite F; simpl; lia ].
  - apply UploadRefused. rewrite V. discriminate.
  - apply UploadRefused. rewrite V. discriminate.
Qed.

(** One row per hash is kept by every upload, failed or not. *)
Lemma process_upload_keeps_unique (w : World) (new_id : UUID) (file : UploadFile)
  (report_type : string) (company_id : option string)
  (fault : option (upload_step * exn)) :
  fingerprints_unique w ->
  fingerprints_unique
    (snd (process_upload sha256_hexdigest upload_path _extract_title
            w new_id file report_type company_id fault)).
Proof.
  intro Hu.
  assert (Hnew : with_hash w (sha256_hexdigest (body file)) = [] ->
                 NoDup (map content_hash
                          (db w ++ [new_row new_id file report_type company_id]))).
  { intro F. rewrite map_app. simpl.
    apply NoDup_snoc; [ exact Hu | ]. apply filter_no_hash. exact F. }
  destruct (process_upload_outcome w new_id file report_type company_id fault)
    as [ e V | e V F | existing V F | V F N r | step e V F N r ]; simpl;
    try exact Hu.
  - exact (Hnew F).
  - unfold fingerprints_unique; simpl.
    destruct (committed_before step); [ exact (Hnew F) | exact Hu ].
Qed.

(** Whatever the file and whatever fails, an upload whose hash is already
    stored changes nothing: no row, no file, no task. *)
Lemma stored_hash_changes_nothing (w : World) (new_id : UUID) (file : UploadFile)
  (report_type : string) (company_id : option string)
  (fault : option (upload_step * exn)) (existing : AuditReport) :
  In existing (db w) ->
  content_hash existing = sha256_hexdigest (body file) ->
  snd (process_upload sha256_hexdigest upload_path _extract_title
         w new_id file report_type company_id fault) = w.
Proof.
  intros Hin Hhash.
  destruct (process_upload_outcome w new_id file report_type company_id fault)
    as [ e V | e V F | r V F | V F N r | step e V F N r ]; try reflexivity;
    exfalso; apply filter_no_hash in F; apply F;
    rewrite <- Hhash; apply in_map; exact Hin.
Qed.

(** An upload that passes validation, on a store where exactly one row has
    its hash, returns that row. *)
Lemma duplicate_returns_the_row (w : World) (new_id : UUID) (file : UploadFile)
  (report_type : string) (company_id : option string)
  (fault : option (upload_step * exn)) (existing : AuditReport) :
  _validate_file file = Return true ->
  with_hash w (sha256_hexdigest (body file)) = [existing] ->
  process_upload sha256_hexdigest upload_path _extract_title
    w new_id file report_type company_id fault = (Return existing, w).
Proof.
  intros V F. unfold process_upload, _check_duplicate.
  fold (with_hash w (sha256_hexdigest (body file))).
  rewrite V, F. reflexivity.
Qed.

(** An upload that does not pass validation raises, whatever is stored. *)
Lemma refused_upload_raises (w : World) (new_id : UUID) (file : UploadFile)
  (report_type : string) (company_id : option string)
  (fault : option (upload_step * exn)) :
  _validate_file file <> Return true ->
  exists msg,
    process_upload sha256_hexdigest upload_path _extract_title
      w new_id file report_type company_id fault
    = (Raise (DataIngestionException
                (String.append "Failed to process upload: " msg)), w).
Proof.
  intro V. unfold process_upload, process_upload_failed.
  destruct (_validate_file file) as [ [ | ] | e ]; [ congruence | | ];
    eexists; reflexivity.
Qed.

End Upload.

End Uploads.

(** Uploads to run [process_upload] on. The digest of the examples is a
    stand-in that spells the bytes out; the theorems hold for every
    digest. *)
Module UploadExample.

Import Strings.Byte.

Definition digest (content : list byte) : string := string_of_list_byte content.

Definition path (name : string) : string := String.append "uploads/" name.

Definition title (name : string) : string := name.

Definition pdf_bytes : list byte := [x25; x50; x44; x46; x2d; x31; x2e; x37].

Definition first_file : AuditService.UploadFile :=
  AuditService.mkUploadFile "q3_audit.pdf" "application/pdf" (Some 8%Z) pdf_bytes.

Definition second_file : AuditService.UploadFile :=
  AuditService.mkUploadFile "q3_audit_copy.pdf" "application/pdf" (Some 8%Z) pdf_bytes.

(** The same bytes, declared with a type that is not allowed, and with no
    size. *)
Definition untyped_file : AuditService.UploadFile :=
  AuditService.mkUploadFile "q3_audit.bin" "application/octet-stream" (Some 8%Z)
    pdf_bytes.

Definition unsized_file : AuditService.UploadFile :=
  AuditService.mkUploadFile "q3_audit_copy.pdf" "application/pdf" None pdf_bytes.

Definition empty : AuditService.World := AuditService.mkWorld [] [] [].

Definition stored : AuditService.AuditReport :=
  AuditService.mkAuditReport 1 (Some "acme"%string) "q3_audit.pdf" "internal"
    "uploads/q3_audit.pdf" "q3_audit.pdf" 8 (digest pdf_bytes) "pending".

(** The world after the first file was uploaded. *)
Definition after_first : AuditService.World :=
  AuditService.mkWorld [stored] [("uploads/q3_audit.pdf"%string, pdf_bytes)] [1].

Definition upload (w : AuditService.World) (new_id : UUID)
  (file : AuditService.UploadFile) (report_type : string)
  (fault : option (AuditService.upload_step * exn))
  : result AuditService.AuditReport * AuditService.World :=
  AuditService.process_upload digest path title w new_id file report_type
    (Some "acme"%string) fault.

End UploadExample.







(* ===================================================================== *)
(** * [src/services/audit_service.py]: queries and status updates *)
(* ===================================================================== *)

Module AuditReports.

Import AuditService.

(** [column == value] in SQL: a column that is NULL equals nothing. *)
Definition column_equals (column : AuditReport -> option string) (v : string)
  (r : AuditReport) : bool :=
  match column r with
  | Some c => String.eqb c v
  | None => false
  end.

(** [query.where(column == value)], added only [if value:]. *)
Definition where_truthy (column : AuditReport -> option string)
  (value : option string) (query : list AuditReport) : list AuditReport :=
  match value with
  | Some v => if PyStr.truthy v then filter (column_equals column v) query else query
  | None => query
  end.

Section Listing.

(** The statement of [get_reports] has no [ORDER BY]: the database returns
    the rows that match in an order of its own, and [scan] is that order
    for this execution. *)
Variable scan : list AuditReport -> list AuditReport.

(** [AuditService.get_reports]; [limit] and [offset] are not negative. *)
Definition get_reports (w : World) (company_id report_type : option string)
  (limit offset : nat) : list AuditReport :=
  let query := db w in
  let query := where_truthy AuditService.company_id company_id query in
  let query :=
    where_truthy (fun r => Some (AuditService.report_type r)) report_type query in
  firstn limit (skipn offset (scan query)).

End Listing.

(** [scalar_one_or_none] of the rows with this key. *)
Definition scalar_one_or_none (rows : list AuditReport) : result (option AuditReport) :=
  match rows with
  | [] => Return None
  | [report] => Return (Some report)
  | _ => Raise MultipleResultsFound
  end.

(** [AuditService.get_report_by_id]. *)
Definition get_report_by_id (w : World) (report_id : UUID)
  : result (option AuditReport) :=
  scalar_one_or_none (filter (fun r => id r =? report_id) (db w)).

(** [report.extraction_status = status]. *)
Definition set_extraction_status (status : string) (r : AuditReport) : AuditReport :=
  mkAuditReport (id r) (AuditService.company_id r) (title r)
    (AuditService.report_type r) (file_path r) (file_name r) (file_size r)
    (content_hash r) status.

(** [AuditService._update_status]. *)
Definition _update_status (w : World) (report_id : UUID) (status : string)
  : result unit * World :=
  match get_report_by_id w report_id with
  | Raise e => (Raise e, w)
  | Return None => (Return tt, w)
  | Return (Some _) =>
      (Return tt,
       mkWorld
         (map (fun r => if id r =? report_id then set_extraction_status status r else r)
              (db w))
         (upload_dir w) (tasks w))
  end.

End AuditReports.

(* ===================================================================== *)
(** * [src/api/routes/audit_routes.py] *)
(* ===================================================================== *)

Module AuditRoutes.

Import AuditService.

(** What a route gives back: the response model, or an [HTTPException]. *)
Inductive response (A : Type) : Type :=
| Ok (a : A)
| HTTPException (status_code : nat) (detail : string).

Arguments Ok {A} a.
Arguments HTTPException {A} status_code detail.

Section Routes.

Variable sha256_hexdigest : list Byte.byte -> string.
Variable upload_path : string -> string.
Variable _extract_title : string -> string.

(** [upload_audit_report]; [company_id] is [None] unless the request names
    one. *)
Definition upload_audit_report (w : World) (new_id : UUID) (file : UploadFile)
  (report_type : string) (company_id : option string)
  (fault : option (upload_step * exn)) : response AuditReport * World :=
  match process_upload sha256_hexdigest upload_path _extract_title
          w new_id file report_type company_id fault with
  | (Return result, w) => (Ok result, w)
  | (Raise e, w) => (HTTPException 500 (exn_str e), w)
  end.

End Routes.

End AuditRoutes.

(* ===================================================================== *)
(** * Properties of the report queries *)
(* ===================================================================== *)

Module Queries.

Import AuditService AuditReports.

Lemma firstn_then_firstn {A : Type} (a b : nat) (l : list A) :
  firstn a l ++ firstn b (skipn a l) = firstn (a + b) l.
Proof.
  revert l. induction a as [ | a IH ]; intro l; simpl; [ reflexivity | ].
  destruct l as [ | x l ]; simpl.
  - rewrite firstn_nil. reflexivity.
  - rewrite IH. reflexivity.
Qed.

Lemma in_firstn {A : Type} (n : nat) (l : list A) (x : A) :
  In x (firstn n l) -> In x l.
Proof.
  intro H. rewrite <- (firstn_skipn n l). apply in_or_app. left. exact H.
Qed.

Lemma in_skipn {A : Type} (n : nat) (l : list A) (x : A) :
  In x (skipn n l) -> In x l.
Proof.
  intro H. rewrite <- (firstn_skipn n l). apply in_or_app. right. exact H.
Qed.

Lemma where_truthy_incl (column : AuditReport -> option string)
  (value : option string) (query : list AuditReport) (r : AuditReport) :
  In r (where_truthy column value query) ->
  In r query
  /\ (forall v, value = Some v -> v <> EmptyString -> column r = Some v).
Proof.
  unfold where_truthy. destruct value as [ v | ].
  - destruct v as [ | c v ]; simpl.
    + intro H. split; [ exact H | ]. intros v' E N. injection E as <-. congruence.
    + intro H. apply filter_In in H. destruct H as [ H E ].
      split; [ exact H | ]. intros v' E' _. injection E' as <-.
      unfold column_equals in E. destruct (column r) as [ x | ]; [ | discriminate ].
      apply String.eqb_eq in E. rewrite E. reflexivity.
  - intro H. split; [ exact H | ]. intros v E. discriminate.
Qed.

(** With one row per key, the rows of a stored key are that one row. *)
Lemma filter_unique_id (l : list AuditReport) (r : AuditReport) :
  NoDup (map id l) -> In r l -> filter (fun x => id x =? id r) l = [r].
Proof.
  induction l as [ | x l IH ]; intros Hnd Hin; [ contradiction | ].
  simpl in Hnd. inversion Hnd as [ | ? ? Hx Hl ]; subst. simpl.
  destruct Hin as [ -> | Hin ].
  - rewrite Nat.eqb_refl. f_equal.
    clear IH Hnd.
    induction l as [ | y l IHl ]; simpl; [ reflexivity | ].
    destruct (id y =? id r) eqn:E.
    + apply Nat.eqb_eq in E. exfalso. apply Hx. left. exact E.
    + apply IHl.
      * intro H. apply Hx. right. exact H.
      * inversion Hl; assumption.
  - destruct (id x =? id r) eqn:E.
    + apply Nat.eqb_eq in E. exfalso. apply Hx. rewrite E.
      apply in_map. exact Hin.
    + apply IH; assumption.
Qed.

Lemma filter_absent_id (l : list AuditReport) (i : UUID) :
  ~ In i (map id l) -> filter (fun x => id x =? i) l = [].
Proof.
  induction l as [ | x l IH ]; simpl; [ reflexivity | ].
  intro H. destruct (id x =? i) eqn:E.
  - apply Nat.eqb_eq in E. exfalso. apply H. left. exact E.
  - apply IH. intro Hin. apply H. right. exact Hin.
Qed.

(** A status update maps the rows of a key to their updated versions. *)
Lemma filter_id_updated (i j : UUID) (status : string) (l : list AuditReport) :
  filter (fun x => id x =? j)
    (map (fun r => if id r =? i then set_extraction_status status r else r) l)
  = map (fun r => if id r =? i then set_extraction_status status r else r)
      (filter (fun x => id x =? j) l).
Proof.
  induction l as [ | x l IH ]; simpl; [ reflexivity | ].
  assert (E : id (if id x =? i then set_extraction_status status x else x) = id x)
    by (destruct (id x =? i); reflexivity).
  rewrite E. destruct (id x =? j); simpl; rewrite IH; reflexivity.
Qed.

Lemma map_other_id (i j : UUID) (status : string) (l : list AuditReport) :
  j <> i ->
  map (fun r => if id r =? i then set_extraction_status status r else r)
    (filter (fun x => id x =? j) l)
  = filter (fun x => id x =? j) l.
Proof.
  intro N. induction l as [ | x l IH ]; simpl; [ reflexivity | ].
  destruct (id x =? j) eqn:E; simpl; [ | exact IH ].
  apply Nat.eqb_eq in E.
  destruct (id x =? i) eqn:E'.
  - apply Nat.eqb_eq in E'. congruence.
  - rewrite IH. reflexivity.
Qed.

Lemma updated_hashes (i : UUID) (status : string) (l : list AuditReport) :
  map content_hash
    (map (fun r => if id r =? i then set_extraction_status status r else r) l)
  = map content_hash l.
Proof.
  rewrite map_map. apply map_ext. intro r. destruct (id r =? i); reflexivity.
Qed.

Lemma updated_ids (i : UUID) (status : string) (l : list AuditReport) :
  map id
    (map (fun r => if id r =? i then set_extraction_status status r else r) l)
  = map id l.
Proof.
  rewrite map_map. apply map_ext. intro r. destruct (id r =? i); reflexivity.
Qed.

(** What [_update_status] leaves behind: the same world, or the world with
    the rows of the key updated. *)
Lemma update_status_world (w : World) (report_id : UUID) (status : string) :
  snd (_update_status w report_id status) = w
  \/ (exists report,
        filter (fun r => id r =? report_id) (db w) = [report]
        /\ snd (_update_status w report_id status)
           = mkWorld
               (map (fun r => if id r =? report_id
                              then set_extraction_status status r else r) (db w))
               (upload_dir w) (tasks w)).
Proof.
  unfold _update_status, get_report_by_id, scalar_one_or_none.
  destruct (filter (fun r => id r =? report_id) (db w)) as [ | r [ | r' l ] ] eqn:F;
    simpl; [ left; reflexivity | | left; reflexivity ].
  right. exists r. split; reflexivity.
Qed.

Lemma update_status_keeps_keys (w : World) (report_id : UUID) (status : string) :
  map id (db (snd (_update_status w report_id status))) = map id (db w)
  /\ map content_hash (db (snd (_update_status w report_id status)))
     = map content_hash (db w).
Proof.
  destruct (update_status_world w report_id status) as [ E | [ report [ F E ] ] ];
    rewrite E; [ split; reflexivity | ].
  simpl. split; [ apply updated_ids | apply updated_hashes ].
Qed.

End Queries.

(** A page of [get_reports] has at most [limit] rows, whatever the order
    in which the database returns the rows that match; each row of the
    page is a stored row that matches every filter given; a filter given
    as the empty text filters nothing; and a first page that is long
    enough holds every row that matches. *)
Theorem get_reports_page_is_sound
  (scan : list AuditService.AuditReport -> list AuditService.AuditReport)
  (w : AuditService.World)
  (company_id report_type : option string) (limit offset : nat) :
  (forall rows, Permutation (scan rows) rows) ->
  List.length (AuditReports.get_reports scan w company_id report_type limit offset)
  <= limit
  /\ Forall
       (fun r =>
          In r (AuditService.db w)
          /\ (forall v, company_id = Some v -> v <> EmptyString ->
              AuditService.company_id r = Some v)
          /\ (forall v, report_type = Some v -> v <> EmptyString ->
              AuditService.report_type r = v))
       (AuditReports.get_reports scan w company_id report_type limit offset)
  /\ AuditReports.get_reports scan w (Some EmptyString) report_type limit offset
     = AuditReports.get_reports scan w None report_type limit offset
  /\ AuditReports.get_reports scan w company_id (Some EmptyString) limit offset
     = AuditReports.get_reports scan w company_id None limit offset
  /\ (List.length (AuditService.db w) <= limit ->
      Permutation (AuditReports.get_reports scan w None None limit 0)
        (AuditService.db w)).
Proof.
  intro Hscan.
  split; [ apply firstn_le_length | ].
  split; [ | split; [ reflexivity | split; [ reflexivity | ] ] ].
  - apply Forall_forall. intros r Hin.
    unfold AuditReports.get_reports in Hin.
    apply Queries.in_firstn, Queries.in_skipn in Hin.
    apply (Permutation_in r (Hscan _)) in Hin.
    apply Queries.where_truthy_incl in Hin. destruct Hin as [ Hin Ht ].
    apply Queries.where_truthy_incl in Hin. destruct Hin as [ Hin Hc ].
    split; [ exact Hin | ]. split; [ exact Hc | ].
    intros v E N. specialize (Ht v E N). injection Ht as Ht. exact Ht.
  - intro Hlen. unfold AuditReports.get_reports. simpl.
    rewrite firstn_all2; [ apply Hscan | ].
    rewrite (Permutation_length (Hscan (AuditService.db w))). exact Hlen.
Qed.

(** A database that returns the rows from the last one to the first. *)
Lemma get_reports_page_is_sound_witness :
  let page :=
    AuditReports.get_reports (@rev AuditService.AuditReport) UploadExample.after_first
      (Some "acme"%string) None 50 0 in
  List.length page <= 50
  /\ Forall (fun r => AuditService.company_id r = Some "acme"%string) page
  /\ page = [UploadExample.stored].
Proof.
  destruct (@get_reports_page_is_sound (@rev AuditService.AuditReport)
              UploadExample.after_first (Some "acme"%string) None 50 0
              (fun rows => Permutation_sym (Permutation_rev rows)))
    as (Hlen & Hall & _).
  split; [ exact Hlen | ]. split; [ | reflexivity ].
  apply Forall_forall. intros r Hin.
  rewrite Forall_forall in Hall. destruct (Hall r Hin) as (_ & Hc & _).
  apply Hc; [ reflexivity | discriminate ].
Defined.

(** The row an upload returns is the one [get_report_by_id] finds under its
    key, on the first upload and on a repeated one; keys stay unique and
    the lookups of the other keys do not change. *)
Theorem uploaded_report_is_found
  (sha256_hexdigest : list Byte.byte -> string)
  (upload_path _extract_title : string -> string)
  (w w1 : AuditService.World) (new_id : UUID) (file : AuditService.UploadFile)
  (report_type : string) (company_id : option string)
  (fault : option (AuditService.upload_step * exn)) (r : AuditService.AuditReport) :
  NoDup (map AuditService.id (AuditService.db w)) ->
  ~ In new_id (map AuditService.id (AuditService.db w)) ->
  AuditService.process_upload sha256_hexdigest upload_path _extract_title
    w new_id file report_type company_id fault = (Return r, w1) ->
  AuditReports.get_report_by_id w1 (AuditService.id r) = Return (Some r)
  /\ NoDup (map AuditService.id (AuditService.db w1))
  /\ (forall j, j <> new_id ->
      AuditReports.get_report_by_id w1 j = AuditReports.get_report_by_id w j).
Proof.
  intros Hnd Hfresh Hrun.
  pose proof (Uploads.process_upload_outcome sha256_hexdigest upload_path
                _extract_title w new_id file report_type company_id fault) as O.
  rewrite Hrun in O.
  inversion O as [ | | existing V F E1 | V F N r' E1 | ]; subst.
  - (* a repeated upload *)
    assert (Hin : In r (AuditService.db w1)).
    { assert (H : In r (AuditService.with_hash w1
                          (sha256_hexdigest (AuditService.body file))))
        by (rewrite F; left; reflexivity).
      apply filter_In in H. tauto. }
    split; [ | split; [ exact Hnd | reflexivity ] ].
    unfold AuditReports.get_report_by_id.
    rewrite Queries.filter_unique_id by assumption. reflexivity.
  - (* a first upload *)
    simpl. split; [ | split ].
    + unfold AuditReports.get_report_by_id. simpl.
      rewrite filter_app, Queries.filter_absent_id by exact Hfresh.
      simpl. rewrite Nat.eqb_refl. reflexivity.
    + rewrite map_app. simpl. apply Uploads.NoDup_snoc; assumption.
    + intros j N. unfold AuditReports.get_report_by_id. simpl.
      rewrite filter_app. simpl.
      destruct (new_id =? j) eqn:E.
      * apply Nat.eqb_eq in E. congruence.
      * rewrite app_nil_r. reflexivity.
Qed.

Lemma uploaded_report_is_found_witness :
  AuditReports.get_report_by_id UploadExample.after_first 1
  = Return (Some UploadExample.stored)
  /\ NoDup (map AuditService.id (AuditService.db UploadExample.after_first))
  /\ (forall j, j <> 1 ->
      AuditReports.get_report_by_id UploadExample.after_first j
      = AuditReports.get_report_by_id UploadExample.empty j).
Proof.
  apply (@uploaded_report_is_found UploadExample.digest UploadExample.path
           UploadExample.title UploadExample.empty UploadExample.after_first 1
           UploadExample.first_file "internal" (Some "acme"%string) None
           UploadExample.stored).
  - constructor.
  - intros [].
  - reflexivity.
Defined.

(** [_update_status] touches nothing but the status of the row with the
    key: files, tasks, keys and content hashes stay, the other lookups give
    what they gave, and the lookup of the key gives the row with the new
    status. A key that is not stored changes nothing. *)
Theorem update_status_changes_only_the_status (w : AuditService.World)
  (report_id : UUID) (status : string) :
  let w' := snd (AuditReports._update_status w report_id status) in
  AuditService.upload_dir w' = AuditService.upload_dir w
  /\ AuditService.tasks w' = AuditService.tasks w
  /\ map AuditService.id (AuditService.db w') = map AuditService.id (AuditService.db w)
  /\ map AuditService.content_hash (AuditService.db w')
     = map AuditService.content_hash (AuditService.db w)
  /\ (forall j, j <> report_id ->
      AuditReports.get_report_by_id w' j = AuditReports.get_report_by_id w j)
  /\ AuditReports.get_report_by_id w' report_id
     = match AuditReports.get_report_by_id w report_id with
       | Return (Some r) =>
           Return (Some (AuditReports.set_extraction_status status r))
       | other => other
       end
  /\ (AuditReports.get_report_by_id w report_id = Return None -> w' = w).
Proof.
  cbv zeta.
  destruct (Queries.update_status_world w report_id status)
    as [ E | [ report [ F E ] ] ]; rewrite E.
  - repeat split; try reflexivity.
    + revert E. unfold AuditReports._update_status.
      destruct (AuditReports.get_report_by_id w report_id) as [ [ r | ] | e ] eqn:G;
        simpl; try reflexivity.
      intro E.
      unfold AuditReports.get_report_by_id, AuditReports.scalar_one_or_none in G.
      destruct (filter (fun r0 => AuditService.id r0 =? report_id) (AuditService.db w))
        as [ | x [ | y l ] ] eqn:F; try discriminate.
      injection G as ->.
      assert (Hin : In r (filter (fun r0 => AuditService.id r0 =? report_id)
                            (AuditService.db w))) by (rewrite F; left; reflexivity).
      apply filter_In in Hin. destruct Hin as [ Hin Hid ].
      assert (H : In (AuditReports.set_extraction_status status r)
                    (AuditService.db w)).
      { rewrite <- E at 1. simpl. apply in_map_iff. exists r.
        rewrite Hid. split; [ reflexivity | exact Hin ]. }
      assert (Hf : In (AuditReports.set_extraction_status status r)
                     (filter (fun r0 => AuditService.id r0 =? report_id)
                        (AuditService.db w))).
      { apply filter_In. split; [ exact H | exact Hid ]. }
      rewrite F in Hf. destruct Hf as [ Hf | [] ]. rewrite <- Hf. reflexivity.
  - simpl. split; [ reflexivity | ]. split; [ reflexivity | ].
    split; [ apply Queries.updated_ids | ].
    split; [ apply Queries.updated_hashes | ].
    split; [ | split ].
    + intros j N. unfold AuditReports.get_report_by_id. simpl.
      rewrite Queries.filter_id_updated, Queries.map_other_id by exact N.
      reflexivity.
    + unfold AuditReports.get_report_by_id. simpl.
      rewrite Queries.filter_id_updated, F. simpl.
      assert (Hid : In report (filter (fun r => AuditService.id r =? report_id)
                                 (AuditService.db w))) by (rewrite F; left; reflexivity).
      apply filter_In in Hid. destruct Hid as [ _ Hid ]. rewrite Hid. reflexivity.
    + unfold AuditReports.get_report_by_id. rewrite F. discriminate.
Qed.



Lemma startswith_append (p m : string) :
  PyStr.startswith (String.append p m) p = true.
Proof.
  induction p as [ | c p IH ]; simpl.
  - destruct m; reflexivity.
  - rewrite Ascii.eqb_refl. exact IH.
Qed.



(* ===================================================================== *)
(** * [src/services/ai_service.py]: text cleaning and embeddings *)
(* ===================================================================== *)

Module PyWords.

(** [s.split()] without a separator: the maximal runs of characters that
    are not white space, in order. A character that is not white space
    starts a word of its own when white space or the end follows, and
    otherwise joins the word that the next character starts. *)
Fixpoint split (s : string) : list string :=
  match s with
  | EmptyString => []
  | String c r =>
      if PyStr.isspace c then split r
      else
        match r with
        | EmptyString => [String c EmptyString]
        | String d _ =>
            if PyStr.isspace d then String c EmptyString :: split r
            else
              match split r with
              | word :: words => String c word :: words
              | [] => [String c EmptyString]
              end
        end
  end.

(** [s.replace(c, '')] for a one-character [c]. *)
Fixpoint remove (c : ascii) (s : string) : string :=
  match s with
  | EmptyString => EmptyString
  | String a r => if Ascii.eqb a c then remove c r else String a (remove c r)
  end.

(** [c in s]. *)
Fixpoint has (c : ascii) (s : string) : bool :=
  match s with
  | EmptyString => false
  | String a r => Ascii.eqb a c || has c r
  end.

Definition NUL : ascii := ascii_of_nat 0.
Definition space : string := " ".

End PyWords.

Module AIService.

Set Warnings "-abstract-large-number".

(** The length [_clean_text] cuts at. *)
Definition clean_limit : nat := 8000.

(** [AIService._clean_text]. *)
Definition _clean_text (text : string) : string :=
  let text := PyStr.join PyWords.space (PyWords.split text) in
  let text := PyWords.remove PyWords.NUL text in
  if clean_limit <? String.length text
  then String.append (PyStr.take clean_limit text) "..."
  else text.

(** The size of a batch in [batch_process_embeddings]. *)
Definition batch_size : nat := 10.

Section Embeddings.

(** [self.embedding_model.encode(x).tolist()] on one text and on a list of
    texts; the model may fail. *)
Variable encode : string -> result (list Np.float64).
Variable encode_batch : list string -> result (list (list Np.float64)).

(** [AIService.generate_embeddings]. *)
Definition generate_embeddings (text : string) : result (list Np.float64) :=
  let cleaned_text := _clean_text text in
  match encode cleaned_text with
  | Return embeddings => Return embeddings
  | Raise e =>
      Raise (ValueError (String.append "Failed to generate embeddings: " (exn_str e)))
  end.

(** The loop [for i in range(0, len(texts), batch_size)] of
    [batch_process_embeddings]: [texts] is what lies from index [i] on;
    [None] is an exception of the model. *)
Equations? batch_loop (texts : list string) (embeddings : list (list Np.float64))
  : result (list (list Np.float64)) by wf (List.length texts) lt :=
  batch_loop [] embeddings := Return embeddings;
  batch_loop (t :: r) embeddings :=
    let batch := firstn batch_size (t :: r) in
    let cleaned_batch := map _clean_text batch in
    match encode_batch cleaned_batch with
    | Return batch_embeddings =>
        batch_loop (skipn batch_size (t :: r)) (embeddings ++ batch_embeddings)
    | Raise e => Raise e
    end.
Proof.
  pose proof (length_skipn batch_size (t :: r)) as H.
  unfold batch_size in *. simpl List.length in H. lia.
Qed.

(** [AIService.batch_process_embeddings]. *)
Definition batch_process_embeddings (texts : list string) : result (list (list Np.float64)) :=
  match batch_loop texts [] with
  | Return embeddings => Return embeddings
  | Raise e =>
      Raise (ValueError
               (String.append "Failed to process batch embeddings: " (exn_str e)))
  end.

End Embeddings.

End AIService.

(* ===================================================================== *)
(** * Properties of the text cleaning *)
(* ===================================================================== *)

Module CleanText.

Import PyWords AIService.

(** ** Strings *)

Lemma length_append (a b : string) :
  String.length (String.append a b) = String.length a + String.length b.
Proof. induction a as [ | c a IH ]; simpl; [ reflexivity | rewrite IH; reflexivity ]. Qed.

Lemma length_take (n : nat) (s : string) :
  String.length (PyStr.take n s) = Nat.min n (String.length s).
Proof.
  revert s. induction n as [ | n IH ]; intro s; [ reflexivity | ].
  destruct s as [ | c s ]; simpl; [ reflexivity | rewrite IH; reflexivity ].
Qed.

Lemma take_all (n : nat) (s : string) :
  String.length s <= n -> PyStr.take n s = s.
Proof.
  revert s. induction n as [ | n IH ]; intros [ | c s ] H; simpl in *;
    try reflexivity; [ lia | ].
  rewrite IH by lia. reflexivity.
Qed.

Lemma take_append (n : nat) (a b : string) :
  String.length a = n -> PyStr.take n (String.append a b) = a.
Proof.
  revert a. induction n as [ | n IH ]; intros [ | c a ] H; simpl in *;
    try discriminate.
  - destruct b; reflexivity.
  - rewrite IH by lia. reflexivity.
Qed.

(** Every character of [s] passes the test [p]. *)
Fixpoint all_chars (p : ascii -> bool) (s : string) : bool :=
  match s with
  | EmptyString => true
  | String c r => p c && all_chars p r
  end.

Lemma all_chars_append (p : ascii -> bool) (a b : string) :
  all_chars p (String.append a b) = all_chars p a && all_chars p b.
Proof.
  induction a as [ | c a IH ]; simpl; [ reflexivity | ].
  rewrite IH, andb_assoc. reflexivity.
Qed.

Lemma all_chars_take (p : ascii -> bool) (n : nat) (s : string) :
  all_chars p s = true -> all_chars p (PyStr.take n s) = true.
Proof.
  revert s. induction n as [ | n IH ]; intros [ | c s ] H; simpl in *;
    try reflexivity.
  apply andb_true_iff in H. destruct H as [ Hc Hs ].
  rewrite Hc, IH by exact Hs. reflexivity.
Qed.

Lemma all_chars_remove (p : ascii -> bool) (c : ascii) (s : string) :
  all_chars p s = true -> all_chars p (remove c s) = true.
Proof.
  induction s as [ | a s IH ]; simpl; [ reflexivity | ].
  intro H. apply andb_true_iff in H. destruct H as [ Ha Hs ].
  destruct (Ascii.eqb a c); simpl; [ | rewrite Ha ]; apply IH; exact Hs.
Qed.

Lemma has_all_chars (c : ascii) (s : string) :
  has c s = negb (all_chars (fun a => negb (Ascii.eqb a c)) s).
Proof.
  induction s as [ | a s IH ]; simpl; [ reflexivity | ].
  rewrite IH. destruct (Ascii.eqb a c); reflexivity.
Qed.

Lemma has_remove (c : ascii) (s : string) : has c (remove c s) = false.
Proof.
  induction s as [ | a s IH ]; simpl; [ reflexivity | ].
  destruct (Ascii.eqb a c) eqn:E; simpl; [ exact IH | ].
  rewrite E. exact IH.
Qed.

Lemma remove_absent (c : ascii) (s : string) : has c s = false -> remove c s = s.
Proof.
  induction s as [ | a s IH ]; simpl; [ reflexivity | ].
  destruct (Ascii.eqb a c); simpl; [ discriminate | ].
  intro H. rewrite IH by exact H. reflexivity.
Qed.

(** ** Words *)

(** A word of [split]: not empty and without white space. *)
Definition word (w : string) : bool :=
  PyStr.truthy w && all_chars (fun c => negb (PyStr.isspace c)) w.

Lemma split_step (c : ascii) (r : string) :
  PyStr.isspace c = false ->
  split (String c r)
  = match r with
    | EmptyString => [String c EmptyString]
    | String d _ =>
        if PyStr.isspace d then String c EmptyString :: split r
        else match split r with
             | w :: ws => String c w :: ws
             | [] => [String c EmptyString]
             end
    end.
Proof. intro H. simpl. rewrite H. reflexivity. Qed.

Lemma split_space (c : ascii) (r : string) :
  PyStr.isspace c = true -> split (String c r) = split r.
Proof. intro H. simpl. rewrite H. reflexivity. Qed.

Lemma split_words (s : string) : forallb word (split s) = true.
Proof.
  induction s as [ | c r IH ]; [ reflexivity | ].
  destruct (PyStr.isspace c) eqn:E.
  - rewrite split_space by exact E. exact IH.
  - rewrite split_step by exact E.
    destruct r as [ | d r' ]; [ simpl; unfold word; simpl; rewrite E; reflexivity | ].
    destruct (PyStr.isspace d) eqn:Ed.
    + cbn [forallb]. rewrite IH. unfold word. simpl. rewrite E. reflexivity.
    + destruct (split (String d r')) as [ | w ws ].
      * simpl. unfold word. simpl. rewrite E. reflexivity.
      * cbn [forallb] in *. apply andb_true_iff in IH. destruct IH as [ Hw Hws ].
        rewrite Hws. unfold word in *. simpl. rewrite E. simpl.
        apply andb_true_iff in Hw. destruct Hw as [ _ Hw ]. rewrite Hw. reflexivity.
Qed.

(** [len(s.split())] is the word count used by the compliance scores. *)
Lemma split_length_from (s : string) :
  PyStr.count_words_from s false = List.length (split s)
  /\ (match s with
      | String c _ =>
          PyStr.isspace c = false ->
          S (PyStr.count_words_from s true) = List.length (split s)
      | EmptyString => True
      end).
Proof.
  induction s as [ | c r [ IH1 IH2 ] ]; [ split; [ reflexivity | exact I ] | ].
  destruct (PyStr.isspace c) eqn:E.
  - split; [ | discriminate ].
    rewrite split_space by exact E. simpl. rewrite E. exact IH1.
  - assert (H : S (PyStr.count_words_from (String c r) true)
                = List.length (split (String c r))).
    { rewrite split_step by exact E. simpl. rewrite E.
      destruct r as [ | d r' ]; [ reflexivity | ].
      destruct (PyStr.isspace d) eqn:Ed.
      + cbn [List.length]. f_equal. rewrite <- IH1. simpl. rewrite Ed. reflexivity.
      + specialize (IH2 eq_refl).
        destruct (split (String d r')) as [ | w ws ]; [ discriminate | ].
        simpl in *. exact IH2. }
    split; [ | intros _; exact H ].
    simpl. rewrite E. simpl in H. rewrite E in H. exact H.
Qed.

Lemma split_length (s : string) : List.length (split s) = PyStr.word_count s.
Proof. symmetry. apply split_length_from. Qed.

(** ** Tidy texts *)

(** No white space but single spaces between words: [after_space] tells
    that the text so far is empty or ends with a space. *)
Fixpoint tidy_from (after_space : bool) (s : string) : bool :=
  match s with
  | EmptyString => negb after_space
  | String c r =>
      if PyStr.isspace c
      then Ascii.eqb c " " && negb after_space && tidy_from true r
      else tidy_from false r
  end.

Definition tidy (s : string) : bool :=
  match s with
  | EmptyString => true
  | _ => tidy_from true s
  end.

Lemma tidy_of_from (s : string) : tidy_from true s = true -> tidy s = true.
Proof. destruct s; [ reflexivity | exact (fun H => H) ]. Qed.

Lemma join_cons_char (sep : string) (c : ascii) (w : string) (ws : list string) :
  PyStr.join sep (String c w :: ws) = String c (PyStr.join sep (w :: ws)).
Proof. destruct ws; reflexivity. Qed.

Lemma join_cons (sep w : string) (ws : list string) :
  ws <> [] ->
  PyStr.join sep (w :: ws) = String.append w (String.append sep (PyStr.join sep ws)).
Proof. destruct ws; [ congruence | reflexivity ]. Qed.

Lemma join_split_word (n : nat) :
  forall (s : string) (c : ascii),
    String.length s <= n ->
    PyStr.isspace c = false ->
    tidy_from false s = true ->
    PyStr.join space (split (String c s)) = String c s
    /\ split (String c s) <> [].
Proof.
  induction n as [ | n IH ]; intros s c Hlen Hc Ht.
  - destruct s; [ | simpl in Hlen; lia ].
    rewrite split_step by exact Hc. split; [ reflexivity | discriminate ].
  - rewrite split_step by exact Hc.
    destruct s as [ | d r ]; [ split; [ reflexivity | discriminate ] | ].
    simpl in Hlen.
    destruct (PyStr.isspace d) eqn:Ed.
    + simpl in Ht. rewrite Ed in Ht. simpl in Ht.
      apply andb_true_iff in Ht. destruct Ht as [ Hd Ht ].
      rewrite andb_true_r in Hd. apply Ascii.eqb_eq in Hd. subst d.
      destruct r as [ | e r' ]; [ discriminate | ].
      destruct (PyStr.isspace e) eqn:Ee.
      * simpl in Ht. rewrite Ee in Ht. simpl in Ht.
        rewrite andb_false_r in Ht. discriminate.
      * simpl in Ht. rewrite Ee in Ht.
        destruct (IH r' e) as [ Hj Hne ]; [ simpl in Hlen; lia | exact Ee | exact Ht | ].
        split; [ | discriminate ].
        rewrite (@split_space " " (String e r') eq_refl).
        rewrite join_cons by exact Hne. rewrite Hj. reflexivity.
    + simpl in Ht. rewrite Ed in Ht.
      destruct (IH r d) as [ Hj Hne ]; [ lia | exact Ed | exact Ht | ].
      destruct (split (String d r)) as [ | w ws ]; [ congruence | ].
      split; [ | discriminate ].
      rewrite join_cons_char, Hj. reflexivity.
Qed.

(** Joining the words of a tidy text gives the text back. *)
Lemma join_split_tidy (s : string) :
  tidy s = true -> PyStr.join space (split s) = s.
Proof.
  destruct s as [ | c r ]; [ reflexivity | ].
  simpl. destruct (PyStr.isspace c) eqn:E.
  - rewrite andb_false_r. discriminate.
  - intro H.
    pose proof (@join_split_word (String.length r) r c (le_n _) E H) as [ Hj _ ].
    simpl in Hj. rewrite E in Hj. exact Hj.
Qed.

Lemma tidy_from_word (b : bool) (w rest : string) :
  all_chars (fun c => negb (PyStr.isspace c)) w = true ->
  tidy_from b (String.append w rest)
  = match w with
    | EmptyString => tidy_from b rest
    | _ => tidy_from false rest
    end.
Proof.
  revert b. induction w as [ | c w IH ]; intros b H; [ reflexivity | ].
  simpl in H. apply andb_true_iff in H. destruct H as [ Hc Hw ].
  apply negb_true_iff in Hc. simpl. rewrite Hc.
  rewrite IH by exact Hw. destruct w; reflexivity.
Qed.

Lemma append_empty_r (s : string) : String.append s EmptyString = s.
Proof. induction s as [ | c s IH ]; simpl; [ reflexivity | rewrite IH; reflexivity ]. Qed.

Lemma join_words_tidy (ws : list string) :
  forallb word ws = true ->
  ws <> [] ->
  tidy_from true (PyStr.join space ws) = true.
Proof.
  induction ws as [ | w ws IH ]; intros Hw Hne; [ congruence | ].
  cbn [forallb] in Hw. apply andb_true_iff in Hw. destruct Hw as [ Hw Hws ].
  unfold word in Hw. apply andb_true_iff in Hw. destruct Hw as [ Hw1 Hw2 ].
  destruct ws as [ | w2 ws ].
  - simpl. rewrite <- (append_empty_r w), tidy_from_word by exact Hw2.
    destruct w; [ discriminate | reflexivity ].
  - rewrite join_cons by discriminate.
    rewrite tidy_from_word by exact Hw2.
    destruct w; [ discriminate | ].
    change (tidy_from true (PyStr.join space (w2 :: ws)) = true).
    apply IH; [ exact Hws | discriminate ].
Qed.

(** The joined words of any text are tidy. *)
Lemma tidy_join_split (t : string) : tidy (PyStr.join space (split t)) = true.
Proof.
  destruct (split t) as [ | w ws ] eqn:E; [ reflexivity | ].
  apply tidy_of_from. apply join_words_tidy; [ | discriminate ].
  rewrite <- E. apply split_words.
Qed.

(** Cutting a tidy text and adding the dots keeps it tidy. *)
Lemma tidy_from_cut (n : nat) :
  forall (b : bool) (s : string),
    tidy_from b s = true ->
    tidy_from b (String.append (PyStr.take n s) "...") = true.
Proof.
  induction n as [ | n IH ]; intros b s H; [ reflexivity | ].
  destruct s as [ | c r ]; [ reflexivity | ].
  simpl in *. destruct (PyStr.isspace c).
  - apply andb_true_iff in H. destruct H as [ H1 H2 ].
    rewrite H1. simpl. apply IH. exact H2.
  - apply IH. exact H.
Qed.

Lemma tidy_cut (n : nat) (s : string) :
  tidy s = true -> tidy (String.append (PyStr.take n s) "...") = true.
Proof.
  intro H. apply tidy_of_from.
  destruct s as [ | c r ]; [ destruct n; reflexivity | ].
  apply tidy_from_cut. exact H.
Qed.

Lemma rstrip_tidy (s : string) :
  forall b, tidy_from b s = true -> PyStr.rstrip s = s.
Proof.
  induction s as [ | c r IH ]; intros b H; [ reflexivity | ].
  simpl in H. cbn [PyStr.rstrip].
  destruct (PyStr.isspace c) eqn:E.
  - apply andb_true_iff in H. destruct H as [ _ H ].
    rewrite (IH true H). destruct r; [ discriminate | reflexivity ].
  - rewrite (IH false H). destruct r; reflexivity.
Qed.

Lemma strip_tidy (s : string) : tidy s = true -> PyStr.strip s = s.
Proof.
  unfold PyStr.strip. destruct s as [ | c r ]; [ reflexivity | ].
  intro H. simpl in H.
  assert (E : PyStr.isspace c = false).
  { destruct (PyStr.isspace c); [ rewrite andb_false_r in H; discriminate | reflexivity ]. }
  assert (L : PyStr.lstrip (String c r) = String c r) by (simpl; rewrite E; reflexivity).
  rewrite L. apply rstrip_tidy with (b := true). simpl. rewrite E.
  rewrite E in H. exact H.
Qed.

Lemma no_double_space_from (s : string) :
  forall b, tidy_from b s = true -> PyStr.contains "  " s = false.
Proof.
  induction s as [ | c r IH ]; intros b H; [ reflexivity | ].
  cbn [PyStr.contains]. simpl in H.
  assert (Hr : PyStr.contains "  " r = false).
  { destruct (PyStr.isspace c).
    - apply andb_true_iff in H. destruct H as [ _ H ]. exact (IH true H).
    - exact (IH false H). }
  rewrite Hr, orb_false_r. cbn [PyStr.startswith].
  destruct (Ascii.eqb " " c) eqn:Ec; [ | reflexivity ].
  apply Ascii.eqb_eq in Ec. subst c.
  destruct r as [ | d r' ]; [ reflexivity | ].
  cbn [PyStr.startswith andb].
  destruct (Ascii.eqb " " d) eqn:Ed; [ | reflexivity ].
  apply Ascii.eqb_eq in Ed. subst d. exfalso.
  cbn in H. rewrite ?andb_false_r in H. discriminate.
Qed.

Lemma no_double_space (s : string) : tidy s = true -> PyStr.contains "  " s = false.
Proof.
  destruct s as [ | c r ]; [ reflexivity | ].
  apply no_double_space_from.
Qed.

(** A word followed by the end or by white space is the first word. *)
Lemma split_word_first (u rest : string) :
  all_chars (fun c => negb (PyStr.isspace c)) u = true ->
  match rest with
  | EmptyString => True
  | String d _ => PyStr.isspace d = true
  end ->
  forall c, PyStr.isspace c = false ->
  split (String c (String.append u rest)) = String c u :: split rest.
Proof.
  intros Hu Hrest. induction u as [ | d u IH ]; intros c Hc.
  - rewrite split_step by exact Hc. simpl String.append.
    destruct rest as [ | d r ]; [ reflexivity | ].
    rewrite Hrest. reflexivity.
  - simpl in Hu. apply andb_true_iff in Hu. destruct Hu as [ Hd Hu ].
    apply negb_true_iff in Hd.
    rewrite split_step by exact Hc. cbn [String.append].
    rewrite Hd. rewrite (IH Hu d Hd). reflexivity.
Qed.

(** The words of joined words are those words. *)
Lemma split_join_words (ws : list string) :
  forallb word ws = true -> split (PyStr.join space ws) = ws.
Proof.
  induction ws as [ | w ws IH ]; [ reflexivity | ].
  intro H. cbn [forallb] in H. apply andb_true_iff in H. destruct H as [ Hw Hws ].
  unfold word in Hw. apply andb_true_iff in Hw. destruct Hw as [ Hw1 Hw2 ].
  destruct w as [ | c u ]; [ discriminate | ].
  simpl in Hw2. apply andb_true_iff in Hw2. destruct Hw2 as [ Hc Hu ].
  apply negb_true_iff in Hc.
  destruct ws as [ | w2 ws ].
  - cbn [PyStr.join]. rewrite <- (append_empty_r u).
    rewrite (@split_word_first u EmptyString Hu I c Hc). rewrite append_empty_r.
    reflexivity.
  - rewrite join_cons by discriminate. cbn [String.append].
    rewrite (@split_word_first u (String.append space (PyStr.join space (w2 :: ws))) Hu eq_refl c Hc).
    f_equal. unfold space. cbn [String.append].
    rewrite (@split_space " " _ eq_refl). apply IH. exact Hws.
Qed.

(** ** Characters of the joined words *)

Lemma all_chars_split (p : ascii -> bool) (t : string) :
  all_chars p t = true -> forallb (all_chars p) (split t) = true.
Proof.
  induction t as [ | c r IH ]; [ reflexivity | ].
  intro H. simpl in H. apply andb_true_iff in H. destruct H as [ Hc Hr ].
  specialize (IH Hr).
  destruct (PyStr.isspace c) eqn:E.
  - rewrite split_space by exact E. exact IH.
  - rewrite split_step by exact E.
    destruct r as [ | d r' ]; [ simpl; rewrite Hc; reflexivity | ].
    destruct (PyStr.isspace d).
    + cbn [forallb]. rewrite IH. simpl. rewrite Hc. reflexivity.
    + destruct (split (String d r')) as [ | w ws ].
      * simpl. rewrite Hc. reflexivity.
      * cbn [forallb] in *. apply andb_true_iff in IH. destruct IH as [ Hw Hws ].
        simpl. rewrite Hc, Hw, Hws. reflexivity.
Qed.

Lemma all_chars_join (p : ascii -> bool) (sep : string) (ws : list string) :
  all_chars p sep = true ->
  forallb (all_chars p) ws = true ->
  all_chars p (PyStr.join sep ws) = true.
Proof.
  intro Hsep. induction ws as [ | w ws IH ]; [ reflexivity | ].
  intro H. cbn [forallb] in H. apply andb_true_iff in H. destruct H as [ Hw Hws ].
  destruct ws as [ | w2 ws ]; [ exact Hw | ].
  rewrite join_cons by discriminate.
  rewrite !all_chars_append, Hw, Hsep, (IH Hws). reflexivity.
Qed.

Lemma all_chars_weaken (p q : ascii -> bool) (s : string) :
  (forall c, p c = true -> q c = true) ->
  all_chars p s = true -> all_chars q s = true.
Proof.
  intro Hpq. induction s as [ | c s IH ]; simpl; [ reflexivity | ].
  intro H. apply andb_true_iff in H. destruct H as [ Hc Hs ].
  rewrite (Hpq c Hc), (IH Hs). reflexivity.
Qed.

(** The only white space among the joined words is the space. *)
Lemma joined_spaces (t : string) :
  all_chars (fun c => negb (PyStr.isspace c) || Ascii.eqb c " ")
    (PyStr.join space (split t)) = true.
Proof.
  apply all_chars_join; [ reflexivity | ].
  pose proof (split_words t) as H.
  induction (split t) as [ | w ws IH ]; [ reflexivity | ].
  cbn [forallb] in *. apply andb_true_iff in H. destruct H as [ Hw Hws ].
  rewrite (IH Hws), andb_true_r.
  unfold word in Hw. apply andb_true_iff in Hw. destruct Hw as [ _ Hw ].
  revert Hw. apply all_chars_weaken. intros c Hc. rewrite Hc. reflexivity.
Qed.

Lemma joined_no_nul (t : string) :
  has NUL t = false -> has NUL (PyStr.join space (split t)) = false.
Proof.
  rewrite !has_all_chars. intro H. apply negb_false_iff in H.
  apply negb_false_iff. apply all_chars_join; [ reflexivity | ].
  apply all_chars_split. exact H.
Qed.

End CleanText.

(** The text [_clean_text] works on after its first two steps. *)
Lemma clean_text_cases (text : string) :
  let joined := PyWords.remove PyWords.NUL
                  (PyStr.join PyWords.space (PyWords.split text)) in
  (String.length joined <= AIService.clean_limit
   /\ AIService._clean_text text = joined)
  \/ (AIService.clean_limit < String.length joined
      /\ AIService._clean_text text
         = String.append (PyStr.take AIService.clean_limit joined) "...").
Proof.
  cbv zeta. unfold AIService._clean_text.
  destruct (Nat.ltb_spec AIService.clean_limit
              (String.length
                 (PyWords.remove PyWords.NUL
                    (PyStr.join PyWords.space (PyWords.split text)))))
    as [ H | H ]; [ right | left ]; split; (exact H || reflexivity).
Qed.

(** The cleaned text has at most 8003 characters, holds no NUL character,
    and no white space other than the space: no tab and no line break. *)
Theorem clean_text_is_bounded (text : string) :
  String.length (AIService._clean_text text) <= AIService.clean_limit + 3
  /\ PyWords.has PyWords.NUL (AIService._clean_text text) = false
  /\ CleanText.all_chars (fun c => negb (PyStr.isspace c) || Ascii.eqb c " ")
       (AIService._clean_text text) = true.
Proof.
  set (joined := PyWords.remove PyWords.NUL
                   (PyStr.join PyWords.space (PyWords.split text))).
  assert (Hn : PyWords.has PyWords.NUL joined = false) by apply CleanText.has_remove.
  assert (Hs : CleanText.all_chars
                 (fun c => negb (PyStr.isspace c) || Ascii.eqb c " ") joined = true)
    by (apply CleanText.all_chars_remove, CleanText.joined_spaces).
  destruct (clean_text_cases text) as [ [ Hl E ] | [ Hl E ] ]; fold joined in Hl, E;
    rewrite E.
  - split; [ lia | split; assumption ].
  - split; [ | split ].
    + rewrite CleanText.length_append, CleanText.length_take.
      change (String.length "...") with 3. lia.
    + rewrite CleanText.has_all_chars in *. apply negb_false_iff in Hn.
      apply negb_false_iff.
      rewrite CleanText.all_chars_append, CleanText.all_chars_take by exact Hn.
      reflexivity.
    + rewrite CleanText.all_chars_append, CleanText.all_chars_take by exact Hs.
      reflexivity.
Qed.

(** What [_clean_text] gives for a text without NUL: the joined words, cut
    when they are too long; in both cases a tidy text without NUL. *)
Lemma clean_text_without_nul (text : string) :
  PyWords.has PyWords.NUL text = false ->
  CleanText.tidy (AIService._clean_text text) = true
  /\ PyWords.has PyWords.NUL (AIService._clean_text text) = false
  /\ (String.length (AIService._clean_text text) <= AIService.clean_limit
      \/ exists head,
           String.length head = AIService.clean_limit
           /\ AIService._clean_text text = String.append head "...").
Proof.
  intro Hnul.
  pose proof (CleanText.joined_no_nul text Hnul) as Hj.
  split; [ | split; [ apply clean_text_is_bounded | ] ];
    destruct (clean_text_cases text) as [ [ Hl E ] | [ Hl E ] ];
    rewrite (CleanText.remove_absent _ _ Hj) in Hl, E; rewrite E.
  - apply CleanText.tidy_join_split.
  - apply CleanText.tidy_cut, CleanText.tidy_join_split.
  - left. exact Hl.
  - right. exists (PyStr.take AIService.clean_limit
                     (PyStr.join PyWords.space (PyWords.split text))).
    split; [ | reflexivity ].
    rewrite CleanText.length_take. lia.
Qed.

(** Cleaning a text that holds no NUL character a second time changes
    nothing. *)
Theorem clean_text_is_idempotent (text : string) :
  PyWords.has PyWords.NUL text = false ->
  AIService._clean_text (AIService._clean_text text) = AIService._clean_text text.
Proof.
  intro Hnul.
  destruct (clean_text_without_nul text Hnul) as [ Ht [ Hn Hl ] ].
  set (cleaned := AIService._clean_text text) in *.
  destruct (clean_text_cases cleaned) as [ [ Hl' E ] | [ Hl' E ] ];
    rewrite (CleanText.join_split_tidy _ Ht) in Hl', E;
    rewrite (CleanText.remove_absent _ _ Hn) in Hl', E; rewrite E;
    [ reflexivity | ].
  destruct Hl as [ Hl | [ head [ Hh Hc ] ] ]; [ lia | ].
  rewrite Hc. rewrite CleanText.take_append by exact Hh. reflexivity.
Qed.

(** A text with tabs, a line break and spaces at both ends. *)
Definition untidy_text : string :=
  String.append "  Audit "
    (String (ascii_of_nat 9)
       (String.append "report" (String PyStr.LF "  2023 "))).

Lemma clean_text_is_idempotent_witness :
  AIService._clean_text (AIService._clean_text untidy_text)
  = AIService._clean_text untidy_text.
Proof.
  apply (@clean_text_is_idempotent untidy_text). reflexivity.
Defined.

(** The cleaned form of a text that holds no NUL character has no white
    space at either end and no two spaces in a row; while nothing is cut, it
    has the words of the text. *)
Theorem clean_text_is_tidy (text : string) :
  PyWords.has PyWords.NUL text = false ->
  PyStr.strip (AIService._clean_text text) = AIService._clean_text text
  /\ PyStr.contains "  " (AIService._clean_text text) = false
  /\ (String.length (PyStr.join PyWords.space (PyWords.split text))
      <= AIService.clean_limit ->
      PyWords.split (AIService._clean_text text) = PyWords.split text).
Proof.
  intro Hnul.
  destruct (clean_text_without_nul text Hnul) as [ Ht _ ].
  split; [ apply CleanText.strip_tidy; exact Ht | ].
  split; [ apply CleanText.no_double_space; exact Ht | ].
  intro Hlen.
  pose proof (CleanText.joined_no_nul text Hnul) as Hj.
  destruct (clean_text_cases text) as [ [ Hl E ] | [ Hl E ] ];
    rewrite (CleanText.remove_absent _ _ Hj) in Hl, E; [ | lia ].
  rewrite E. apply CleanText.split_join_words. apply CleanText.split_words.
Qed.

Lemma clean_text_is_tidy_witness :
  PyStr.strip (AIService._clean_text untidy_text) = AIService._clean_text untidy_text
  /\ PyStr.contains "  " (AIService._clean_text untidy_text) = false
  /\ (String.length (PyStr.join PyWords.space (PyWords.split untidy_text))
      <= AIService.clean_limit ->
      PyWords.split (AIService._clean_text untidy_text) = PyWords.split untidy_text).
Proof.
  apply (@clean_text_is_tidy untidy_text). reflexivity.
Defined.

(** With a NUL character between two spaces the cleaned text keeps both
    spaces, and cleaning it again gives another text. *)
Lemma clean_text_with_nul :
  let text := String.append "a " (String PyWords.NUL " b") in
  AIService._clean_text text = "a  b"%string
  /\ AIService._clean_text (AIService._clean_text text) = "a b"%string.
Proof. split; vm_compute; reflexivity. Qed.

Module Embeddings.

Import AIService.

Lemma batch_loop_total (enc : string -> list Np.float64)
  (encode_batch : list string -> result (list (list Np.float64)))
  (Hbatch : forall batch, encode_batch batch = Return (map enc batch))
  (texts : list string) (embeddings : list (list Np.float64)) :
  batch_loop encode_batch texts embeddings
  = Return (embeddings ++ map (fun t => enc (_clean_text t)) texts).
Proof.
  funelim (batch_loop encode_batch texts embeddings).
  - rewrite app_nil_r. reflexivity.
  - rewrite Hbatch. rewrite (H _ enc Hbatch).
    rewrite <- app_assoc. f_equal. f_equal.
    rewrite map_map, <- map_app, firstn_skipn. reflexivity.
Qed.

End Embeddings.

(** With a model that embeds every text, and a batch as its texts one by
    one, [batch_process_embeddings] returns one embedding per text, in the
    order of the texts: the embedding [generate_embeddings] gives for that
    text. The batches of ten do not show in the result. *)
Theorem batch_embeddings_are_per_text (enc : string -> list Np.float64)
  (encode : string -> result (list Np.float64))
  (encode_batch : list string -> result (list (list Np.float64)))
  (texts : list string) :
  (forall text, encode text = Return (enc text)) ->
  (forall batch, encode_batch batch = Return (map enc batch)) ->
  exists embeddings,
    AIService.batch_process_embeddings encode_batch texts = Return embeddings
    /\ List.length embeddings = List.length texts
    /\ map (AIService.generate_embeddings encode) texts = map Return embeddings.
Proof.
  intros Hone Hbatch.
  exists (map (fun t => enc (AIService._clean_text t)) texts).
  split; [ | split ].
  - unfold AIService.batch_process_embeddings.
    rewrite (Embeddings.batch_loop_total enc encode_batch Hbatch). reflexivity.
  - apply length_map.
  - rewrite map_map. apply map_ext. intro t.
    unfold AIService.generate_embeddings. rewrite Hone. reflexivity.
Qed.

Lemma batch_embeddings_are_per_text_witness :
  exists embeddings,
    AIService.batch_process_embeddings
      (fun batch => Return (map (fun t => [Np.Fin (inject_Z (Z.of_nat (String.length t)))]) batch))
      [ untidy_text; "Scope"%string; EmptyString ]
    = Return embeddings
    /\ List.length embeddings = 3
    /\ map (AIService.generate_embeddings
              (fun t => Return [Np.Fin (inject_Z (Z.of_nat (String.length t)))]))
         [ untidy_text; "Scope"%string; EmptyString ]
       = map Return embeddings.
Proof.
  apply (@batch_embeddings_are_per_text (fun t => [Np.Fin (inject_Z (Z.of_nat (String.length t)))])
           (fun t => Return [Np.Fin (inject_Z (Z.of_nat (String.length t)))])
           (fun batch => Return (map (fun t => [Np.Fin (inject_Z (Z.of_nat (String.length t)))]) batch))
           [ untidy_text; "Scope"%string; EmptyString ]);
    reflexivity.
Defined.

(* ===================================================================== *)
(** * [src/services/llm_service.py] *)
(* ===================================================================== *)

Set Warnings "-abstract-large-number".

Module LLMService.

(** What a call sends to the chat completion: which prompt template, and
    the text that fills it. *)
Inductive prompt : Type :=
| ExtractFindings (text : string)
| RiskAssessment (text : string)
| MaterialWeaknessDetection (text : string)
| ComplianceGapAnalysis (internal_report external_report : string)
| RiskCategorization (text : string).

(** How many calls were made to the model and how many times the clock was
    read. *)
Record Counters : Type := mkCounters {
  calls : nat;
  reads : nat
}.

(** A computation that calls the model and reads the clock. *)
Definition M (A : Type) : Type := Counters -> A * Counters.

Definition ret {A : Type} (a : A) : M A := fun s => (a, s).

Definition bind {A B : Type} (m : M A) (f : A -> M B) : M B :=
  fun s => let (a, s') := m s in f a s'.

Notation "x <- m ;; k" := (bind m (fun x => k))
  (at level 61, m at next level, right associativity).

(** [self.models]. *)
Record ModelConfig : Type := mkModelConfig {
  max_tokens : nat;
  temperature : Q;
  suitable_for : list string
}.

Definition models : list (string * ModelConfig) :=
  [ ("gpt-4"%string,
     mkModelConfig 8192 (1 # 10)
       [ "complex_analysis"; "detailed_comparison"; "risk_assessment" ]%string);
    ("gpt-3.5-turbo"%string,
     mkModelConfig 4096 (1 # 10)
       [ "simple_extraction"; "classification"; "summarization" ]%string) ].

(** [LLMService.get_optimal_model]. *)
Definition get_optimal_model (task_type : string) (text_length : Z) : string :=
  if existsb (String.eqb task_type)
       [ "complex_analysis"; "detailed_comparison"; "risk_assessment" ]%string
  then "gpt-4"
  else if (3000 <? text_length)%Z then "gpt-4"
  else "gpt-3.5-turbo".

Section Calls.

(** The chat completion followed by [json.loads]: the reply to the [n]-th
    call. *)
Variable chat : nat -> prompt -> llm_reply.

(** The [n]-th [datetime.utcnow()] and [isoformat]. *)
Variable utcnow : nat -> datetime.
Variable isoformat : datetime -> string.

Definition ask (p : prompt) : M llm_reply :=
  fun s => (chat (calls s) p, mkCounters (S (calls s)) (reads s)).

Definition now : M string :=
  fun s => (isoformat (utcnow (reads s)), mkCounters (calls s) (S (reads s))).

(** [AIService.extract_key_findings]. *)
Definition extract_key_findings (text : string) : M json :=
  reply <- ask (ExtractFindings (PyStr.take 4000 text)) ;;
  match reply with
  | LLMJson findings => ret findings
  | LLMError e =>
      ret (JDict [ ("error"%string,
                    JStr (String.append "Failed to extract findings: " e)) ])
  end.

(** [AIService.assess_risk_profile]. *)
Definition assess_risk_profile (text : string) : M json :=
  reply <- ask (RiskAssessment (PyStr.take 3000 text)) ;;
  match reply with
  | LLMJson risk_assessment => ret risk_assessment
  | LLMError e =>
      ret (JDict [ ("error"%string,
                    JStr (String.append "Failed to assess risk: " e)) ])
  end.

(** The dict the three detectors return when their call failed. *)
Definition failure (message e : string) : json :=
  JDict [ ("success"%string, JBool false);
          ("error"%string, JStr (String.append message e)) ].

(** [LLMService.detect_material_weaknesses]. *)
Definition detect_material_weaknesses (text : string) : M json :=
  reply <- ask (MaterialWeaknessDetection (PyStr.take 4000 text)) ;;
  match reply with
  | LLMJson result =>
      processed_at <- now ;;
      ret (JDict [ ("success"%string, JBool true);
                   ("material_weaknesses"%string, result);
                   ("processed_at"%string, JStr processed_at) ])
  | LLMError e => ret (failure "Failed to detect material weaknesses: " e)
  end.

(** [LLMService.analyze_compliance_gaps]. *)
Definition analyze_compliance_gaps (internal_report external_report : string)
  : M json :=
  reply <- ask (ComplianceGapAnalysis (PyStr.take 2000 internal_report)
                  (PyStr.take 2000 external_report)) ;;
  match reply with
  | LLMJson result =>
      processed_at <- now ;;
      ret (JDict [ ("success"%string, JBool true);
                   ("compliance_gaps"%string, result);
                   ("processed_at"%string, JStr processed_at) ])
  | LLMError e => ret (failure "Failed to analyze compliance gaps: " e)
  end.

(** [LLMService.categorize_risks]. *)
Definition categorize_risks (text : string) : M json :=
  reply <- ask (RiskCategorization (PyStr.take 3500 text)) ;;
  match reply with
  | LLMJson result =>
      processed_at <- now ;;
      ret (JDict [ ("success"%string, JBool true);
                   ("risk_categories"%string, result);
                   ("processed_at"%string, JStr processed_at) ])
  | LLMError e => ret (failure "Failed to categorize risks: " e)
  end.

(** [LLMService.process_audit_workflow]. None of the four steps raises, so
    the handler of the workflow is never entered. *)
Definition process_audit_workflow (report_text workflow_type : string) : M json :=
  let results := [] in
  findings <- extract_key_findings report_text ;;
  let results := PyDict.set results "key_findings" findings in
  material_weaknesses <- detect_material_weaknesses report_text ;;
  let results := PyDict.set results "material_weaknesses" material_weaknesses in
  risk_categories <- categorize_risks report_text ;;
  let results := PyDict.set results "risk_categories" risk_categories in
  risk_profile <- assess_risk_profile report_text ;;
  let results := PyDict.set results "risk_profile" risk_profile in
  processed_at <- now ;;
  ret (JDict [ ("success"%string, JBool true);
               ("workflow_type"%string, JStr workflow_type);
               ("results"%string, JDict results);
               ("processed_at"%string, JStr processed_at) ]).

(** A report handed to [batch_process_reports]: a dict whose ['text'], when
    present, is a [str] as the annotation of [process_audit_workflow] has
    it; [report.get('id')] is [None] when the key is missing. *)
Record BatchReport : Type := mkBatchReport {
  id : json;
  text : option string;
  workflow_type : option string
}.

(** The loop of [LLMService.batch_process_reports]. *)
Fixpoint batch_loop (reports : list BatchReport) (results : list json)
  : M (list json) :=
  match reports with
  | [] => ret results
  | report :: rest =>
      match text report with
      | Some report_text =>
          result <-
            process_audit_workflow report_text
              (match workflow_type report with
               | Some w => w
               | None => "standard"%string
               end) ;;
          batch_loop rest
            (results ++ [ JDict [ ("report_id"%string, id report);
                                  ("result"%string, result) ] ])
      | None =>
          batch_loop rest
            (results ++
             [ JDict [ ("report_id"%string, id report);
                       ("result"%string,
                        failure "Processing failed: " (PyRepr.repr_str "text")) ] ])
      end
  end.

Definition batch_process_reports (reports : list BatchReport) : M (list json) :=
  batch_loop reports [].

End Calls.

End LLMService.

(* ===================================================================== *)
(** * Properties of the language-model workflows *)
(* ===================================================================== *)

Module Workflow.

Import LLMService.

Lemma take_take (n m : nat) (s : string) :
  n <= m -> PyStr.take n (PyStr.take m s) = PyStr.take n s.
Proof.
  revert m s. induction n as [ | n IH ]; intros m s H; [ reflexivity | ].
  destruct m as [ | m ]; [ lia | ].
  destruct s as [ | c s ]; [ reflexivity | ].
  simpl. rewrite IH by lia. reflexivity.
Qed.

Lemma take_same (n m : nat) (a b : string) :
  n <= m -> PyStr.take m a = PyStr.take m b -> PyStr.take n a = PyStr.take n b.
Proof.
  intros H E. rewrite <- (take_take a H), <- (take_take b H), E. reflexivity.
Qed.

Section Calls.

Variable chat : nat -> prompt -> llm_reply.
Variable utcnow : nat -> datetime.
Variable isoformat : datetime -> string.

(** Each of the five calls asks the model once and returns. *)
Lemma extract_key_findings_calls (text : string) (s : Counters) :
  calls (snd (extract_key_findings chat text s)) = S (calls s)
  /\ reads (snd (extract_key_findings chat text s)) = reads s.
Proof.
  unfold extract_key_findings, bind, ask, ret.
  destruct (chat (calls s) _); split; reflexivity.
Qed.

Lemma assess_risk_profile_calls (text : string) (s : Counters) :
  calls (snd (assess_risk_profile chat text s)) = S (calls s)
  /\ reads (snd (assess_risk_profile chat text s)) = reads s.
Proof.
  unfold assess_risk_profile, bind, ask, ret.
  destruct (chat (calls s) _); split; reflexivity.
Qed.

Lemma detect_material_weaknesses_calls (text : string) (s : Counters) :
  calls (snd (detect_material_weaknesses chat utcnow isoformat text s)) = S (calls s)
  /\ reads s <= reads (snd (detect_material_weaknesses chat utcnow isoformat text s))
     <= S (reads s).
Proof.
  unfold detect_material_weaknesses, bind, ask, ret, now.
  destruct (chat (calls s) _); simpl; lia.
Qed.

Lemma categorize_risks_calls (text : string) (s : Counters) :
  calls (snd (categorize_risks chat utcnow isoformat text s)) = S (calls s)
  /\ reads s <= reads (snd (categorize_risks chat utcnow isoformat text s))
     <= S (reads s).
Proof.
  unfold categorize_risks, bind, ask, ret, now.
  destruct (chat (calls s) _); simpl; lia.
Qed.

(** The shape of what [process_audit_workflow] returns. *)
Lemma process_audit_workflow_shape (report_text workflow_type : string)
  (s : Counters) :
  exists findings material_weaknesses risk_categories risk_profile s',
    process_audit_workflow chat utcnow isoformat report_text workflow_type s
    = (JDict [ ("success"%string, JBool true);
               ("workflow_type"%string, JStr workflow_type);
               ("results"%string,
                JDict [ ("key_findings"%string, findings);
                        ("material_weaknesses"%string, material_weaknesses);
                        ("risk_categories"%string, risk_categories);
                        ("risk_profile"%string, risk_profile) ]);
               ("processed_at"%string, JStr (isoformat (utcnow (reads s')))) ],
       mkCounters (calls s + 4) (S (reads s')))
    /\ reads s <= reads s' <= reads s + 2.
Proof.
  unfold process_audit_workflow.
  unfold bind at 1.
  pose proof (extract_key_findings_calls report_text s) as [ C1 R1 ].
  destruct (extract_key_findings chat report_text s) as [ findings s1 ].
  unfold bind at 1.
  pose proof (detect_material_weaknesses_calls report_text s1) as [ C2 R2 ].
  destruct (detect_material_weaknesses chat utcnow isoformat report_text s1)
    as [ material_weaknesses s2 ].
  unfold bind at 1.
  pose proof (categorize_risks_calls report_text s2) as [ C3 R3 ].
  destruct (categorize_risks chat utcnow isoformat report_text s2)
    as [ risk_categories s3 ].
  unfold bind at 1.
  pose proof (assess_risk_profile_calls report_text s3) as [ C4 R4 ].
  destruct (assess_risk_profile chat report_text s3) as [ risk_profile s4 ].
  simpl in *.
  exists findings, material_weaknesses, risk_categories, risk_profile, s4.
  split; [ | lia ].
  unfold bind, now, ret. do 2 f_equal. lia.
Qed.

(** The entry [batch_process_reports] makes for a report. *)
Definition entry_of (report : BatchReport) (entry : json) : Prop :=
  match text report with
  | Some _ =>
      exists result,
        entry = JDict [ ("report_id"%string, id report); ("result"%string, result) ]
        /\ py_get result "success" JNull = Return (JBool true)
  | None =>
      entry = JDict [ ("report_id"%string, id report);
                      ("result"%string,
                       JDict [ ("success"%string, JBool false);
                               ("error"%string,
                                JStr "Processing failed: 'text'") ]) ]
  end.

(** The reports that have a text. *)
Definition with_text (reports : list BatchReport) : list BatchReport :=
  filter (fun r => match text r with Some _ => true | None => false end) reports.

Lemma batch_loop_entries (reports : list BatchReport) :
  forall (results : list json) (s : Counters),
  exists entries s',
    batch_loop chat utcnow isoformat reports results s = (results ++ entries, s')
    /\ Forall2 entry_of reports entries
    /\ calls s' = calls s + 4 * List.length (with_text reports).
Proof.
  induction reports as [ | report rest IH ]; intros results s.
  - exists [], s. simpl. unfold ret. rewrite app_nil_r.
    split; [ reflexivity | split; [ constructor | lia ] ].
  - cbn [batch_loop]. unfold with_text. cbn [filter].
    destruct (text report) as [ report_text | ] eqn:T.
    + unfold bind.
      destruct (process_audit_workflow_shape report_text
                  (match workflow_type report with
                   | Some w => w
                   | None => "standard"%string
                   end) s)
        as [ f [ mw [ rc [ rp [ s1 [ E _ ] ] ] ] ] ].
      rewrite E.
      match goal with
      | |- context [ batch_loop _ _ _ rest (results ++ [ ?entry ]) ?s2 ] =>
          destruct (IH (results ++ [ entry ]) s2) as [ entries [ s' [ E' [ F C ] ] ] ];
          exists (entry :: entries), s'
      end.
      rewrite E', <- app_assoc. split; [ reflexivity | ]. split.
      * constructor; [ | exact F ]. unfold entry_of. rewrite T.
        eexists. split; reflexivity.
      * rewrite C. simpl. fold (with_text rest). lia.
    + match goal with
      | |- context [ batch_loop _ _ _ rest (results ++ [ ?entry ]) s ] =>
          destruct (IH (results ++ [ entry ]) s) as [ entries [ s' [ E' [ F C ] ] ] ];
          exists (entry :: entries), s'
      end.
      rewrite E', <- app_assoc. split; [ reflexivity | ]. split.
      * constructor; [ | exact F ]. unfold entry_of. rewrite T. reflexivity.
      * rewrite C. fold (with_text rest). lia.
Qed.

End Calls.

End Workflow.

(** [process_audit_workflow] reports success whatever the model answers:
    the outer ['success'] is [True], ['results'] has the four entries in
    the order of the steps, and the model was called four times. With a
    model that fails on every call the four entries are the failure
    reports of the steps, and the outer ['success'] is still [True]. *)
Theorem workflow_reports_success
  (chat : nat -> LLMService.prompt -> llm_reply)
  (utcnow : nat -> datetime) (isoformat : datetime -> string)
  (report_text workflow_type : string) (s : LLMService.Counters) :
  let run :=
    LLMService.process_audit_workflow chat utcnow isoformat
      report_text workflow_type s in
  py_get (fst run) "success" JNull = Return (JBool true)
  /\ py_get (fst run) "workflow_type" JNull = Return (JStr workflow_type)
  /\ (exists results,
        py_get (fst run) "results" JNull = Return (JDict results)
        /\ PyDict.keys results
           = [ "key_findings"; "material_weaknesses";
               "risk_categories"; "risk_profile" ]%string)
  /\ LLMService.calls (snd run) = LLMService.calls s + 4
  /\ (forall e,
        (forall n p, chat n p = LLMError e) ->
        py_get (fst run) "results" JNull
        = Return
            (JDict
               [ ("key_findings"%string,
                  JDict [ ("error"%string,
                           JStr (String.append "Failed to extract findings: " e)) ]);
                 ("material_weaknesses"%string,
                  LLMService.failure "Failed to detect material weaknesses: " e);
                 ("risk_categories"%string,
                  LLMService.failure "Failed to categorize risks: " e);
                 ("risk_profile"%string,
                  JDict [ ("error"%string,
                           JStr (String.append "Failed to assess risk: " e)) ]) ])).
Proof.
  cbv zeta.
  destruct (Workflow.process_audit_workflow_shape chat utcnow isoformat
              report_text workflow_type s)
    as [ f [ mw [ rc [ rp [ s1 [ E _ ] ] ] ] ] ].
  split; [ rewrite E; reflexivity | ].
  split; [ rewrite E; reflexivity | ].
  split; [ rewrite E; eexists; split; reflexivity | ].
  split; [ rewrite E; reflexivity | ].
  intros e Hdown. clear E.
  unfold LLMService.process_audit_workflow, LLMService.extract_key_findings,
    LLMService.detect_material_weaknesses, LLMService.categorize_risks,
    LLMService.assess_risk_profile, LLMService.bind, LLMService.ask, LLMService.ret.
  rewrite !Hdown. reflexivity.
Qed.

(** The workflow reads the first 4000 characters of a report and nothing
    after them: two reports that agree on these give the same result. *)
Theorem workflow_reads_4000_characters
  (chat : nat -> LLMService.prompt -> llm_reply)
  (utcnow : nat -> datetime) (isoformat : datetime -> string)
  (report_a report_b workflow_type : string) (s : LLMService.Counters) :
  PyStr.take 4000 report_a = PyStr.take 4000 report_b ->
  LLMService.process_audit_workflow chat utcnow isoformat report_a workflow_type s
  = LLMService.process_audit_workflow chat utcnow isoformat report_b workflow_type s.
Proof.
  intro E.
  assert (E35 : PyStr.take 3500 report_a = PyStr.take 3500 report_b)
    by (apply Workflow.take_same with (m := 4000); [ | exact E ];
        apply Nat.leb_le; vm_compute; reflexivity).
  assert (E30 : PyStr.take 3000 report_a = PyStr.take 3000 report_b)
    by (apply Workflow.take_same with (m := 4000); [ | exact E ];
        apply Nat.leb_le; vm_compute; reflexivity).
  unfold LLMService.process_audit_workflow, LLMService.extract_key_findings,
    LLMService.detect_material_weaknesses, LLMService.categorize_risks,
    LLMService.assess_risk_profile.
  rewrite E, E35, E30. reflexivity.
Qed.

(** Inputs for the workflows: a model that answers every prompt with an
    empty object, and two long reports that differ only after their first
    4000 characters. *)
Module WorkflowExample.

Definition chat_empty : nat -> LLMService.prompt -> llm_reply :=
  fun _ _ => LLMJson (JDict []).

Definition isoformat (t : datetime) : string := PyRepr.repr_int t.

Fixpoint filler (n : nat) : string :=
  match n with
  | O => EmptyString
  | S k => String "x" (filler k)
  end.

Definition long_report_a : string := String.append (filler 4000) " appendix A".
Definition long_report_b : string := String.append (filler 4000) " appendix B".

Definition start : LLMService.Counters := LLMService.mkCounters 0 0.

End WorkflowExample.

Lemma workflow_reads_4000_characters_witness :
  LLMService.process_audit_workflow WorkflowExample.chat_empty Example.clock
    WorkflowExample.isoformat WorkflowExample.long_report_a "standard"
    WorkflowExample.start
  = LLMService.process_audit_workflow WorkflowExample.chat_empty Example.clock
      WorkflowExample.isoformat WorkflowExample.long_report_b "standard"
      WorkflowExample.start.
Proof.
  apply (@workflow_reads_4000_characters WorkflowExample.chat_empty Example.clock
           WorkflowExample.isoformat WorkflowExample.long_report_a
           WorkflowExample.long_report_b "standard" WorkflowExample.start).
  vm_compute. reflexivity.
Defined.

(** [batch_process_reports] returns one entry per report, in the order of
    the reports and under the report's id. A report without ['text'] gets
    the failure entry "Processing failed: 'text'" and costs no call; it does
    not stop the batch. Every report with a text gets an entry whose result
    says success, and costs four calls. *)
Theorem batch_reports_one_entry_each
  (chat : nat -> LLMService.prompt -> llm_reply)
  (utcnow : nat -> datetime) (isoformat : datetime -> string)
  (reports : list LLMService.BatchReport) (s : LLMService.Counters) :
  let run := LLMService.batch_process_reports chat utcnow isoformat reports s in
  List.length (fst run) = List.length reports
  /\ map (fun entry => py_get entry "report_id" JNull) (fst run)
     = map (fun report => Return (LLMService.id report)) reports
  /\ Forall2 Workflow.entry_of reports (fst run)
  /\ LLMService.calls (snd run)
     = LLMService.calls s + 4 * List.length (Workflow.with_text reports).
Proof.
  cbv zeta. unfold LLMService.batch_process_reports.
  destruct (Workflow.batch_loop_entries chat utcnow isoformat reports [] s)
    as [ entries [ s' [ E [ F C ] ] ] ].
  rewrite E. simpl.
  split; [ symmetry; exact (Forall2_length F) | ].
  split; [ | split; assumption ].
  clear E C. induction F as [ | report entry reports entries H F IH ];
    [ reflexivity | ].
  simpl. rewrite IH. f_equal.
  unfold Workflow.entry_of in H.
  destruct (LLMService.text report).
  - destruct H as [ result [ -> _ ] ]. reflexivity.
  - rewrite H. reflexivity.
Qed.

(** [get_optimal_model] always names a model of [self.models]. A task that
    the configuration lists as suitable for gpt-4 gets gpt-4; any other
    task, the ones listed for gpt-3.5-turbo included, gets gpt-3.5-turbo
    exactly when the text has at most 3000 characters, and gpt-4 when it is
    longer. *)
Theorem optimal_model_is_configured (task_type : string) (text_length : Z) :
  let gpt4 :=
    PyDict.get LLMService.models "gpt-4" (LLMService.mkModelConfig 0 0 []) in
  PyDict.mem LLMService.models (LLMService.get_optimal_model task_type text_length)
  = true
  /\ (In task_type (LLMService.suitable_for gpt4) ->
      LLMService.get_optimal_model task_type text_length = "gpt-4"%string)
  /\ (~ In task_type (LLMService.suitable_for gpt4) ->
      LLMService.get_optimal_model task_type text_length
      = if (text_length <=? 3000)%Z then "gpt-3.5-turbo"%string else "gpt-4"%string).
Proof.
  cbv zeta. unfold LLMService.get_optimal_model.
  change (LLMService.suitable_for
            (PyDict.get LLMService.models "gpt-4" (LLMService.mkModelConfig 0 0 [])))
    with [ "complex_analysis"; "detailed_comparison"; "risk_assessment" ]%string.
  destruct (existsb (String.eqb task_type)
              [ "complex_analysis"; "detailed_comparison"; "risk_assessment" ]%string)
    eqn:E.
  - split; [ reflexivity | ]. split; [ reflexivity | ].
    intro N. exfalso. apply N.
    apply existsb_exists in E. destruct E as [ x [ Hin Hx ] ].
    apply String.eqb_eq in Hx. subst x. exact Hin.
  - assert (N : ~ In task_type
                    [ "complex_analysis"; "detailed_comparison"; "risk_assessment" ]%string).
    { intro Hin. apply Bool.not_true_iff_false in E. apply E.
      apply existsb_exists. exists task_type. split; [ exact Hin | ].
      apply String.eqb_refl. }
    rewrite Z.ltb_antisym.
    destruct (text_length <=? 3000)%Z; simpl;
      (split; [ reflexivity | split; [ intro H; contradiction | reflexivity ] ]).
Qed.

(* ===================================================================== *)
(** * [src/services/comparison_service.py]: history and statistics *)
(* ===================================================================== *)

Module ComparisonStats.

(** [sum(values)]: the values are added from the left, starting at 0, each
    addition rounding. (CPython 3.12 and later carry a correction for the
    rounding errors of the finite values along; the special values
    propagate in the same way.) *)
Definition sum (values : list Np.float64) : Np.float64 :=
  fold_left Np.add values (Np.Fin 0).

(** [a / n] for a positive [int] [n], which is converted to a double. *)
Definition div_int (a : Np.float64) (n : nat) : Np.float64 :=
  Np.divide a (Np.of_Q (inject_Z (Z.of_nat n))).

(** [round(a, 3)]; a special value is returned as it is. *)
Definition round3 (a : Np.float64) : Np.float64 :=
  match a with
  | Np.Fin x => Np.Fin (Binary64.py_round x 3)
  | special => special
  end.

(** The dict [get_comparison_stats] returns. *)
Record Stats : Type := mkStats {
  total_comparisons : nat;
  completed_comparisons : nat;
  pending_comparisons : Z;
  average_similarity : Np.float64;
  last_comparison : option datetime
}.

Definition is_completed (c : Comparison) : bool :=
  match comparison_status_of c with
  | CmpCompleted => true
  | _ => false
  end.

Section History.

(** The column [created_at] of the row with this key: the time of the
    server when the row was inserted. *)
Variable created_at : UUID -> datetime.

(** [ORDER BY created_at DESC]: the row goes before the first row that is
    older. The order among rows of the same time is the database's choice;
    here they keep the order of the store. *)
Fixpoint insert_desc (c : Comparison) (sorted : list Comparison) : list Comparison :=
  match sorted with
  | [] => [c]
  | x :: rest =>
      if (created_at (comparison_id x) <? created_at (comparison_id c))%Z
      then c :: sorted
      else x :: insert_desc c rest
  end.

Definition order_by_created_at_desc (rows : list Comparison) : list Comparison :=
  fold_right insert_desc [] rows.

(** [ComparisonService.get_comparison_history]. *)
Definition get_comparison_history (db : Session) (company_id : UUID)
  : list Comparison :=
  order_by_created_at_desc
    (filter (fun c => comparison_company_id c =? company_id)%nat (comparisons db)).

(** [[c.similarity_score for c in comparisons if c.similarity_score is not None]]. *)
Fixpoint scores (comparisons : list Comparison) : list Np.float64 :=
  match comparisons with
  | [] => []
  | c :: rest =>
      match similarity_score c with
      | Some score => score :: scores rest
      | None => scores rest
      end
  end.

(** [ComparisonService.get_comparison_stats]. *)
Definition get_comparison_stats (db : Session) (company_id : UUID) : Stats :=
  let comparisons := get_comparison_history db company_id in
  let total_comparisons := List.length comparisons in
  let completed_comparisons := List.length (filter is_completed comparisons) in
  let avg_similarity := Np.Fin 0 in
  let avg_similarity :=
    if (0 <? completed_comparisons)%nat
    then
      let similarities := scores comparisons in
      match similarities with
      | [] => avg_similarity
      | _ => div_int (sum similarities) (List.length similarities)
      end
    else avg_similarity in
  mkStats total_comparisons completed_comparisons
    (Z.of_nat total_comparisons - Z.of_nat completed_comparisons)%Z
    (round3 avg_similarity)
    (match comparisons with
     | c :: _ => Some (created_at (comparison_id c))
     | [] => None
     end).

End History.

End ComparisonStats.

(* ===================================================================== *)
(** * Properties of the comparison statistics *)
(* ===================================================================== *)

Module StatsFacts.

Import ComparisonStats.

(** ** Sums *)

Lemma sum_nan_absorbs (values : list Np.float64) :
  fold_left Np.add values Np.NaN = Np.NaN.
Proof. induction values as [ | v values IH ]; [ reflexivity | exact IH ]. Qed.

Lemma add_nan_r (a : Np.float64) : Np.add a Np.NaN = Np.NaN.
Proof. destruct a; reflexivity. Qed.

Lemma sum_with_nan (values : list Np.float64) :
  In Np.NaN values -> forall acc, fold_left Np.add values acc = Np.NaN.
Proof.
  induction values as [ | v values IH ]; intros Hin acc; [ contradiction | ].
  cbn [fold_left]. destruct Hin as [ -> | Hin ].
  - rewrite add_nan_r. apply sum_nan_absorbs.
  - apply IH. exact Hin.
Qed.

Lemma divide_nan (b : Np.float64) : Np.divide Np.NaN b = Np.NaN.
Proof. destruct b; reflexivity. Qed.

Local Open Scope Q_scope.

(** A score that is a number between 0 and 1. *)
Definition unit_score (s : Np.float64) : Prop :=
  exists x, s = Np.Fin x /\ 0 <= x <= 1.

(** The sum of [n] scores between 0 and 1 is between 0 and [n]. *)
Lemma sum_unit_scores (values : list Np.float64) :
  Forall unit_score values ->
  forall (acc : Q) (a : Z),
    0 <= acc -> acc <= inject_Z a ->
    (a + Z.of_nat (List.length values) < 2 ^ 53)%Z ->
    exists total,
      fold_left Np.add values (Np.Fin acc) = Np.Fin total
      /\ 0 <= total <= inject_Z (a + Z.of_nat (List.length values)).
Proof.
  induction 1 as [ | v values [ x [ -> Hx ] ] _ IH ]; intros acc a Hacc Ha Hlen.
  - exists acc. simpl. rewrite Z.add_0_r. split; [ reflexivity | split; assumption ].
  - cbn [fold_left Np.add]. cbn [List.length] in Hlen.
    destruct (@Rounding.of_Q_small (acc + x) (a + 1)) as [ E [ H0 H1 ] ];
      [ lra | rewrite inject_Z_plus; change (inject_Z 1) with 1; lra | lia | ].
    rewrite E.
    destruct (IH (Binary64.round (acc + x)) (a + 1)%Z H0 H1) as [ total [ Et Ht ] ]; [ lia | ].
    exists total. split; [ exact Et | ].
    cbn [List.length].
    replace (a + Z.of_nat (S (List.length values)))%Z
      with (a + 1 + Z.of_nat (List.length values))%Z by lia.
    exact Ht.
Qed.

(** The mean of [n] scores between 0 and 1, as the code computes it, is
    between 0 and 1. *)
Lemma mean_unit_scores (values : list Np.float64) :
  Forall unit_score values ->
  values <> [] ->
  (Z.of_nat (List.length values) < 2 ^ 53)%Z ->
  exists mean,
    round3
      (div_int (sum values) (List.length values))
    = Np.Fin mean
    /\ 0 <= mean <= 1.
Proof.
  intros Hunit Hne Hlen.
  set (n := Z.of_nat (List.length values)) in *.
  assert (Hn : (0 < n)%Z) by (subst n; destruct values; [ congruence | simpl; lia ]).
  destruct (@sum_unit_scores values Hunit 0 0%Z) as [ total [ Et [ Ht0 Htn ] ] ];
    [ apply Qle_refl | apply Qle_refl | exact Hlen | ].
  rewrite Z.add_0_l in Htn. fold n in Htn.
  unfold sum, div_int. rewrite Et. fold n.
  assert (Hn0 : 0 <= inject_Z n)
    by (change 0 with (inject_Z 0); rewrite <- Zle_Qle; lia).
  destruct (@Rounding.of_Q_small (inject_Z n) n Hn0 (Qle_refl _) Hlen) as [ En [ _ Hnle ] ].
  assert (Hnge : inject_Z n <= Binary64.round (inject_Z n)).
  { apply Rounding.round_ge_int; [ exact Hn | apply Qle_refl | ].
    rewrite (@Rounding.pow2_Z 53) by lia. rewrite <- Zlt_Qlt. exact Hlen. }
  rewrite En. set (d := Binary64.round (inject_Z n)) in *.
  assert (Hd : 0 < d).
  { apply Qlt_le_trans with (y := inject_Z n); [ | exact Hnge ].
    change 0 with (inject_Z 0). rewrite <- Zlt_Qlt. exact Hn. }
  cbn [Np.divide].
  destruct (Qeq_bool d 0) eqn:Ez; [ apply Qeq_bool_eq in Ez; exfalso; lra | ].
  assert (Hq0 : 0 <= total / d).
  { apply Qle_shift_div_l; [ exact Hd | lra ]. }
  assert (Hq1 : total / d <= inject_Z 1).
  { apply Qle_shift_div_r; [ exact Hd | ]. change (inject_Z 1) with 1. lra. }
  destruct (@Rounding.of_Q_small (total / d) 1 Hq0 Hq1) as [ Eq [ Hm0 Hm1 ] ]; [ reflexivity | ].
  rewrite Eq. cbn [round3].
  eexists. split; [ reflexivity | ].
  apply (@Rounding.py_round_range _ 3 1%Z); [ exact Hm0 | exact Hm1 | reflexivity ].
Qed.

Local Close Scope Q_scope.

(** ** The history *)

Section History.

Variable created_at : UUID -> datetime.

Lemma insert_desc_in (c x : Comparison) (sorted : list Comparison) :
  In x (insert_desc created_at c sorted) <-> x = c \/ In x sorted.
Proof.
  induction sorted as [ | y rest IH ]; simpl.
  - intuition congruence.
  - destruct (created_at (comparison_id y) <? created_at (comparison_id c))%Z;
      simpl; [ intuition congruence | ].
    rewrite IH. intuition congruence.
Qed.

Lemma order_in (x : Comparison) (rows : list Comparison) :
  In x (order_by_created_at_desc created_at rows) <-> In x rows.
Proof.
  induction rows as [ | c rows IH ]; simpl; [ tauto | ].
  rewrite insert_desc_in, IH. intuition congruence.
Qed.

Lemma insert_desc_count (p : Comparison -> bool) (c : Comparison)
  (sorted : list Comparison) :
  List.length (filter p (insert_desc created_at c sorted))
  = List.length (filter p (c :: sorted)).
Proof.
  induction sorted as [ | y rest IH ]; [ reflexivity | ].
  cbn [insert_desc].
  destruct (created_at (comparison_id y) <? created_at (comparison_id c))%Z;
    [ reflexivity | ].
  simpl in *. destruct (p y), (p c); simpl in *; lia.
Qed.

Lemma order_count (p : Comparison -> bool) (rows : list Comparison) :
  List.length (filter p (order_by_created_at_desc created_at rows))
  = List.length (filter p rows).
Proof.
  induction rows as [ | c rows IH ]; [ reflexivity | ].
  simpl. rewrite insert_desc_count. simpl.
  destruct (p c); simpl; rewrite IH; reflexivity.
Qed.

Lemma order_length (rows : list Comparison) :
  List.length (order_by_created_at_desc created_at rows) = List.length rows.
Proof.
  pose proof (order_count (fun _ => true) rows) as H.
  rewrite !filter_true in H. exact H.
Qed.

(** The first row of the history is a latest one. *)
Lemma order_head (rows : list Comparison) :
  match order_by_created_at_desc created_at rows with
  | [] => rows = []
  | c :: _ =>
      In c rows
      /\ forall x, In x rows ->
         (created_at (comparison_id x) <= created_at (comparison_id c))%Z
  end.
Proof.
  induction rows as [ | a rows IH ]; [ reflexivity | ].
  simpl. destruct (order_by_created_at_desc created_at rows) as [ | c sorted ].
  - subst rows. simpl. split; [ left; reflexivity | ].
    intros x [ -> | [] ]. lia.
  - destruct IH as [ Hin Hmax ]. cbn [insert_desc].
    destruct (created_at (comparison_id c) <? created_at (comparison_id a))%Z eqn:E.
    + apply Z.ltb_lt in E. split; [ left; reflexivity | ].
      intros x [ -> | Hx ]; [ lia | ]. specialize (Hmax x Hx). lia.
    + apply Z.ltb_ge in E. split; [ right; exact Hin | ].
      intros x [ -> | Hx ]; [ exact E | exact (Hmax x Hx) ].
Qed.

Lemma scores_in (s : Np.float64) (rows : list Comparison) :
  In s (scores rows) <-> exists c, In c rows /\ similarity_score c = Some s.
Proof.
  induction rows as [ | c rows IH ]; simpl.
  - split; [ contradiction | intros [ c [ [] _ ] ] ].
  - destruct (similarity_score c) as [ s' | ] eqn:E; simpl; rewrite IH; split.
    + intros [ <- | [ c' [ Hin Hs ] ] ]; [ exists c; tauto | exists c'; tauto ].
    + intros [ c' [ [ <- | Hin ] Hs ] ]; [ left; congruence | right; exists c'; tauto ].
    + intros [ c' [ Hin Hs ] ]. exists c'. tauto.
    + intros [ c' [ [ <- | Hin ] Hs ] ]; [ congruence | exists c'; tauto ].
Qed.

Lemma scores_length (rows : list Comparison) :
  List.length (scores rows) <= List.length rows.
Proof.
  induction rows as [ | c rows IH ]; simpl; [ lia | ].
  destruct (similarity_score c); simpl; lia.
Qed.

End History.

End StatsFacts.

(** The counts of [get_comparison_stats] are those of the company's
    comparisons in the store: ['pending_comparisons'] counts every
    comparison that is not completed, the ones in status error or
    processing included; ['last_comparison'] is [None] exactly when the
    company has no comparison, and otherwise the latest creation time. *)
Theorem comparison_stats_counts (created_at : UUID -> datetime)
  (db : Session) (company_id : UUID) :
  let stats := ComparisonStats.get_comparison_stats created_at db company_id in
  let mine :=
    filter (fun c => comparison_company_id c =? company_id) (comparisons db) in
  ComparisonStats.total_comparisons stats = List.length mine
  /\ ComparisonStats.completed_comparisons stats
     = List.length (filter ComparisonStats.is_completed mine)
  /\ ComparisonStats.pending_comparisons stats
     = Z.of_nat
         (List.length (filter (fun c => negb (ComparisonStats.is_completed c)) mine))
  /\ (ComparisonStats.last_comparison stats = None <-> mine = [])
  /\ (forall t,
        ComparisonStats.last_comparison stats = Some t ->
        (exists c, In c mine /\ created_at (comparison_id c) = t)
        /\ (forall c, In c mine -> (created_at (comparison_id c) <= t)%Z)).
Proof.
  cbv zeta. unfold ComparisonStats.get_comparison_stats,
    ComparisonStats.get_comparison_history. simpl.
  set (mine := filter (fun c => comparison_company_id c =? company_id) (comparisons db)).
  rewrite StatsFacts.order_length, StatsFacts.order_count.
  split; [ reflexivity | ]. split; [ reflexivity | ].
  split.
  { rewrite <- Nat2Z.inj_sub.
    - f_equal. clear. induction mine as [ | c l IH ]; [ reflexivity | ].
      cbn [filter List.length].
      pose proof (@filter_length_le _ ComparisonStats.is_completed l).
      destruct (ComparisonStats.is_completed c); cbn [negb List.length]; lia.
    - apply filter_length_le. }
  pose proof (StatsFacts.order_head created_at mine) as H.
  destruct (ComparisonStats.order_by_created_at_desc created_at mine) as [ | c sorted ].
  - split; [ tauto | ]. intros t E. discriminate.
  - destruct H as [ Hin Hmax ]. split.
    + split; [ discriminate | ]. intro E. rewrite E in Hin. contradiction.
    + intros t E. injection E as <-. split; [ exists c; tauto | exact Hmax ].
Qed.

(** As long as no comparison of the company is completed,
    ['average_similarity'] is 0.0, whatever scores are stored for it. *)
Theorem comparison_stats_average_without_completed (created_at : UUID -> datetime)
  (db : Session) (company_id : UUID) :
  (forall c,
     In c (comparisons db) -> comparison_company_id c = company_id ->
     comparison_status_of c <> CmpCompleted) ->
  let stats := ComparisonStats.get_comparison_stats created_at db company_id in
  ComparisonStats.completed_comparisons stats = 0
  /\ ComparisonStats.average_similarity stats = Np.Fin 0.
Proof.
  intro Hnone. cbv zeta.
  unfold ComparisonStats.get_comparison_stats. simpl.
  set (history := ComparisonStats.get_comparison_history created_at db company_id).
  assert (Hdone : filter ComparisonStats.is_completed history = []).
  { destruct (filter ComparisonStats.is_completed history) as [ | c l ] eqn:E;
      [ reflexivity | exfalso ].
    assert (Hc : In c (filter ComparisonStats.is_completed history))
      by (rewrite E; left; reflexivity).
    apply filter_In in Hc. destruct Hc as [ Hc Hs ].
    apply StatsFacts.order_in in Hc. apply filter_In in Hc.
    destruct Hc as [ Hc Hid ]. apply Nat.eqb_eq in Hid.
    apply (Hnone c Hc Hid).
    unfold ComparisonStats.is_completed in Hs.
    destruct (comparison_status_of c); [ discriminate .. | reflexivity | discriminate ]. }
  rewrite Hdone. split; reflexivity.
Qed.

(** When every similarity score stored for the company is a double between
    0 and 1, so is ['average_similarity']: the roundings of the sum, of the
    division and of [round] do not leave the interval. The store holds
    fewer than 2**53 comparisons. *)
Theorem comparison_stats_average_in_unit_interval (created_at : UUID -> datetime)
  (db : Session) (company_id : UUID) :
  (forall c s,
     In c (comparisons db) -> comparison_company_id c = company_id ->
     similarity_score c = Some s -> StatsFacts.unit_score s) ->
  (Z.of_nat (List.length (comparisons db)) < 2 ^ 53)%Z ->
  exists a,
    ComparisonStats.average_similarity
      (ComparisonStats.get_comparison_stats created_at db company_id) = Np.Fin a
    /\ (0 <= a <= 1)%Q.
Proof.
  intros Hunit Hlen.
  unfold ComparisonStats.get_comparison_stats. simpl.
  set (history := ComparisonStats.get_comparison_history created_at db company_id).
  assert (Hscores : Forall StatsFacts.unit_score (ComparisonStats.scores history)).
  { apply Forall_forall. intros s Hs.
    apply StatsFacts.scores_in in Hs. destruct Hs as [ c [ Hc Hs ] ].
    apply StatsFacts.order_in in Hc. apply filter_In in Hc.
    destruct Hc as [ Hc Hid ]. apply Nat.eqb_eq in Hid.
    exact (Hunit c s Hc Hid Hs). }
  assert (Hcount : (Z.of_nat (List.length (ComparisonStats.scores history)) < 2 ^ 53)%Z).
  { pose proof (StatsFacts.scores_length history) as H1.
    assert (H2 : List.length history
                 = List.length (filter (fun c => comparison_company_id c =? company_id)
                                  (comparisons db)))
      by apply StatsFacts.order_length.
    pose proof (filter_length_le (fun c => comparison_company_id c =? company_id)
                  (comparisons db)) as H3.
    lia. }
  assert (Hzero : exists a,
             ComparisonStats.round3 (Np.Fin 0) = Np.Fin a /\ (0 <= a <= 1)%Q).
  { exists 0%Q. split; [ reflexivity | split; discriminate ]. }
  destruct (0 <? List.length (filter ComparisonStats.is_completed history));
    [ | exact Hzero ].
  destruct (ComparisonStats.scores history) as [ | s l ] eqn:E; [ exact Hzero | ].
  rewrite <- E in *.
  apply StatsFacts.mean_unit_scores; [ exact Hscores | rewrite E; discriminate | exact Hcount ].
Qed.

(** One stored score that is not a number spoils the average: when the
    company has a completed comparison and one of its comparisons holds the
    score NaN, ['average_similarity'] is NaN. *)
Theorem comparison_stats_average_nan (created_at : UUID -> datetime)
  (db : Session) (company_id : UUID) (done broken : Comparison) :
  In done (comparisons db) -> comparison_company_id done = company_id ->
  comparison_status_of done = CmpCompleted ->
  In broken (comparisons db) -> comparison_company_id broken = company_id ->
  similarity_score broken = Some Np.NaN ->
  ComparisonStats.average_similarity
    (ComparisonStats.get_comparison_stats created_at db company_id) = Np.NaN.
Proof.
  intros Hd Hdc Hds Hb Hbc Hbs.
  unfold ComparisonStats.get_comparison_stats. simpl.
  set (history := ComparisonStats.get_comparison_history created_at db company_id).
  assert (Hin : forall c, In c (comparisons db) -> comparison_company_id c = company_id ->
                          In c history).
  { intros c Hc Hid. apply StatsFacts.order_in. apply filter_In.
    split; [ exact Hc | apply Nat.eqb_eq; exact Hid ]. }
  assert (Hcompleted : (0 <? List.length (filter ComparisonStats.is_completed history))
                       = true).
  { apply Nat.ltb_lt.
    assert (H : In done (filter ComparisonStats.is_completed history)).
    { apply filter_In. split; [ apply Hin; assumption | ].
      unfold ComparisonStats.is_completed. rewrite Hds. reflexivity. }
    destruct (filter ComparisonStats.is_completed history);
      [ contradiction | simpl; lia ]. }
  rewrite Hcompleted.
  assert (Hnan : In Np.NaN (ComparisonStats.scores history)).
  { apply StatsFacts.scores_in. exists broken. split; [ apply Hin | ]; assumption. }
  destruct (ComparisonStats.scores history) as [ | s l ] eqn:E; [ contradiction | ].
  rewrite <- E in *. unfold ComparisonStats.sum, ComparisonStats.div_int.
  rewrite StatsFacts.sum_with_nan by exact Hnan.
  rewrite StatsFacts.divide_nan. reflexivity.
Qed.

(** Comparisons of one company: a completed one, a pending one and one that
    failed after its score was set to NaN. *)
Module StatsExample.

Definition created_at (i : UUID) : datetime := (1700000000 + Z.of_nat i)%Z.

Definition completed : Comparison :=
  mkComparison 10 7 1 2 "internal_vs_sec" CmpCompleted (Some (Np.Fin (1 # 2)))
    (Some (JDict [])) (Some (JDict [])) (Some (JDict [])) (Some (JDict []))
    (Some []) None (Some 1700000100%Z).

Definition pending : Comparison :=
  mkComparison 11 7 1 2 "internal_vs_sec" CmpPending None None None None None
    None None None.

Definition failed : Comparison :=
  mkComparison 12 7 1 2 "internal_vs_sec" CmpError (Some Np.NaN) None None None
    None None None None.

(** A comparison whose run stopped after its score was stored. *)
Definition interrupted : Comparison :=
  mkComparison 13 7 1 2 "internal_vs_sec" CmpProcessing (Some (Np.Fin (3 # 4)))
    None None None None None None None.

Definition clean_store : Session := mkSession [] [ completed; pending ].
Definition spoiled_store : Session := mkSession [] [ completed; pending; failed ].
Definition unfinished_store : Session := mkSession [] [ pending; interrupted; failed ].

End StatsExample.

Lemma comparison_stats_average_without_completed_witness :
  let stats :=
    ComparisonStats.get_comparison_stats StatsExample.created_at
      StatsExample.unfinished_store 7 in
  ComparisonStats.scores (comparisons StatsExample.unfinished_store)
  = [ Np.Fin (3 # 4); Np.NaN ]
  /\ ComparisonStats.completed_comparisons stats = 0
  /\ ComparisonStats.average_similarity stats = Np.Fin 0.
Proof.
  split; [ reflexivity | ].
  apply (@comparison_stats_average_without_completed StatsExample.created_at
           StatsExample.unfinished_store 7).
  intros c [ <- | [ <- | [ <- | [] ] ] ] _; discriminate.
Defined.

Lemma comparison_stats_average_in_unit_interval_witness :
  ComparisonStats.average_similarity
    (ComparisonStats.get_comparison_stats StatsExample.created_at
       StatsExample.clean_store 7) = Np.Fin (1 # 2)
  /\ exists a,
       ComparisonStats.average_similarity
         (ComparisonStats.get_comparison_stats StatsExample.created_at
            StatsExample.clean_store 7) = Np.Fin a
       /\ (0 <= a <= 1)%Q.
Proof.
  split; [ vm_compute; reflexivity | ].
  apply (@comparison_stats_average_in_unit_interval StatsExample.created_at
           StatsExample.clean_store 7).
  - intros c s [ <- | [ <- | [] ] ] _ Hs; simpl in Hs; [ | discriminate ].
    injection Hs as <-. exists (1 # 2)%Q. split; [ reflexivity | split; discriminate ].
  - vm_compute. reflexivity.
Defined.

Lemma comparison_stats_average_nan_witness :
  ComparisonStats.average_similarity
    (ComparisonStats.get_comparison_stats StatsExample.created_at
       StatsExample.spoiled_store 7) = Np.NaN.
Proof.
  apply (@comparison_stats_average_nan StatsExample.created_at
           StatsExample.spoiled_store 7 StatsExample.completed StatsExample.failed);
    simpl; auto.
Defined.

(* ===================================================================== *)
(** * [src/services/report_processing_service.py]: processing statistics *)
(* ===================================================================== *)

Module ProcessingStats.

Local Open Scope Q_scope.

(** The dict [get_processing_stats] returns. *)
Record Stats : Type := mkStats {
  total_reports : nat;
  processed_reports : nat;
  processing_reports : nat;
  error_reports : nat;
  success_rate : Q
}.

Definition has_status (st : report_status) (r : AuditReport) : bool :=
  match st, status r with
  | ReportUploaded, ReportUploaded
  | ReportProcessing, ReportProcessing
  | ReportProcessed, ReportProcessed
  | ReportError, ReportError => true
  | _, _ => false
  end.

(** [ReportProcessingService.get_processing_stats]; a [UUID] is always
    truthy, so the filter is added whenever a company is given. The
    quotient of the two counts is at most 1, no [OverflowError] then, and
    nothing else in the [try] block raises. The quotient, its product with
    100 and the result of [round] are doubles. *)
Definition get_processing_stats (db : Session) (company_id : option UUID) : Stats :=
  let query := audit_reports db in
  let query :=
    match company_id with
    | Some company => filter (fun r => report_company_id r =? company)%nat query
    | None => query
    end in
  let reports := query in
  let total_reports := List.length reports in
  let processed_reports := List.length (filter (has_status ReportProcessed) reports) in
  let processing_reports := List.length (filter (has_status ReportProcessing) reports) in
  let error_reports := List.length (filter (has_status ReportError) reports) in
  mkStats total_reports processed_reports processing_reports error_reports
    (if (0 <? total_reports)%nat
     then ReportProcessing.round2
            (Binary64.round
               (Binary64.round
                  (inject_Z (Z.of_nat processed_reports)
                   / inject_Z (Z.of_nat total_reports)) * 100))
     else 0).

End ProcessingStats.

Module ProcessingStatsFacts.

Import ProcessingStats.

Lemma status_partition (reports : list AuditReport) :
  List.length (filter (has_status ReportProcessed) reports)
  + List.length (filter (has_status ReportProcessing) reports)
  + List.length (filter (has_status ReportError) reports)
  + List.length (filter (has_status ReportUploaded) reports)
  = List.length reports.
Proof.
  induction reports as [ | r reports IH ]; [ reflexivity | ].
  cbn [filter]. unfold has_status in *.
  destruct (status r); cbn [List.length]; lia.
Qed.

Local Open Scope Q_scope.

Lemma quotient_range (p t : nat) :
  (p <= t)%nat -> (0 < t)%nat ->
  0 <= Binary64.round (inject_Z (Z.of_nat p) / inject_Z (Z.of_nat t)) <= 1.
Proof.
  intros Hp Ht.
  pose proof (Compliance.quotient_nonneg p t) as H0.
  split; [ apply Rounding.round_nonneg; exact H0 | ].
  apply (@Rounding.round_le_int _ 1%Z); [ exact H0 | | reflexivity ].
  apply Qle_shift_div_r.
  - change 0 with (inject_Z 0). rewrite <- Zlt_Qlt. lia.
  - rewrite <- inject_Z_mult, <- Zle_Qle. lia.
Qed.

Lemma rate_range (p t : nat) :
  (p <= t)%nat -> (0 < t)%nat ->
  0 <= Binary64.round
         (Binary64.round (inject_Z (Z.of_nat p) / inject_Z (Z.of_nat t)) * 100)
    <= 100.
Proof.
  intros Hp Ht. destruct (quotient_range Hp Ht) as [ H0 H1 ].
  set (q := Binary64.round (inject_Z (Z.of_nat p) / inject_Z (Z.of_nat t))) in *.
  assert (Hlo : 0 <= q * 100) by (apply Qmult_le_0_compat; [ exact H0 | discriminate ]).
  split; [ apply Rounding.round_nonneg; exact Hlo | ].
  apply (@Rounding.round_le_int _ 100%Z); [ exact Hlo | | reflexivity ].
  apply Qle_trans with (y := 1 * 100); [ | discriminate ].
  apply Qmult_le_compat_r; [ exact H1 | discriminate ].
Qed.

End ProcessingStatsFacts.

(** The success rate of [get_processing_stats] lies between 0 and 100; the
    reports counted as processed, processing and failed are at most all the
    selected reports, the rest being the uploaded ones; the rate is 100
    when all are processed and 0 when none is or when there is no report. *)
Theorem processing_stats_rate_in_range (db : Session) (company_id : option UUID) :
  let stats := ProcessingStats.get_processing_stats db company_id in
  (0 <= ProcessingStats.success_rate stats <= 100)%Q
  /\ ProcessingStats.processed_reports stats
     + ProcessingStats.processing_reports stats
     + ProcessingStats.error_reports stats
     <= ProcessingStats.total_reports stats
  /\ (0 < ProcessingStats.total_reports stats ->
      ProcessingStats.processed_reports stats = ProcessingStats.total_reports stats ->
      (ProcessingStats.success_rate stats == 100)%Q)
  /\ (ProcessingStats.processed_reports stats = 0 ->
      (ProcessingStats.success_rate stats == 0)%Q).
Proof.
  cbv zeta. unfold ProcessingStats.get_processing_stats.
  set (reports :=
         match company_id with
         | Some company => filter (fun r => report_company_id r =? company) (audit_reports db)
         | None => audit_reports db
         end).
  cbn [ProcessingStats.success_rate ProcessingStats.processed_reports
       ProcessingStats.processing_reports ProcessingStats.error_reports
       ProcessingStats.total_reports].
  pose proof (ProcessingStatsFacts.status_partition reports) as Hpart.
  set (p := List.length (filter (ProcessingStats.has_status ReportProcessed) reports)) in *.
  set (t := List.length reports) in *.
  split; [ | split; [ lia | split ] ].
  - destruct (Nat.ltb_spec 0 t) as [ Ht | Ht ]; [ | split; discriminate ].
    apply Compliance.round2_range; apply ProcessingStatsFacts.rate_range; lia.
  - intros Ht E. rewrite E.
    apply Nat.ltb_lt in Ht. rewrite Ht.
    rewrite (@Rounding.round_comp (inject_Z (Z.of_nat t) / inject_Z (Z.of_nat t)) 1%Q);
      [ vm_compute; reflexivity | ].
    apply Nat.ltb_lt in Ht.
    field. intro H. unfold Qeq in H. simpl in H. lia.
  - intro E. rewrite E.
    destruct (0 <? t); [ | reflexivity ].
    rewrite (@Rounding.round_comp (inject_Z (Z.of_nat 0) / inject_Z (Z.of_nat t)) 0%Q);
      [ vm_compute; reflexivity | ].
    unfold Qdiv. simpl. ring.
Qed.

(* ===================================================================== *)
(** * [src/services/document_processor.py]: validation and extraction *)
(* ===================================================================== *)

Module Documents.

Import Strings.Byte.

(** [DocumentProcessor.SUPPORTED_FORMATS]. *)
Definition SUPPORTED_FORMATS : list (string * string) :=
  [ ("application/pdf", ".pdf");
    ("application/vnd.openxmlformats-officedocument.wordprocessingml.document",
     ".docx");
    ("text/plain", ".txt") ]%string.

(** The dict [validate_file] returns. *)
Inductive Validation : Type :=
| NotValid (error : string)
| Valid (file_size : nat) (mime_type extension : string).

(** The ['metadata'] of a processed document. *)
Record Metadata : Type := mkMetadata {
  original_filename : string;
  word_count : nat;
  char_count : nat;
  processed_at : string
}.

(** The dict [process_document] returns. *)
Inductive Processing : Type :=
| Failed (error : string)
| Processed (file_size : nat) (mime_type file_hash raw_text : string)
    (metadata : Metadata).

Section Files.

(** The file system: the bytes of the file at a path, if there is one. It
    does not change during a call. *)
Variable fs : string -> option (list byte).

(** [magic.from_file(path, mime=True)], from the path and the bytes. *)
Variable magic_from_file : string -> list byte -> result string.

(** The readers of the three formats: the text of each page of a PDF, the
    text of each paragraph of a DOCX, and the decoded text of a text file. *)
Variable pdf_pages : list byte -> result (list string).
Variable docx_paragraphs : list byte -> result (list string).
Variable read_text : list byte -> result string.

Variable sha256_hexdigest : list byte -> string.

(** [datetime.utcnow().isoformat()]. *)
Variable now : string.

(** [str(e)] of the [FileNotFoundError] that [open] raises. *)
Definition no_such_file (file_path : string) : string :=
  String.append "[Errno 2] No such file or directory: " (PyRepr.repr_str file_path).

(** [DocumentProcessor.validate_file]. *)
Definition validate_file (file_path : string) : Validation :=
  match fs file_path with
  | None => NotValid "File not found"
  | Some content =>
      let file_size := List.length content in
      if (AuditService.max_size <? Z.of_nat file_size)%Z
      then NotValid "File too large (max 50MB)"
      else
        match magic_from_file file_path content with
        | Raise e => NotValid (String.append "Validation error: " (exn_str e))
        | Return mime_type =>
            if PyDict.mem SUPPORTED_FORMATS mime_type
            then Valid file_size mime_type
                   (PyDict.get SUPPORTED_FORMATS mime_type EmptyString)
            else NotValid (String.append "Unsupported file format: " mime_type)
        end
  end.

(** The loop [text += page.extract_text() + '\n']. *)
Fixpoint pages_text (pages : list string) (text : string) : string :=
  match pages with
  | [] => text
  | page :: rest =>
      pages_text rest (String.append text (String.append page PyStr.newline))
  end.

(** [DocumentProcessor.extract_text_from_pdf]. *)
Definition extract_text_from_pdf (file_path : string) : result string :=
  match fs file_path with
  | None =>
      Raise (ValueError
               (String.append "Failed to extract text from PDF: "
                  (no_such_file file_path)))
  | Some content =>
      match pdf_pages content with
      | Return pages => Return (PyStr.strip (pages_text pages EmptyString))
      | Raise e =>
          Raise (ValueError
                   (String.append "Failed to extract text from PDF: " (exn_str e)))
      end
  end.

(** [DocumentProcessor.extract_text_from_docx]. *)
Definition extract_text_from_docx (file_path : string) : result string :=
  match fs file_path with
  | None =>
      Raise (ValueError
               (String.append "Failed to extract text from DOCX: "
                  (no_such_file file_path)))
  | Some content =>
      match docx_paragraphs content with
      | Return text => Return (PyStr.join PyStr.newline text)
      | Raise e =>
          Raise (ValueError
                   (String.append "Failed to extract text from DOCX: " (exn_str e)))
      end
  end.

(** [DocumentProcessor.extract_text_from_txt]. *)
Definition extract_text_from_txt (file_path : string) : result string :=
  match fs file_path with
  | None =>
      Raise (ValueError
               (String.append "Failed to extract text from TXT: "
                  (no_such_file file_path)))
  | Some content =>
      match read_text content with
      | Return text => Return text
      | Raise e =>
          Raise (ValueError
                   (String.append "Failed to extract text from TXT: " (exn_str e)))
      end
  end.

(** [DocumentProcessor.extract_text]. *)
Definition extract_text (file_path mime_type : string) : result string :=
  if String.eqb mime_type "application/pdf"
  then extract_text_from_pdf file_path
  else if String.eqb mime_type
            "application/vnd.openxmlformats-officedocument.wordprocessingml.document"
  then extract_text_from_docx file_path
  else if String.eqb mime_type "text/plain"
  then extract_text_from_txt file_path
  else Raise (ValueError (String.append "Unsupported MIME type: " mime_type)).

(** [DocumentProcessor.process_document]. [calculate_hash] opens the file
    that [validate_file] found. *)
Definition process_document (file_path original_filename : string) : Processing :=
  match validate_file file_path with
  | NotValid error => Failed error
  | Valid file_size mime_type _ =>
      match fs file_path with
      | None => Failed (String.append "Processing error: " (no_such_file file_path))
      | Some content =>
          let file_hash :=
            DocumentProcessor.calculate_hash sha256_hexdigest content in
          match extract_text file_path mime_type with
          | Raise e => Failed (String.append "Processing error: " (exn_str e))
          | Return raw_text =>
              let word_count := List.length (PyWords.split raw_text) in
              let char_count := String.length raw_text in
              Processed file_size mime_type file_hash raw_text
                (mkMetadata original_filename word_count char_count now)
          end
      end
  end.

End Files.

End Documents.

(* ===================================================================== *)
(** * Properties of the document processing *)
(* ===================================================================== *)

Module DocumentFacts.

Import Strings.Byte.
Import Documents.

(** The three formats are the three content types an upload may have. *)
Lemma supported_allowed (mime_type : string) :
  PyDict.mem SUPPORTED_FORMATS mime_type
  = existsb (String.eqb mime_type) AuditService.allowed_types.
Proof.
  unfold PyDict.mem, SUPPORTED_FORMATS, AuditService.allowed_types. simpl.
  rewrite !(String.eqb_sym mime_type). reflexivity.
Qed.

Lemma supported_in (mime_type : string) :
  PyDict.mem SUPPORTED_FORMATS mime_type = true <->
  In mime_type AuditService.allowed_types.
Proof.
  rewrite supported_allowed. split.
  - intro H. apply existsb_exists in H. destruct H as [ x [ Hin Hx ] ].
    apply String.eqb_eq in Hx. subst x. exact Hin.
  - intro H. apply existsb_exists. exists mime_type.
    split; [ exact H | apply String.eqb_refl ].
Qed.

(** The messages with which [process_document] can fail. *)
Inductive document_error : string -> Prop :=
| FileNotFound : document_error "File not found"
| FileTooLarge : document_error "File too large (max 50MB)"
| ValidationError e : document_error (String.append "Validation error: " e)
| UnsupportedFormat mime_type :
    ~ In mime_type AuditService.allowed_types ->
    document_error (String.append "Unsupported file format: " mime_type)
| NoText format e :
    In format [ "PDF"; "DOCX"; "TXT" ]%string ->
    document_error
      (String.append "Processing error: Failed to extract text from "
         (String.append format (String.append ": " e))).

Section Files.

Variable fs : string -> option (list byte).
Variable magic_from_file : string -> list byte -> result string.
Variable pdf_pages : list byte -> result (list string).
Variable docx_paragraphs : list byte -> result (list string).
Variable read_text : list byte -> result string.
Variable sha256_hexdigest : list byte -> string.
Variable now : string.

(** What a successful validation says about the file. *)
Lemma validate_file_valid (file_path : string) (file_size : nat)
  (mime_type extension : string) :
  validate_file fs magic_from_file file_path = Valid file_size mime_type extension ->
  exists content,
    fs file_path = Some content
    /\ file_size = List.length content
    /\ (Z.of_nat file_size <= AuditService.max_size)%Z
    /\ magic_from_file file_path content = Return mime_type
    /\ In mime_type AuditService.allowed_types.
Proof.
  unfold validate_file.
  destruct (fs file_path) as [ content | ]; [ | discriminate ].
  destruct (Z.ltb_spec AuditService.max_size (Z.of_nat (List.length content)))
    as [ Hs | Hs ]; [ discriminate | ].
  destruct (magic_from_file file_path content) as [ m | e ] eqn:Hmagic;
    [ | discriminate ].
  destruct (PyDict.mem SUPPORTED_FORMATS m) eqn:Hm; [ | discriminate ].
  intro H. injection H as <- <- <-.
  exists content.
  split; [ reflexivity | ]. split; [ reflexivity | ]. split; [ exact Hs | ].
  split; [ exact Hmagic | ]. apply supported_in. exact Hm.
Qed.

Lemma validate_file_not_valid (file_path error : string) :
  validate_file fs magic_from_file file_path = NotValid error ->
  document_error error.
Proof.
  unfold validate_file.
  destruct (fs file_path) as [ content | ];
    [ | intro H; injection H as <-; constructor ].
  destruct (AuditService.max_size <? Z.of_nat (List.length content))%Z;
    [ intro H; injection H as <-; constructor | ].
  destruct (magic_from_file file_path content) as [ m | e ];
    [ | intro H; injection H as <-; constructor ].
  destruct (PyDict.mem SUPPORTED_FORMATS m) eqn:Hm; [ discriminate | ].
  intro H. injection H as <-. constructor.
  intro Hin. apply supported_in in Hin. congruence.
Qed.

(** On a file that is there, the text of a supported format is extracted,
    or the failure names the format. *)
Lemma extract_text_supported (file_path mime_type : string) (content : list byte) :
  fs file_path = Some content ->
  In mime_type AuditService.allowed_types ->
  (exists raw_text,
     extract_text fs pdf_pages docx_paragraphs read_text file_path mime_type
     = Return raw_text)
  \/ (exists format e,
        In format [ "PDF"; "DOCX"; "TXT" ]%string
        /\ extract_text fs pdf_pages docx_paragraphs read_text file_path mime_type
           = Raise (ValueError
                      (String.append "Failed to extract text from "
                         (String.append format (String.append ": " e))))).
Proof.
  clear magic_from_file sha256_hexdigest now.
  intros Hfs Hin.
  unfold extract_text, extract_text_from_pdf, extract_text_from_docx,
    extract_text_from_txt.
  rewrite Hfs.
  destruct Hin as [ <- | [ <- | [ <- | [] ] ] ]; simpl.
  - destruct (pdf_pages content) as [ pages | e ];
      [ left; eexists; reflexivity | ].
    right. exists "PDF"%string, (exn_str e). split; [ simpl; tauto | reflexivity ].
  - destruct (docx_paragraphs content) as [ text | e ];
      [ left; eexists; reflexivity | ].
    right. exists "DOCX"%string, (exn_str e). split; [ simpl; tauto | reflexivity ].
  - destruct (read_text content) as [ text | e ];
      [ left; eexists; reflexivity | ].
    right. exists "TXT"%string, (exn_str e). split; [ simpl; tauto | reflexivity ].
Qed.

End Files.

End DocumentFacts.

(** A document that [process_document] reports as valid is a file that
    exists, has at most 50 MB and one of the three supported types; the
    result carries its size, the SHA-256 of its bytes, the text its reader
    extracted, and the number of words and of characters of that text. *)
Theorem processed_document_is_described
  (fs : string -> option (list Byte.byte))
  (magic_from_file : string -> list Byte.byte -> result string)
  (pdf_pages docx_paragraphs : list Byte.byte -> result (list string))
  (read_text : list Byte.byte -> result string)
  (sha256_hexdigest : list Byte.byte -> string) (now : string)
  (file_path original_filename : string)
  (file_size : nat) (mime_type file_hash raw_text : string)
  (metadata : Documents.Metadata) :
  Documents.process_document fs magic_from_file pdf_pages docx_paragraphs read_text
    sha256_hexdigest now file_path original_filename
  = Documents.Processed file_size mime_type file_hash raw_text metadata ->
  exists content,
    fs file_path = Some content
    /\ file_size = List.length content
    /\ (Z.of_nat file_size <= 52428800)%Z
    /\ magic_from_file file_path content = Return mime_type
    /\ In mime_type AuditService.allowed_types
    /\ file_hash = sha256_hexdigest content
    /\ Documents.extract_text fs pdf_pages docx_paragraphs read_text
         file_path mime_type = Return raw_text
    /\ metadata
       = Documents.mkMetadata original_filename (PyStr.word_count raw_text)
           (String.length raw_text) now.
Proof.
  unfold Documents.process_document.
  destruct (Documents.validate_file fs magic_from_file file_path)
    as [ error | size mime ext ] eqn:V; [ discriminate | ].
  destruct (DocumentFacts.validate_file_valid fs magic_from_file file_path V)
    as [ content [ Hfs [ Hsize [ Hmax [ Hmagic Hin ] ] ] ] ].
  rewrite Hfs.
  destruct (Documents.extract_text fs pdf_pages docx_paragraphs read_text
              file_path mime) as [ text | e ] eqn:X; [ | discriminate ].
  intro H. injection H as <- <- <- <- <-.
  exists content.
  split; [ reflexivity | ]. split; [ exact Hsize | ]. split; [ exact Hmax | ].
  split; [ exact Hmagic | ]. split; [ exact Hin | ].
  split; [ apply Uploads.calculate_hash_whole | ].
  split; [ exact X | ].
  rewrite CleanText.split_length. reflexivity.
Qed.

(** When [process_document] fails, its message names the cause: the file
    is missing, too large or of an unsupported type, the type detection
    failed, or the reader of one of the three formats failed. The message
    "Unsupported MIME type" of [extract_text] is never the cause. *)
Theorem failed_document_names_the_cause
  (fs : string -> option (list Byte.byte))
  (magic_from_file : string -> list Byte.byte -> result string)
  (pdf_pages docx_paragraphs : list Byte.byte -> result (list string))
  (read_text : list Byte.byte -> result string)
  (sha256_hexdigest : list Byte.byte -> string) (now : string)
  (file_path original_filename error : string) :
  Documents.process_document fs magic_from_file pdf_pages docx_paragraphs read_text
    sha256_hexdigest now file_path original_filename
  = Documents.Failed error ->
  DocumentFacts.document_error error
  /\ forall mime_type,
       error <> String.append "Processing error: Unsupported MIME type: " mime_type.
Proof.
  intro H.
  assert (E : DocumentFacts.document_error error).
  { revert H. unfold Documents.process_document.
    destruct (Documents.validate_file fs magic_from_file file_path)
      as [ err | size mime ext ] eqn:V.
    - intro H. injection H as <-.
      exact (DocumentFacts.validate_file_not_valid fs magic_from_file file_path V).
    - destruct (DocumentFacts.validate_file_valid fs magic_from_file file_path V)
        as [ content [ Hfs [ _ [ _ [ _ Hin ] ] ] ] ].
      rewrite Hfs.
      destruct (DocumentFacts.extract_text_supported fs pdf_pages docx_paragraphs
                  read_text file_path Hfs Hin)
        as [ [ text X ] | [ format [ e [ Hf X ] ] ] ]; rewrite X; [ discriminate | ].
      intro H. injection H as <-.
      exact (@DocumentFacts.NoText format e Hf). }
  split; [ exact E | ].
  intros mime_type Heq. rewrite Heq in E. clear - E.
  inversion E as [ | | e H | m N H | format e Hf H ]; discriminate.
Qed.

(** The validation of an upload and the validation of the stored file
    accept the same files: an upload whose declared type and size are those
    of the file passes [AuditService._validate_file] exactly when
    [DocumentProcessor.validate_file] finds the file valid. *)
Theorem validators_accept_the_same_files
  (fs : string -> option (list Byte.byte))
  (magic_from_file : string -> list Byte.byte -> result string)
  (file_path : string) (file : AuditService.UploadFile) :
  fs file_path = Some (AuditService.body file) ->
  magic_from_file file_path (AuditService.body file)
  = Return (AuditService.content_type file) ->
  AuditService.size file = Some (Z.of_nat (List.length (AuditService.body file))) ->
  (AuditService._validate_file file = Return true <->
   exists extension,
     Documents.validate_file fs magic_from_file file_path
     = Documents.Valid (List.length (AuditService.body file))
         (AuditService.content_type file) extension).
Proof.
  intros Hfs Hmagic Hsize.
  unfold AuditService._validate_file, Documents.validate_file.
  rewrite Hfs, Hmagic, Hsize, DocumentFacts.supported_allowed.
  rewrite Z.ltb_antisym.
  destruct (existsb (String.eqb (AuditService.content_type file))
              AuditService.allowed_types);
    destruct (Z.of_nat (List.length (AuditService.body file)) <=? AuditService.max_size)%Z;
    simpl; split; try discriminate;
    try (intros [ extension H ]; discriminate);
    try (intros _; eexists; reflexivity);
    try reflexivity.
Qed.

(** A text file and a damaged PDF on disk. *)
Module DocumentExample.

Import Strings.Byte.

Definition notes : string := "Revenue controls were tested.".
Definition notes_bytes : list byte := list_byte_of_string notes.

Definition fs (file_path : string) : option (list byte) :=
  if String.eqb file_path "uploads/notes.txt" then Some notes_bytes
  else if String.eqb file_path "uploads/scan.pdf" then Some UploadExample.pdf_bytes
  else None.

Definition magic_from_file (file_path : string) (content : list byte)
  : result string :=
  if String.eqb file_path "uploads/notes.txt" then Return "text/plain"%string
  else Return "application/pdf"%string.

Definition pdf_pages (content : list byte) : result (list string) :=
  Raise (ValueError "EOF marker not found").

Definition docx_paragraphs (content : list byte) : result (list string) :=
  Raise (ValueError "File is not a zip file").

Definition read_text (content : list byte) : result string :=
  Return (string_of_list_byte content).

Definition now : string := "2024-03-01T09:30:00".

Definition upload : AuditService.UploadFile :=
  AuditService.mkUploadFile "notes.txt" "text/plain" (Some 29%Z) notes_bytes.

End DocumentExample.

Lemma processed_document_is_described_witness :
  exists content,
    DocumentExample.fs "uploads/notes.txt" = Some content
    /\ 29 = List.length content
    /\ (Z.of_nat 29 <= 52428800)%Z
    /\ DocumentExample.magic_from_file "uploads/notes.txt" content
       = Return "text/plain"%string
    /\ In "text/plain"%string AuditService.allowed_types
    /\ UploadExample.digest DocumentExample.notes_bytes
       = UploadExample.digest content
    /\ Documents.extract_text DocumentExample.fs DocumentExample.pdf_pages
         DocumentExample.docx_paragraphs DocumentExample.read_text
         "uploads/notes.txt" "text/plain" = Return DocumentExample.notes
    /\ Documents.mkMetadata "notes.txt" 4 29 DocumentExample.now
       = Documents.mkMetadata "notes.txt"
           (PyStr.word_count DocumentExample.notes)
           (String.length DocumentExample.notes) DocumentExample.now.
Proof.
  apply (@processed_document_is_described DocumentExample.fs
           DocumentExample.magic_from_file DocumentExample.pdf_pages
           DocumentExample.docx_paragraphs DocumentExample.read_text
           UploadExample.digest DocumentExample.now
           "uploads/notes.txt" "notes.txt" 29 "text/plain"
           (UploadExample.digest DocumentExample.notes_bytes)
           DocumentExample.notes
           (Documents.mkMetadata "notes.txt" 4 29 DocumentExample.now)).
  vm_compute. reflexivity.
Defined.

Lemma failed_document_names_the_cause_witness :
  DocumentFacts.document_error
    "Processing error: Failed to extract text from PDF: EOF marker not found"
  /\ forall mime_type,
       "Processing error: Failed to extract text from PDF: EOF marker not found"%string
       <> String.append "Processing error: Unsupported MIME type: " mime_type.
Proof.
  apply (@failed_document_names_the_cause DocumentExample.fs
           DocumentExample.magic_from_file DocumentExample.pdf_pages
           DocumentExample.docx_paragraphs DocumentExample.read_text
           UploadExample.digest DocumentExample.now
           "uploads/scan.pdf" "scan.pdf"
           "Processing error: Failed to extract text from PDF: EOF marker not found").
  vm_compute. reflexivity.
Defined.

Lemma validators_accept_the_same_files_witness :
  AuditService._validate_file DocumentExample.upload = Return true <->
  exists extension,
    Documents.validate_file DocumentExample.fs DocumentExample.magic_from_file
      "uploads/notes.txt"
    = Documents.Valid (List.length (AuditService.body DocumentExample.upload))
        (AuditService.content_type DocumentExample.upload) extension.
Proof.
  apply (@validators_accept_the_same_files DocumentExample.fs
           DocumentExample.magic_from_file "uploads/notes.txt"
           DocumentExample.upload);
    reflexivity.
Defined.
